(** * DosMangos exchange-rate backend: store, bidirectional view and resolver

    A shallow embedding of [backend/app/database.py], [backend/app/oxr_client.py],
    [backend/app/dolar_scraper.py] and [backend/app/rate_service.py], with the
    properties of the rate store and of the resolver proved over it.

    Conventions of the embedding:
    - the table [exchange_rates] carries [UNIQUE(from_currency, to_currency,
      date, rate_type)] and is only written with [INSERT OR REPLACE]; it is a
      finite map from that 4-tuple to the remaining columns.  The [id] column
      is a fresh uuid4 that no query reads and is left out;
    - SQLite [REAL] / Python [float] arithmetic is kept abstract behind the
      class [RateArith] (comparison with zero, [1.0 / x], [x * y], the tests
      for NaN and for infinity); exact rationals give a computable instance,
      and exact rationals with the IEEE special values a second one;
    - Python dictionaries that are only read by key are [gmap]s; the
      dictionary [rates_data] that the scraper iterates is an association
      list in insertion order;
    - code that raises and performs I/O lives in a state-and-exception monad
      over the [World] (database plus the scripted replies of the two
      providers). *)

From Stdlib Require Import ZArith QArith String Ascii List Sorting.Sorted.
From stdpp Require Import base option list gmap strings sorting fin_maps.

Local Open Scope string_scope.
Local Open Scope Z_scope.

(** ** Rate arithmetic *)

(** What the code does with a rate: compares it with zero ([rate > 0] in the
    view, truthiness in the scraper), takes [1.0 / rate], multiplies, and
    reads one from text with [float(s)].  A float may be NaN, which [sqlite3]
    binds as NULL, or infinite. *)
Class RateArith (R : Type) := {
  rate_pos : R -> bool;                  (* rate > 0 *)
  rate_is_zero : R -> bool;              (* rate == 0.0, i.e. a falsy float *)
  rate_is_nan : R -> bool;               (* math.isnan(rate) *)
  rate_is_inf : R -> bool;               (* rate == float("inf") *)
  rate_inv : R -> R;                     (* 1.0 / rate *)
  rate_mul : R -> R -> R;                (* a * b *)
  rate_of_string : string -> option R;   (* float(s); None stands for ValueError *)
}.

(** The one arithmetic law a proof below relies on: the reciprocal of a
    positive rate other than infinity is positive.  ([1.0 / inf] is [0.0];
    the reciprocal of the largest finite double is a subnormal above zero.) *)
Class RateArithLaws (R : Type) `{RateArith R} := {
  rate_inv_pos :
    forall r : R, rate_pos r = true -> rate_is_inf r = false -> rate_pos (rate_inv r) = true;
}.

(** ** The table [exchange_rates] *)

(** [(from_currency, to_currency, date, rate_type)], the UNIQUE columns. *)
Definition Key : Type := string * string * string * string.

Section Store.
Context {R : Type} `{RateArith R}.

(** The columns of a row besides its key. *)
Record Stored := mkStored {
  rate : R;
  source : string;
  fetched_at : string;
}.

Abbreviation Table := (gmap Key Stored).

(** A row of [exchange_rates], as [SELECT * FROM exchange_rates] lists it. *)
Definition Row : Type := Key * Stored.

Definition from_currency (e : Row) : string := e.1.1.1.1.
Definition to_currency (e : Row) : string := e.1.1.1.2.
Definition date (e : Row) : string := e.1.1.2.
Definition rate_type (e : Row) : string := e.1.2.
Definition row_rate (e : Row) : R := rate e.2.
Definition row_source (e : Row) : string := source e.2.

Definition exchange_rates (tbl : Table) : list Row := map_to_list tbl.

(** ** The view [exchange_rates_bidirectional] *)

Record ViewRow := mkViewRow {
  v_from_currency : string;
  v_to_currency : string;
  v_rate : R;
  v_rate_type : string;
  v_date : string;
  v_source : string;
  v_rate_source : string;
}.

(** [SELECT ... 'direct' FROM exchange_rates WHERE rate > 0] *)
Definition direct_select (tbl : Table) : list ViewRow :=
  (fun e => mkViewRow (from_currency e) (to_currency e) (row_rate e)
              (rate_type e) (date e) (row_source e) "direct")
  <$> filter (fun e => rate_pos (row_rate e)) (exchange_rates tbl).

(** [EXISTS (SELECT 1 FROM exchange_rates e2 WHERE e2.from_currency =
    e1.to_currency AND e2.to_currency = e1.from_currency AND e2.rate_type =
    e1.rate_type AND e2.date = e1.date)] *)
Definition reversed_exists (tbl : Table) (e1 : Row) : bool :=
  existsb (fun e2 =>
             String.eqb (from_currency e2) (to_currency e1)
             && String.eqb (to_currency e2) (from_currency e1)
             && String.eqb (rate_type e2) (rate_type e1)
             && String.eqb (date e2) (date e1))
          (exchange_rates tbl).

(** [SELECT e1.to_currency, e1.from_currency, 1.0 / e1.rate, ...,
    e1.source || ' (computed inverse)', 'inverse' FROM exchange_rates e1
    WHERE e1.rate > 0 AND NOT EXISTS (...)] *)
Definition inverse_select (tbl : Table) : list ViewRow :=
  (fun e1 => mkViewRow (to_currency e1) (from_currency e1) (rate_inv (row_rate e1))
               (rate_type e1) (date e1) (row_source e1 ++ " (computed inverse)")
               "inverse")
  <$> filter (fun e1 => rate_pos (row_rate e1) && negb (reversed_exists tbl e1))
             (exchange_rates tbl).

(** [direct UNION ALL inverse] *)
Definition exchange_rates_bidirectional (tbl : Table) : list ViewRow :=
  direct_select tbl ++ inverse_select tbl.

(** ** Reads of [database.py] *)

(** Truthiness of an [Optional[str]] argument ([if rate_type:]): [None] and
    the empty string are both falsy. *)
Definition truthy_str (o : option string) : option string :=
  match o with
  | Some s => if String.eqb s "" then None else Some s
  | None => None
  end.

(** [CASE rate_type WHEN 'official' THEN 1 WHEN 'blue' THEN 2 WHEN 'mep' THEN 3
    WHEN 'ccl' THEN 4 ELSE 5 END] *)
Definition rate_type_rank (rt : string) : Z :=
  if String.eqb rt "official" then 1
  else if String.eqb rt "blue" then 2
  else if String.eqb rt "mep" then 3
  else if String.eqb rt "ccl" then 4
  else 5.

(** [ORDER BY CASE rate_type ... END] *)
Definition rank_le (e1 e2 : Row) : Prop :=
  rate_type_rank (rate_type e1) <= rate_type_rank (rate_type e2).

#[export] Instance rank_le_dec : RelDecision rank_le :=
  fun e1 e2 => decide (rate_type_rank (rate_type e1) <= rate_type_rank (rate_type e2)).

(** [get_rate]: both queries read the table [exchange_rates] itself, not the
    view; [LIMIT 1] and [fetchone()] keep the first row. *)
Definition get_rate (tbl : Table) (from_currency' to_currency' date_str : string)
    (rate_type' : option string) : option R :=
  let rows :=
    match truthy_str rate_type' with
    | Some rt =>
        take 1 (filter (fun e => from_currency e = from_currency'
                                 /\ to_currency e = to_currency'
                                 /\ date e = date_str /\ rate_type e = rt)
                       (exchange_rates tbl))
    | None =>
        take 1 (merge_sort rank_le
                  (filter (fun e => from_currency e = from_currency'
                                    /\ to_currency e = to_currency'
                                    /\ date e = date_str)
                          (exchange_rates tbl)))
    end in
  row_rate <$> head rows.

(** [ORDER BY to_currency, rate_type] on the view. *)
Definition view_order_b (v1 v2 : ViewRow) : bool :=
  match String.compare (v_to_currency v1) (v_to_currency v2) with
  | Lt => true
  | Eq => String.leb (v_rate_type v1) (v_rate_type v2)
  | Gt => false
  end.

Definition view_order (v1 v2 : ViewRow) : Prop := Is_true (view_order_b v1 v2).

#[export] Instance view_order_dec : RelDecision view_order :=
  fun v1 v2 => decide (Is_true (view_order_b v1 v2)).

(** The nested dictionaries [{currency_code: {rate_type: rate}}]. *)
Abbreviation Rates := (gmap string (gmap string R)).

(** The body of the grouping loop:
    [if currency not in result: result[currency] = {}]
    [result[currency][row['rate_type']] = row['rate']]. *)
Definition group_row (result : Rates) (row : ViewRow) : Rates :=
  let currency := v_to_currency row in
  let inner := default ∅ (result !! currency) in
  <[currency := <[v_rate_type row := v_rate row]> inner]> result.

Definition get_all_rates_for_base (tbl : Table) (base_currency date_str : string)
    (rate_type' : option string) : Rates :=
  let rows :=
    match truthy_str rate_type' with
    | Some rt =>
        filter (fun v => v_from_currency v = base_currency
                         /\ v_date v = date_str /\ v_rate_type v = rt)
               (exchange_rates_bidirectional tbl)
    | None =>
        merge_sort view_order
          (filter (fun v => v_from_currency v = base_currency /\ v_date v = date_str)
                  (exchange_rates_bidirectional tbl))
    end in
  foldl group_row ∅ rows.

(** [rates[currency][rate_type]], when both keys are present. *)
Definition rate_at (rates : Rates) (currency rate_type' : string) : option R :=
  rates !! currency ≫= fun inner => inner !! rate_type'.

(** The rate types a query with the optional filter [rate_type'] selects. *)
Definition type_selected (rate_type' : option string) (cls : string) : Prop :=
  match truthy_str rate_type' with
  | Some rt => cls = rt
  | None => True
  end.

(** ** The lookup rule of the specification

    The BidirectionalView rule as the specification words it for [get]: the
    stored direct rate if one exists for the key, otherwise the inverse
    [1/rate] of a stored record under the reversed key, otherwise absent. *)
Definition spec_bidirectional_get (tbl : Table)
    (from_currency' to_currency' date_str rate_type' : string) : option R :=
  match tbl !! (from_currency', to_currency', date_str, rate_type') with
  | Some s => Some (rate s)
  | None =>
      match tbl !! (to_currency', from_currency', date_str, rate_type') with
      | Some s => Some (rate_inv (rate s))
      | None => None
      end
  end.

End Store.

Arguments Stored R : clear implicits.
Arguments ViewRow R : clear implicits.

(** ** Strings, as the scraper handles them *)

(** [s.split(sep)] for a one-character separator. *)
Fixpoint split_on (sep : ascii) (s : string) : list string :=
  match s with
  | EmptyString => [EmptyString]
  | String c s' =>
      if Ascii.eqb c sep then EmptyString :: split_on sep s'
      else match split_on sep s' with
           | [] => [String c EmptyString]
           | w :: ws => String c w :: ws
           end
  end.

(** [s.replace(c, "")] *)
Fixpoint remove_char (c : ascii) (s : string) : string :=
  match s with
  | EmptyString => EmptyString
  | String x s' => if Ascii.eqb x c then remove_char c s' else String x (remove_char c s')
  end.

(** [s.replace(c, d)] *)
Fixpoint replace_char (c d : ascii) (s : string) : string :=
  match s with
  | EmptyString => EmptyString
  | String x s' => String (if Ascii.eqb x c then d else x) (replace_char c d s')
  end.

(** [c.isspace()] on ASCII: tab to carriage return, the separators 28 to 31
    and the space. *)
Definition is_space (c : ascii) : bool :=
  let n := N_of_ascii c in
  ((N.leb 9 n && N.leb n 13) || (N.leb 28 n && N.leb n 32))%N.

Fixpoint lstrip (s : string) : string :=
  match s with
  | EmptyString => EmptyString
  | String c s' => if is_space c then lstrip s' else s
  end.

Fixpoint rstrip (s : string) : string :=
  match s with
  | EmptyString => EmptyString
  | String c s' =>
      match rstrip s' with
      | EmptyString => if is_space c then EmptyString else String c EmptyString
      | r => String c r
      end
  end.

(** [s.strip()] *)
Definition strip (s : string) : string := rstrip (lstrip s).

(** ** Exceptions *)

Inductive exn : Type :=
| OpenExchangeRatesError
| DolarScraperError
| RequestError          (* httpx.RequestError: network failure, timeout *)
| JSONDecodeError       (* response.json() on a malformed body *)
| IntegrityError        (* sqlite3: NOT NULL constraint failed *)
| ValueError
| ZeroDivisionError
| OverflowError
| OSError.

(** The exceptions [datetime.fromtimestamp] raises on a timestamp out of its
    range. *)
Inductive timestamp_exn : Type :=
| TimestampOverflow     (* OverflowError *)
| TimestampOS           (* OSError *)
| TimestampValue.       (* ValueError *)

Definition exn_of_timestamp_exn (e : timestamp_exn) : exn :=
  match e with
  | TimestampOverflow => OverflowError
  | TimestampOS => OSError
  | TimestampValue => ValueError
  end.

(** ** Python's [datetime], as far as the code uses it *)

Class DateTimeLib := {
  datetime : Type;
  (* datetime.fromisoformat(s); None stands for ValueError *)
  fromisoformat : string -> option datetime;
  (* d + timedelta(days=n), where it is a date of the years 1 to 9999 *)
  add_days : datetime -> Z -> datetime;
  (* d + timedelta(days=n) leaves the years 1 to 9999: OverflowError *)
  add_days_overflows : datetime -> Z -> bool;
  (* d.strftime("%Y-%m-%d") *)
  strftime_ymd : datetime -> string;
  (* d.weekday(): Monday is 0, Friday is 4, Sunday is 6 *)
  weekday : datetime -> Z;
  (* datetime.fromtimestamp(ts).date().isoformat(), where it is defined *)
  date_of_timestamp : Z -> string;
  (* the exception datetime.fromtimestamp(ts) raises on a timestamp out of its
     range, if any *)
  fromtimestamp_error : Z -> option timestamp_exn;
}.

(** ** The outside world *)

Inductive outcome (A : Type) : Type :=
| Ret (a : A)
| Raise (e : exn).
Arguments Ret {A} a.
Arguments Raise {A} e.

(** What an HTTP GET produces: no response at all, or a status code with the
    decoded JSON body ([None] when the body does not decode to the expected
    shape). *)
Inductive HttpReply (Body : Type) : Type :=
| RequestFailed
| Response (status_code : Z) (json : option Body).
Arguments RequestFailed {Body}.
Arguments Response {Body} status_code json.

Section Effects.
Context {R : Type} `{RateArith R} `{DateTimeLib}.

(** The JSON object of OpenExchangeRates: [data.get("rates", {})] (a rate may
    be JSON [null]) and [data.get("timestamp")]. *)
Record OxrData := mkOxrData {
  oxr_rates : list (string * option R);
  oxr_timestamp : option Z;
}.

(** The JSON array of ambito.com: a header row, then rows of strings. *)
Definition AmbitoData : Type := list (list string).

(** The database together with everything the code reads from outside: the
    API key of the environment, the replies the two providers will give to
    the successive requests (each may depend on the URL), and the clock. *)
Record World := mkWorld {
  db : gmap Key (Stored R);
  OXR_API_KEY : string;
  oxr_http : list (string -> HttpReply OxrData);
  ambito_http : list (string -> HttpReply AmbitoData);
  utcnow_isoformat : string;   (* datetime.utcnow().isoformat() *)
  utcnow_date : string;        (* datetime.utcnow().date().isoformat() *)
  now_argentina : datetime;    (* datetime.now(ARGENTINA_TZ).replace(tzinfo=None) *)
}.

Definition set_db (tbl : gmap Key (Stored R)) (w : World) : World :=
  mkWorld tbl (OXR_API_KEY w) (oxr_http w) (ambito_http w)
          (utcnow_isoformat w) (utcnow_date w) (now_argentina w).

Definition set_oxr_http (l : list (string -> HttpReply OxrData)) (w : World) : World :=
  mkWorld (db w) (OXR_API_KEY w) l (ambito_http w)
          (utcnow_isoformat w) (utcnow_date w) (now_argentina w).

Definition set_ambito_http (l : list (string -> HttpReply AmbitoData)) (w : World) : World :=
  mkWorld (db w) (OXR_API_KEY w) (oxr_http w) l
          (utcnow_isoformat w) (utcnow_date w) (now_argentina w).

(** Computations that read and write the world and may raise.  A raise keeps
    the writes made so far: every [insert_rate] commits on its own. *)
Definition M (A : Type) : Type := World -> outcome A * World.

#[export] Instance M_ret : MRet M := fun A a w => (Ret a, w).

#[export] Instance M_bind : MBind M := fun A B f m w =>
  match m w with
  | (Ret a, w') => f a w'
  | (Raise e, w') => (Raise e, w')
  end.

Definition raise {A} (e : exn) : M A := fun w => (Raise e, w).

(** [try: body  except Exception: handler] *)
Definition try_except {A} (body : M A) (handler : exn -> M A) : M A := fun w =>
  match body w with
  | (Ret a, w') => (Ret a, w')
  | (Raise e, w') => handler e w'
  end.

Definition get_world : M World := fun w => (Ret w, w).

(** A query against the database. *)
Definition query {A} (q : gmap Key (Stored R) -> A) : M A := fun w => (Ret (q (db w)), w).

Definition lift_outcome {A} (o : outcome A) : M A := fun w => (o, w).

(** [for x in l: acc = body(acc, x)] *)
Fixpoint for_each {A S} (l : list A) (body : S -> A -> M S) (acc : S) : M S :=
  match l with
  | [] => mret acc
  | x :: l' => acc' ← body acc x; for_each l' body acc'
  end.

(** ** Writes of [database.py] *)

(** The value [sqlite3] binds for the parameter [rate]: NULL for [None] and
    for a NaN. *)
Definition bound_rate (rate' : option R) : option R :=
  match rate' with
  | Some r => if rate_is_nan r then None else Some r
  | None => None
  end.

(** [INSERT OR REPLACE INTO exchange_rates ... ; commit].  [rate REAL NOT NULL]
    rejects a NULL rate: the statement aborts and nothing is written. *)
Definition insert_rate (from_currency' to_currency' : string) (rate' : option R)
    (rate_type' date_str source' fetched_at' : string) : M unit := fun w =>
  match bound_rate rate' with
  | None => (Raise IntegrityError, w)
  | Some r =>
      (Ret tt,
       set_db (<[(from_currency', to_currency', date_str, rate_type') :=
                   mkStored r source' fetched_at']> (db w)) w)
  end.

(** ** [oxr_client.py] *)

Definition OXR_BASE_URL : string := "https://openexchangerates.org/api".

(** [await client.get(url, ...)] against the next scripted reply; with no
    reply left the request fails. *)
Definition oxr_client_get (url : string) : M (Z * option OxrData) := fun w =>
  match oxr_http w with
  | [] => (Raise RequestError, w)
  | reply :: rest =>
      match reply url with
      | RequestFailed => (Raise RequestError, set_oxr_http rest w)
      | Response status_code json => (Ret (status_code, json), set_oxr_http rest w)
      end
  end.

(** [if timestamp:] on [data.get("timestamp")]. *)
Definition truthy_int (o : option Z) : option Z :=
  match o with
  | Some n => if n =? 0 then None else Some n
  | None => None
  end.

(** The endpoint: historical when a date is given, latest otherwise. *)
Definition oxr_url (date_str : option string) : string :=
  match truthy_str date_str with
  | Some d => OXR_BASE_URL ++ "/historical/" ++ d ++ ".json"
  | None => OXR_BASE_URL ++ "/latest.json"
  end.

(** [target_date]: the date of the provider's timestamp; without a
    timestamp, [date_str or datetime.utcnow().date().isoformat()]. *)
Definition oxr_target_date (date_str : option string) (data : OxrData) (w : World) : string :=
  match truthy_int (oxr_timestamp data) with
  | Some timestamp => date_of_timestamp timestamp
  | None =>
      match truthy_str date_str with
      | Some d => d
      | None => utcnow_date w
      end
  end.

(** [datetime.fromtimestamp(timestamp)] on the provider's timestamp: a
    timestamp out of range raises, before anything is stored. *)
Definition check_timestamp (data : OxrData) : M unit :=
  match truthy_int (oxr_timestamp data) with
  | Some timestamp =>
      match fromtimestamp_error timestamp with
      | Some e => raise (exn_of_timestamp_exn e)
      | None => mret tt
      end
  | None => mret tt
  end.

(** The body of the loop over [rates.items()] ("Store all USD → X rates"). *)
Definition store_oxr_rate (target_date fetched_at' : string) (count : Z)
    (item : string * option R) : M Z :=
  let '(currency, rate') := item in
  if String.eqb currency "USD" then mret count
  else
    insert_rate "USD" currency rate' "official" target_date
                "openexchangerates" fetched_at';;
    mret (count + 1).

Definition fetch_and_store_rates (date_str : option string) : M Z :=
  w ← get_world;
  if String.eqb (OXR_API_KEY w) "" then raise OpenExchangeRatesError
  else
    response ← oxr_client_get (oxr_url date_str);
    if negb (response.1 =? 200) then raise OpenExchangeRatesError
    else
      data ← match response.2 with
             | Some data => mret data
             | None => raise JSONDecodeError
             end;
      let rates := oxr_rates data in
      check_timestamp data;;
      let target_date := oxr_target_date date_str data w in
      let fetched_at' := utcnow_isoformat w in
      for_each rates (store_oxr_rate target_date fetched_at') 0.

(** ** [dolar_scraper.py] *)

Definition AMBITO_API_URL : string :=
  "https://mercados.ambito.com/dolar/informal/historico-general".

(** [day, month, year = date_str.split("/")]; [f"{year}-{month}-{day}"] *)
Definition parse_ambito_date (date_str : string) : outcome string :=
  match split_on "/" date_str with
  | [day; month; year] => Ret (year ++ "-" ++ month ++ "-" ++ day)
  | _ => Raise ValueError
  end.

Definition parse_rate_value (text : string) : option R :=
  if String.eqb text "" then None
  else
    let cleaned := strip (replace_char "," "." (remove_char "." text)) in
    rate_of_string cleaned.

(** Truthiness of an [Optional[float]]: [None] and [0.0] are falsy. *)
Definition truthy_float (o : option R) : option R :=
  match o with
  | Some x => if rate_is_zero x then None else Some x
  | None => None
  end.

(** The dictionary [rates_data], in insertion order. *)
Definition BlueRates : Type := list (string * (R * R)).

(** [d[k] = v]: an existing key keeps its place. *)
Fixpoint dict_set {V} (k : string) (v : V) (d : list (string * V)) : list (string * V) :=
  match d with
  | [] => [(k, v)]
  | (k', v') :: d' =>
      if String.eqb k' k then (k, v) :: d' else (k', v') :: dict_set k v d'
  end.

(** The loop over [data[1:]]. *)
Fixpoint collect_blue_rows (rows : list (list string)) (rates : BlueRates)
    : outcome BlueRates :=
  match rows with
  | [] => Ret rates
  | row :: rest =>
      match row with
      | [date_str; compra_str; venta_str] =>
          let compra := parse_rate_value compra_str in
          let venta := parse_rate_value venta_str in
          match truthy_float compra, truthy_float venta with
          | Some c, Some v =>
              match parse_ambito_date date_str with
              | Ret normalized_date =>
                  collect_blue_rows rest (dict_set normalized_date (c, v) rates)
              | Raise e => Raise e
              end
          | _, _ => collect_blue_rows rest rates
          end
      | _ => collect_blue_rows rest rates
      end
  end.

Definition ambito_client_get (url : string) : M (Z * option AmbitoData) := fun w =>
  match ambito_http w with
  | [] => (Raise RequestError, w)
  | reply :: rest =>
      match reply url with
      | RequestFailed => (Raise RequestError, set_ambito_http rest w)
      | Response status_code json => (Ret (status_code, json), set_ambito_http rest w)
      end
  end.

(** Every exception of the body, the [DolarScraperError]s it raises itself
    included, leaves as a [DolarScraperError]. *)
Definition fetch_historical_blue_rates (from_date to_date : string) : M BlueRates :=
  let url := AMBITO_API_URL ++ "/" ++ from_date ++ "/" ++ to_date in
  try_except
    (response ← ambito_client_get url;
     if negb (response.1 =? 200) then raise DolarScraperError
     else
       match response.2 with
       | Some (header :: row :: rows) =>
           lift_outcome (collect_blue_rows (row :: rows) [])
       | _ => raise DolarScraperError
       end)
    (fun _ => raise DolarScraperError).

(** [1.0 / venta] in Python. *)
Definition py_inv (x : R) : M R :=
  if rate_is_zero x then raise ZeroDivisionError else mret (rate_inv x).

Definition py_fromisoformat (s : string) : M datetime :=
  match fromisoformat s with
  | Some d => mret d
  | None => raise ValueError
  end.

(** [d + timedelta(days=n)] in Python. *)
Definition py_add_days (d : datetime) (n : Z) : M datetime :=
  if add_days_overflows d n then raise OverflowError else mret (add_days d n).

(** The body of the first loop ("First, store all the rates we fetched"). *)
Definition store_fetched_rate (fetched_at' : string) (count : Z)
    (item : string * (R * R)) : M Z :=
  let '(date', (compra, venta)) := item in
  insert_rate "USD" "ARS" (Some compra) "blue" date' "ambito" fetched_at';;
  ars_to_usd_rate ← py_inv venta;
  insert_rate "ARS" "USD" (Some ars_to_usd_rate) "blue" date' "ambito" fetched_at';;
  mret (count + 2).

(** The body of the second loop ("Now copy Friday rates to Saturday and
    Sunday"). *)
Definition copy_friday_rate (fetched_at' : string) (count : Z)
    (item : string * (R * R)) : M Z :=
  let '(date_str', (compra, venta)) := item in
  date_obj ← py_fromisoformat date_str';
  if weekday date_obj =? 4 then
    saturday_obj ← py_add_days date_obj 1;
    let saturday := strftime_ymd saturday_obj in
    insert_rate "USD" "ARS" (Some compra) "blue" saturday
                "ambito (weekend)" fetched_at';;
    ars_to_usd_rate ← py_inv venta;
    insert_rate "ARS" "USD" (Some ars_to_usd_rate) "blue" saturday
                "ambito (weekend)" fetched_at';;
    sunday_obj ← py_add_days date_obj 2;
    let sunday := strftime_ymd sunday_obj in
    insert_rate "USD" "ARS" (Some compra) "blue" sunday
                "ambito (weekend)" fetched_at';;
    insert_rate "ARS" "USD" (Some ars_to_usd_rate) "blue" sunday
                "ambito (weekend)" fetched_at';;
    mret (count + 4)
  else mret count.

(** [target_date] of the scraper: the requested date, or today in Argentina. *)
Definition scrape_target_date (date_str : option string) : M datetime :=
  match truthy_str date_str with
  | Some d => py_fromisoformat d
  | None => w ← get_world; mret (now_argentina w)
  end.

Definition scrape_and_store_ars_rates (date_str : option string) : M Z :=
  w ← get_world;
  target_date ← scrape_target_date date_str;
  from_obj ← py_add_days target_date (-15);
  let from_date := strftime_ymd from_obj in
  to_obj ← py_add_days target_date 15;
  let to_date := strftime_ymd to_obj in
  rates_data ← fetch_historical_blue_rates from_date to_date;
  match rates_data with
  | [] => raise DolarScraperError
  | _ =>
      let fetched_at' := utcnow_isoformat w in
      count ← for_each rates_data (store_fetched_rate fetched_at') 0;
      for_each rates_data (copy_friday_rate fetched_at') count
  end.

(** ** Providers that are out of reach *)

(** A scripted reply that is a failed fetch whatever the URL: no response, or
    a status other than 200. *)
Definition reply_fails {Body} (reply : string -> HttpReply Body) : Prop :=
  forall url, match reply url with
              | RequestFailed => True
              | Response status_code _ => status_code <> 200
              end.

(** Both providers fail on every request still to come. *)
Definition providers_down (w : World) : Prop :=
  Forall reply_fails (oxr_http w) /\ Forall reply_fails (ambito_http w).

(** ** [rate_service.py] *)

(** [if symbols:] on an [Optional[list[str]]]: [None] and [[]] are falsy. *)
Definition truthy_list (o : option (list string)) : option (list string) :=
  match o with
  | Some (x :: l) => Some (x :: l)
  | _ => None
  end.

(** [not d] for a dictionary. *)
Definition dict_is_empty {V} (d : gmap string V) : bool := Nat.eqb (size d) 0.

(** [k in d] *)
Definition dict_has {V} (d : gmap string V) (k : string) : bool :=
  bool_decide (is_Some (d !! k)).

(** [x in ("USD", "ARS")] *)
Definition in_usd_ars (x : string) : bool := String.eqb x "USD" || String.eqb x "ARS".

(** [x in symbols] *)
Definition list_has (l : list string) (x : string) : bool := existsb (String.eqb x) l.

(** The loop over the rate types of the base → USD leg:
    [for rt in base_to_usd: if rt in usd_to_target: interpolated[rt] = ...]. *)
Definition interpolate_types (base_to_usd usd_to_target : gmap string R) : gmap string R :=
  map_imap (fun rt x =>
              match usd_to_target !! rt with
              | Some y => Some (rate_mul x y)
              | None => None
              end)
           base_to_usd.

(** The body of [for target in targets]. *)
Definition interpolate_target (base_to_usd : gmap string R)
    (usd_rates : gmap string (gmap string R))
    (rates : gmap string (gmap string R)) (target : string)
    : gmap string (gmap string R) :=
  match usd_rates !! target with
  | None => rates
  | Some usd_to_target =>
      let interpolated := interpolate_types base_to_usd usd_to_target in
      if dict_is_empty interpolated then rates else <[target := interpolated]> rates
  end.

Definition _interpolate_via_usd (base : string) (targets : list string)
    (date_str : string) (rate_type' : option string) : M (gmap string (gmap string R)) :=
  let rates : gmap string (gmap string R) := ∅ in
  base_to_usd_rates ← query (fun tbl => get_all_rates_for_base tbl base date_str rate_type');
  match base_to_usd_rates !! "USD" with
  | None => mret rates
  | Some base_to_usd =>
      usd_rates ← query (fun tbl => get_all_rates_for_base tbl "USD" date_str rate_type');
      usd_rates ← (if dict_is_empty usd_rates then
                     try_except
                       (fetch_and_store_rates (Some date_str);;
                        query (fun tbl => get_all_rates_for_base tbl "USD" date_str rate_type'))
                       (fun _ => mret usd_rates)
                   else mret usd_rates);
      if dict_is_empty usd_rates then mret rates
      else mret (foldl (interpolate_target base_to_usd usd_rates) rates targets)
  end.

(** [{symbol: all_base_rates[symbol] for symbol in symbols if symbol in all_base_rates}] *)
Definition project_symbols (all_base_rates : gmap string (gmap string R))
    (symbols : list string) : gmap string (gmap string R) :=
  foldl (fun rates symbol =>
           match all_base_rates !! symbol with
           | Some v => <[symbol := v]> rates
           | None => rates
           end)
        ∅ symbols.

(** The first block of [get_rates] ("RULE: For USD base, we need official
    rates from OXR for this date"). *)
Definition backfill_official (base date_str : string) : M unit :=
  if String.eqb base "USD" then
    official_rates ← query (fun tbl => get_all_rates_for_base tbl base date_str (Some "official"));
    if dict_is_empty official_rates then
      try_except (fetch_and_store_rates (Some date_str);; mret tt) (fun _ => mret tt)
    else mret tt
  else mret tt.

(** The second block of [get_rates] ("RULE: For ARS rates, check if we need
    blue rates"). *)
Definition backfill_blue (base : string) (symbols : option (list string))
    (date_str : string) : M unit :=
  if in_usd_ars base
     || match truthy_list symbols with
        | Some l => existsb in_usd_ars l
        | None => false
        end
  then
    let ars_in_request :=
      match truthy_list symbols with
      | None => true
      | Some l => list_has l "ARS" || String.eqb base "ARS"
      end in
    if ars_in_request then
      let check_base := if in_usd_ars base then base else "USD" in
      existing_blue ← query (fun tbl => get_all_rates_for_base tbl check_base date_str (Some "blue"));
      let has_ars_blue := negb (dict_is_empty existing_blue) && dict_has existing_blue "ARS" in
      if negb has_ars_blue then
        try_except (scrape_and_store_ars_rates (Some date_str);; mret tt) (fun _ => mret tt)
      else mret tt
    else mret tt
  else mret tt.

Definition get_rates (base : string) (symbols : option (list string))
    (date_str : string) (rate_type' : option string) : M (gmap string (gmap string R)) :=
  backfill_official base date_str;;
  backfill_blue base symbols date_str;;
  all_base_rates ← query (fun tbl => get_all_rates_for_base tbl base date_str rate_type');
  let rates :=
    match truthy_list symbols with
    | Some l => project_symbols all_base_rates l
    | None => all_base_rates
    end in
  match truthy_list symbols with
  | Some l =>
      if (size rates <? length l)%nat then
        let missing_symbols := filter (fun s => rates !! s = None) l in
        interpolated ← _interpolate_via_usd base missing_symbols date_str rate_type';
        mret (interpolated ∪ rates)
      else mret rates
  | None => mret rates
  end.

(** ** Provider calls that fail *)




End Effects.

(** ** A computable instance: exact rationals and the civil calendar *)

(** The value of a string of decimal digits. *)
Fixpoint digits_value (s : string) (acc : Z) : option Z :=
  match s with
  | EmptyString => Some acc
  | String c s' =>
      let n := Z.of_N (N_of_ascii c) in
      if (48 <=? n) && (n <=? 57) then digits_value s' (10 * acc + (n - 48)) else None
  end.

(** [float(s)] on plain decimal literals: an optional sign, digits, and an
    optional fractional part. *)
Definition Q_of_string (s : string) : option Q :=
  let '(negative, body) :=
    match s with
    | String "-" r => (true, r)
    | String "+" r => (false, r)
    | _ => (false, s)
    end in
  let sign (q : Q) : Q := if negative then Qopp q else q in
  match split_on "." body with
  | [i] =>
      if String.eqb i "" then None
      else n ← digits_value i 0; Some (sign (n # 1))
  | [i; f] =>
      if String.eqb i "" && String.eqb f "" then None
      else
        n ← digits_value i 0;
        m ← digits_value f 0;
        let scale := Pos.pow 10 (Pos.of_nat (String.length f)) in
        if String.eqb f "" then Some (sign (n # 1))
        else Some (sign ((n * Zpos scale + m) # scale))
  | _ => None
  end.

(** Rates that are rationals: no NaN, no infinity. *)
#[export] Instance Q_RateArith : RateArith Q := {|
  rate_pos q := (0 <? Qnum q);
  rate_is_zero q := (Qnum q =? 0);
  rate_is_nan _ := false;
  rate_is_inf _ := false;
  rate_inv q := Qdiv 1 q;
  rate_mul := Qmult;
  rate_of_string := Q_of_string;
|}.

Module Civil.

(** Days since 1970-01-01 of a date of the proleptic Gregorian calendar. *)
Definition days_from_civil (y m d : Z) : Z :=
  let y' := if m <=? 2 then y - 1 else y in
  let era := y' / 400 in
  let yoe := y' - era * 400 in
  let mp := if m >? 2 then m - 3 else m + 9 in
  let doy := (153 * mp + 2) / 5 + d - 1 in
  let doe := yoe * 365 + yoe / 4 - yoe / 100 + doy in
  era * 146097 + doe - 719468.

Definition civil_from_days (z : Z) : Z * Z * Z :=
  let z := z + 719468 in
  let era := z / 146097 in
  let doe := z - era * 146097 in
  let yoe := (doe - doe / 1460 + doe / 36524 - doe / 146096) / 365 in
  let doy := doe - (365 * yoe + yoe / 4 - yoe / 100) in
  let mp := (5 * doy + 2) / 153 in
  let d := doy - (153 * mp + 2) / 5 + 1 in
  let m := if mp <? 10 then mp + 3 else mp - 9 in
  let y := yoe + era * 400 in
  (if m <=? 2 then y + 1 else y, m, d).

Definition digit (n : Z) : ascii := ascii_of_N (Z.to_N (48 + n mod 10)).

Definition two_digits (n : Z) : string :=
  String (digit (n / 10)) (String (digit n) EmptyString).

Definition four_digits (n : Z) : string :=
  String (digit (n / 1000)) (String (digit (n / 100)) (two_digits n)).

Definition format_ymd (z : Z) : string :=
  let '(y, m, d) := civil_from_days z in
  four_digits y ++ "-" ++ two_digits m ++ "-" ++ two_digits d.

(** [YYYY-MM-DD], and only an existing day. *)
Definition parse_ymd (s : string) : option Z :=
  match split_on "-" s with
  | [ys; ms; ds] =>
      if Nat.eqb (String.length ys) 4 && Nat.eqb (String.length ms) 2
         && Nat.eqb (String.length ds) 2
      then
        y ← digits_value ys 0;
        m ← digits_value ms 0;
        d ← digits_value ds 0;
        let z := days_from_civil y m d in
        if (1 <=? y) && String.eqb (format_ymd z) s then Some z else None
      else None
  | _ => None
  end.

(** 0001-01-01 and 9999-12-31, [datetime.min] and [datetime.max]. *)
Definition min_day : Z := days_from_civil 1 1 1.
Definition max_day : Z := days_from_civil 9999 12 31.

Definition in_range (z : Z) : bool := (min_day <=? z) && (z <=? max_day).

(** [datetime.fromtimestamp] on a timestamp outside the years 1 to 9999: a
    [ValueError] ("year is out of range"). *)
Definition timestamp_error (ts : Z) : option timestamp_exn :=
  if in_range (ts / 86400) then None else Some TimestampValue.

(** Dates without a time of day, counted in days since 1970-01-01 (a
    Thursday, [weekday() = 3]); timestamps are read in UTC. *)
#[export] Instance lib : DateTimeLib := {|
  datetime := Z;
  fromisoformat := parse_ymd;
  add_days d n := d + n;
  add_days_overflows d n := negb (in_range (d + n));
  strftime_ymd := format_ymd;
  weekday d := (d + 3) mod 7;
  date_of_timestamp ts := format_ymd (ts / 86400);
  fromtimestamp_error := timestamp_error;
|}.

End Civil.

(** ** Worlds to run the code in *)

Abbreviation QWorld := (@World Q Civil.lib).
Abbreviation QM := (@M Q Civil.lib).

(** An empty database, no provider reachable, the clock at 2024-01-08. *)
Definition empty_world : QWorld :=
  @mkWorld Q Civil.lib ∅ "app-id" [] [] "2024-01-08T00:00:00" "2024-01-08" 19730.

Definition run {A} (m : QM A) (w : QWorld) : QWorld := (m w).2.

Definition result_of {A} (m : QM A) (w : QWorld) : outcome A := (m w).1.

(** ** The rest of [database.py], [oxr_client.py] and [rate_service.py] *)

Section MoreStore.
Context {R : Type} `{RateArith R}.

(** [ORDER BY date DESC] *)
Definition date_desc (e1 e2 : Key * Stored R) : Prop :=
  Is_true (String.leb (date e2) (date e1)).

#[export] Instance date_desc_dec : RelDecision date_desc :=
  fun e1 e2 => decide (Is_true (String.leb (date e2) (date e1))).

(** [get_latest_rate_date]: [SELECT date FROM exchange_rates ORDER BY date
    DESC LIMIT 1], then [row['date'] if row else None]. *)
Definition get_latest_rate_date (tbl : gmap Key (Stored R)) : option string :=
  date <$> head (take 1 (merge_sort date_desc (exchange_rates tbl))).

(** [get_all_rates_for_base] called with [date_str = None], as [main.py] does
    through [ensure_rates_available(None)]: the parameter is bound to NULL
    and [date = NULL] selects no row. *)
Definition get_all_rates_for_base_opt (tbl : gmap Key (Stored R)) (base_currency : string)
    (date_str : option string) (rate_type' : option string) : gmap string (gmap string R) :=
  match date_str with
  | Some d => get_all_rates_for_base tbl base_currency d rate_type'
  | None => ∅
  end.

(** The number of occurrences of a character. *)
Fixpoint count_char (c : ascii) (s : string) : nat :=
  match s with
  | EmptyString => O
  | String x s' => if Ascii.eqb x c then S (count_char c s') else count_char c s'
  end.

(** The keys [fetch_and_store_rates] writes: official rates from USD to
    another currency. *)
Definition oxr_key (k : Key) : Prop :=
  exists currency d, k = ("USD", currency, d, "official") /\ currency <> "USD".

(** The keys [scrape_and_store_ars_rates] writes: blue rates between USD and
    ARS. *)
Definition blue_key (k : Key) : Prop :=
  exists d, k = ("USD", "ARS", d, "blue") \/ k = ("ARS", "USD", d, "blue").

(** The keys either ingestion writes. *)
Definition provider_key (k : Key) : Prop := oxr_key k \/ blue_key k.

End MoreStore.

Section MoreEffects.
Context {R : Type} `{RateArith R} `{DateTimeLib}.



(** [rate_service.ensure_rates_available]; the [print] of the handler is not
    modelled. *)
Definition ensure_rates_available (date_str : option string) : M unit :=
  usd_rates ← query (fun tbl => get_all_rates_for_base_opt tbl "USD" date_str None);
  if dict_is_empty usd_rates then
    try_except (fetch_and_store_rates date_str;; mret tt) (fun _ => mret tt)
  else mret tt.

(** [scheduler.fetch_daily_rates], without its [print]s. *)
Definition fetch_daily_rates : M unit :=
  try_except (fetch_and_store_rates None;; mret tt) (fun _ => mret tt);;
  try_except (scrape_and_store_ars_rates None;; mret tt) (fun _ => mret tt).

(** From [w] to [w'] the database changed at keys in [allowed] only, and
    lost no key. *)
Definition writes_only (allowed : Key -> Prop) (w w' : World (R := R)) : Prop :=
  (forall k, ~ allowed k -> db w' !! k = db w !! k)
  /\ (forall k, is_Some (db w !! k) -> is_Some (db w' !! k)).

(** A computation that, from any world and whether it returns or raises,
    changes the database at keys in [allowed] only and loses no key. *)
Definition M_writes_only {A} (allowed : Key -> Prop) (m : M A) : Prop :=
  forall w, writes_only allowed w (m w).2.

(** Whether a batch entry is dated a Friday ([date_obj.weekday() == 4]). *)
Definition friday_item (item : string * (R * R)) : bool :=
  match fromisoformat item.1 with
  | Some date_obj => weekday date_obj =? 4
  | None => false
  end.

(** ** [main.py]: the [/rates] endpoint *)

(** What the endpoint answers: the [RatesResponse], or the [HTTPException]
    that FastAPI turns into an error response. *)
Inductive http_result : Type :=
| RatesResponse (base date' : string) (rates : gmap string (gmap string R))
| HTTPException (status_code : Z).

(** [c.upper()] on ASCII letters. *)
Definition upper_char (c : ascii) : ascii :=
  let n := N_of_ascii c in
  if (N.leb 97 n && N.leb n 122)%N then ascii_of_N (n - 32) else c.

(** [s.upper()] *)
Fixpoint upper (s : string) : string :=
  match s with
  | EmptyString => EmptyString
  | String c s' => String (upper_char c) (upper s')
  end.

(** [[s.strip().upper() for s in symbols.split(",")]] *)
Definition parse_symbols (symbols : option string) : option (list string) :=
  match truthy_str symbols with
  | Some text => Some ((fun s => upper (strip s)) <$> split_on "," text)
  | None => None
  end.

(** The [try] block of the endpoint.  Every exception raised inside it,
    the [HTTPException(500, "No rates available")] included, leaves as an
    [HTTPException] with status 500. *)
Definition rates_endpoint_body (base : string) (symbol_list : option (list string))
    (date_str : option string) (rate_type' : option string) : M http_result :=
  try_except
    (resolved ← match date_str with
                | Some d => mret (Some d)
                | None =>
                    latest ← query get_latest_rate_date;
                    match truthy_str latest with
                    | Some d => mret (Some d)
                    | None =>
                        ensure_rates_available None;;
                        latest ← query get_latest_rate_date;
                        mret (truthy_str latest)
                    end
                end;
     match resolved with
     | None => mret (HTTPException 500)
     | Some d =>
         rates ← get_rates base symbol_list d rate_type';
         rates ← (if dict_is_empty rates then
                    ensure_rates_available (Some d);;
                    get_rates base symbol_list d rate_type'
                  else mret rates);
         mret (RatesResponse base d rates)
     end)
    (fun _ => mret (HTTPException 500)).

(** [main.get_rates].  [strptime_ok date] stands for
    [datetime.strptime(date, "%Y-%m-%d")] not raising [ValueError]. *)
Definition rates_endpoint (strptime_ok : string -> bool) (base : string)
    (symbols date' rate_type' : option string) : M http_result :=
  match truthy_str date' with
  | Some d =>
      if strptime_ok d then
        rates_endpoint_body (upper base) (parse_symbols symbols) (Some d) rate_type'
      else mret (HTTPException 400)
  | None => rates_endpoint_body (upper base) (parse_symbols symbols) None rate_type'
  end.

End MoreEffects.

(** ** A second instance: rationals with the IEEE special values *)

(** A float that is a rational, an infinity or NaN.  Arithmetic on the
    rationals is exact; the special values follow IEEE 754. *)
Inductive xfloat : Type :=
| Num (q : Q)
| PlusInf
| MinusInf
| NaN.

Definition xfloat_pos (x : xfloat) : bool :=
  match x with
  | Num q => 0 <? Qnum q
  | PlusInf => true
  | MinusInf | NaN => false
  end.

Definition xfloat_is_zero (x : xfloat) : bool :=
  match x with
  | Num q => Qnum q =? 0
  | _ => false
  end.

Definition xfloat_is_nan (x : xfloat) : bool :=
  match x with
  | NaN => true
  | _ => false
  end.

Definition xfloat_is_inf (x : xfloat) : bool :=
  match x with
  | PlusInf => true
  | _ => false
  end.

(** [1.0 / x]; the reciprocal of zero is never taken, the view tests
    [rate > 0] and the scraper tests truthiness before dividing. *)
Definition xfloat_inv (x : xfloat) : xfloat :=
  match x with
  | Num q => Num (Qdiv 1 q)
  | PlusInf | MinusInf => Num 0
  | NaN => NaN
  end.

Definition xfloat_sgn (x : xfloat) : Z :=
  match x with
  | Num q => Z.sgn (Qnum q)
  | PlusInf => 1
  | MinusInf => -1
  | NaN => 0
  end.

Definition xfloat_mul (x y : xfloat) : xfloat :=
  match x, y with
  | NaN, _ | _, NaN => NaN
  | Num a, Num b => Num (Qmult a b)
  | _, _ =>
      match xfloat_sgn x * xfloat_sgn y with
      | Z0 => NaN
      | Zpos _ => PlusInf
      | Zneg _ => MinusInf
      end
  end.

(** [float(s)]: the words [inf], [infinity] and [nan] in any case, with an
    optional sign, and the plain decimal literals. *)
Definition xfloat_of_string (s : string) : option xfloat :=
  let '(negative, body) :=
    match s with
    | String "-" r => (true, r)
    | String "+" r => (false, r)
    | _ => (false, s)
    end in
  let word := upper body in
  if String.eqb word "INF" || String.eqb word "INFINITY"
  then Some (if negative then MinusInf else PlusInf)
  else if String.eqb word "NAN" then Some NaN
  else Num <$> Q_of_string s.

#[export] Instance xfloat_RateArith : RateArith xfloat := {|
  rate_pos := xfloat_pos;
  rate_is_zero := xfloat_is_zero;
  rate_is_nan := xfloat_is_nan;
  rate_is_inf := xfloat_is_inf;
  rate_inv := xfloat_inv;
  rate_mul := xfloat_mul;
  rate_of_string := xfloat_of_string;
|}.

Abbreviation XWorld := (@World xfloat Civil.lib).

Definition x_empty_world : XWorld :=
  @mkWorld xfloat Civil.lib ∅ "app-id" [] [] "2024-01-08T00:00:00" "2024-01-08" 19730.

(** ** Fixtures: the data of the test-suite *)

Definition stored (r : Q) (src : string) : Stored Q := mkStored r src "2024-01-08T00:00:00".

(** [test_ars_to_usd_inverse]: only USD → ARS is stored. *)
Definition inverse_table : gmap Key (Stored Q) :=
  <[("USD", "ARS", "2024-01-08", "official") := stored (146328213 # 100000) "test"]> ∅.

(** [test_priority_official_over_blue]: blue first, then official. *)
Definition priority_table : gmap Key (Stored Q) :=
  <[("ARS", "USD", "2024-01-08", "official") := stored (67 # 100000) "openexchangerates"]>
  (<[("ARS", "USD", "2024-01-08", "blue") := stored (66 # 100000) "dolarhoy"]> ∅).

(** [test_interpolation]: USD → EUR and USD → GBP. *)
Definition interpolation_table : gmap Key (Stored Q) :=
  <[("USD", "GBP", "2024-01-08", "official") := stored (75 # 100) "test"]>
  (<[("USD", "EUR", "2024-01-08", "official") := stored (85 # 100) "test"]> ∅).

(** A table with a record whose rate is negative next to a valid one. *)
Definition mixed_sign_table : gmap Key (Stored Q) :=
  <[("EUR", "USD", "2024-01-08", "official") := stored (-2 # 1) "test"]> inverse_table.

(** Both (USD, ARS) and (ARS, USD) stored for the same date and rate type. *)
Definition both_directions_table : gmap Key (Stored Q) :=
  <[("ARS", "USD", "2024-01-08", "official") := stored (7 # 10000) "test"]> inverse_table.

(** The interpolation data in a world where both providers fail: the first
    drops the connection, the second answers 500. *)
Definition down_world : QWorld :=
  set_ambito_http [fun _ => Response 500 None]
    (set_oxr_http [fun _ => RequestFailed] (set_db interpolation_table empty_world)).

(** A reply of ambito.com with two Fridays (5 and 12 January 2024) and a
    Thursday. *)
Definition ambito_reply : HttpReply (@AmbitoData) :=
  Response 200 (Some [["Fecha"; "Compra"; "Venta"];
                      ["05/01/2024"; "1.000,50"; "1.020,00"];
                      ["04/01/2024"; "990,00"; "1.010,00"];
                      ["12/01/2024"; "1.100,00"; "1.120,00"]]).

Definition weekend_world : QWorld := set_ambito_http [fun _ => ambito_reply] empty_world.

Definition weekend_batch : list (string * (Q * Q)) :=
  [("2024-01-05", (100050 # 100, 102000 # 100));
   ("2024-01-04", (99000 # 100, 101000 # 100));
   ("2024-01-12", (110000 # 100, 112000 # 100))].

(** A reply of ambito.com with a negative buy value. *)
Definition negative_ambito_world : QWorld :=
  set_ambito_http
    [fun _ => Response 200 (Some [["Fecha"; "Compra"; "Venta"];
                                  ["05/01/2024"; "-1.000,50"; "1.020,00"]])]
    empty_world.

(** A reply of OpenExchangeRates with a zero and a negative rate. *)
Definition nonpositive_oxr_world : QWorld :=
  set_oxr_http
    [fun _ => Response 200 (Some (mkOxrData [("EUR", Some (0 # 1)); ("ARS", Some (-5 # 1))]
                                            (Some 1704672000)))]
    empty_world.



(** A reply of OpenExchangeRates with an infinite rate (the JSON literal
    [Infinity], which [response.json()] accepts). *)
Definition infinite_oxr_world : XWorld :=
  set_oxr_http
    [fun _ => Response 200 (Some (mkOxrData [("EUR", Some PlusInf)] (Some 1704672000)))]
    x_empty_world.

(** A reply of ambito.com whose buy value reads as NaN. *)
Definition nan_ambito_world : XWorld :=
  set_ambito_http
    [fun _ => Response 200 (Some [["Fecha"; "Compra"; "Venta"];
                                  ["05/01/2024"; "nan"; "1.020,00"]])]
    x_empty_world.

(** The inverse-only table in a world where both providers fail. *)
Definition inverse_down_world : QWorld := set_db inverse_table down_world.

(** [datetime.strptime(date, "%Y-%m-%d")] succeeding, read on the civil
    calendar. *)
Definition strptime_ok_civil (s : string) : bool :=
  match Civil.parse_ymd s with
  | Some _ => true
  | None => false
  end.

(** * Properties *)

(** Unfolds the operations of the monad [M]. *)
Ltac unfold_monad :=
  unfold mbind, M_bind, mret, M_ret, raise, query, get_world, lift_outcome in *.

(** ** The table and the view *)

Section StoreFacts.
Context {R : Type} `{RateArith R}.
Implicit Types (tbl : gmap Key (Stored R)) (v : ViewRow R).

Lemma elem_of_exchange_rates tbl k s :
  (k, s) ∈ exchange_rates tbl <-> tbl !! k = Some s.
Proof. unfold exchange_rates. apply elem_of_map_to_list. Qed.

Lemma row_key_eta (e : Key * Stored R) :
  e.1 = (from_currency e, to_currency e, date e, rate_type e).
Proof. destruct e as [[[[f t] d] c] s]. reflexivity. Qed.

Lemma elem_of_exchange_rates_row tbl (e : Key * Stored R) :
  e ∈ exchange_rates tbl <->
  tbl !! (from_currency e, to_currency e, date e, rate_type e) = Some e.2.
Proof.
  rewrite <- row_key_eta. destruct e as [k s]. apply elem_of_exchange_rates.
Qed.

(** The [EXISTS] sub-query is a lookup of the reversed key. *)
Lemma reversed_exists_true tbl (e1 : Key * Stored R) :
  reversed_exists tbl e1 = true <->
  is_Some (tbl !! (to_currency e1, from_currency e1, date e1, rate_type e1)).
Proof.
  unfold reversed_exists. rewrite existsb_exists. split.
  - intros (e2 & Hin & Heq).
    apply list_elem_of_In, elem_of_exchange_rates_row in Hin.
    repeat (apply andb_true_iff in Heq as [Heq ?]).
    repeat match goal with E : String.eqb _ _ = true |- _ => apply String.eqb_eq in E end.
    exists e2.2. congruence.
  - intros [s Hs]. exists ((to_currency e1, from_currency e1, date e1, rate_type e1), s).
    split.
    + apply list_elem_of_In, elem_of_exchange_rates. exact Hs.
    + unfold from_currency, to_currency, date, rate_type. simpl.
      rewrite !String.eqb_refl. reflexivity.
Qed.

Lemma reversed_exists_false tbl (e1 : Key * Stored R) :
  reversed_exists tbl e1 = false <->
  tbl !! (to_currency e1, from_currency e1, date e1, rate_type e1) = None.
Proof.
  rewrite <- not_true_iff_false, reversed_exists_true, eq_None_not_Some. reflexivity.
Qed.

(** A row of the view is a stored record with a positive rate, or the
    reciprocal of one whose reversed key is not stored. *)
Lemma elem_of_direct_select tbl v :
  v ∈ direct_select tbl <->
  exists s, tbl !! (v_from_currency v, v_to_currency v, v_date v, v_rate_type v) = Some s
            /\ rate_pos (rate s) = true
            /\ v = mkViewRow (v_from_currency v) (v_to_currency v) (rate s)
                             (v_rate_type v) (v_date v) (source s) "direct".
Proof.
  unfold direct_select. rewrite list_elem_of_fmap. split.
  - intros (e & -> & He). apply list_elem_of_filter in He as [Hpos He].
    apply elem_of_exchange_rates_row in He. apply Is_true_true in Hpos.
    exists e.2. simpl. auto.
  - intros (s & Hs & Hpos & Hv).
    exists ((v_from_currency v, v_to_currency v, v_date v, v_rate_type v), s). split.
    + exact Hv.
    + apply list_elem_of_filter. split.
      * apply Is_true_true. exact Hpos.
      * apply elem_of_exchange_rates. exact Hs.
Qed.

Lemma elem_of_inverse_select tbl v :
  v ∈ inverse_select tbl <->
  exists s, tbl !! (v_to_currency v, v_from_currency v, v_date v, v_rate_type v) = Some s
            /\ rate_pos (rate s) = true
            /\ tbl !! (v_from_currency v, v_to_currency v, v_date v, v_rate_type v) = None
            /\ v = mkViewRow (v_from_currency v) (v_to_currency v) (rate_inv (rate s))
                             (v_rate_type v) (v_date v)
                             (source s ++ " (computed inverse)") "inverse".
Proof.
  unfold inverse_select. rewrite list_elem_of_fmap. split.
  - intros (e & -> & He). apply list_elem_of_filter in He as [Hc He].
    apply elem_of_exchange_rates_row in He.
    apply Is_true_true, andb_true_iff in Hc as [Hpos Hrev].
    apply negb_true_iff, reversed_exists_false in Hrev.
    exists e.2. simpl. auto.
  - intros (s & Hs & Hpos & Hnone & Hv).
    exists ((v_to_currency v, v_from_currency v, v_date v, v_rate_type v), s). split.
    + exact Hv.
    + apply list_elem_of_filter. split.
      * apply Is_true_true, andb_true_iff. split; [exact Hpos|].
        apply negb_true_iff, reversed_exists_false. exact Hnone.
      * apply elem_of_exchange_rates. exact Hs.
Qed.

Lemma elem_of_view tbl v :
  v ∈ exchange_rates_bidirectional tbl <->
  v ∈ direct_select tbl \/ v ∈ inverse_select tbl.
Proof. unfold exchange_rates_bidirectional. apply elem_of_app. Qed.

(** At most one row of the view per (from, to, date, rate type). *)
Lemma view_row_unique tbl v1 v2 :
  v1 ∈ exchange_rates_bidirectional tbl ->
  v2 ∈ exchange_rates_bidirectional tbl ->
  v_from_currency v1 = v_from_currency v2 ->
  v_to_currency v1 = v_to_currency v2 ->
  v_date v1 = v_date v2 ->
  v_rate_type v1 = v_rate_type v2 ->
  v1 = v2.
Proof.
  intros H1 H2 Hf Ht Hd Hc.
  apply elem_of_view in H1, H2.
  rewrite elem_of_direct_select, elem_of_inverse_select in H1, H2.
  rewrite Hf, Ht, Hd, Hc in H1.
  destruct H1 as [(s1 & E1 & _ & ->) | (s1 & E1 & _ & N1 & ->)];
    destruct H2 as [(s2 & E2 & _ & ->) | (s2 & E2 & _ & N2 & ->)];
    congruence.
Qed.

(** ** Grouping rows into nested dictionaries *)

Lemma rate_at_group_row (acc : gmap string (gmap string R)) v c cls :
  rate_at (group_row acc v) c cls =
  if decide (c = v_to_currency v /\ cls = v_rate_type v) then Some (v_rate v)
  else rate_at acc c cls.
Proof.
  unfold rate_at, group_row.
  destruct (decide (c = v_to_currency v)) as [->|Hc].
  - rewrite lookup_insert_eq. simpl.
    destruct (decide (cls = v_rate_type v)) as [->|Hcls].
    + rewrite lookup_insert_eq. rewrite decide_True by auto. reflexivity.
    + rewrite lookup_insert_ne by congruence.
      rewrite decide_False by tauto.
      destruct (acc !! v_to_currency v); simpl; [reflexivity | apply lookup_empty].
  - rewrite lookup_insert_ne by congruence. rewrite decide_False by tauto. reflexivity.
Qed.

(** After the loop an entry is the one of the accumulator, untouched, or the
    rate of a row of the list. *)
Lemma rate_at_foldl_group (rows : list (ViewRow R)) acc c cls :
  (rate_at (foldl group_row acc rows) c cls = rate_at acc c cls
   /\ forall v, v ∈ rows -> ~ (v_to_currency v = c /\ v_rate_type v = cls))
  \/ (exists v, v ∈ rows /\ v_to_currency v = c /\ v_rate_type v = cls
                /\ rate_at (foldl group_row acc rows) c cls = Some (v_rate v)).
Proof.
  revert acc. induction rows as [|x rows IH]; intros acc; simpl.
  - left. split; [reflexivity|]. intros v Hv. inversion Hv.
  - destruct (IH (group_row acc x)) as [[E N] | (v & Hv & Hc & Hcls & E)].
    + rewrite rate_at_group_row in E. case_decide as D.
      * right. exists x. destruct D as [-> ->]. split; [left|]. auto.
      * left. split; [exact E|]. intros v Hv.
        apply elem_of_cons in Hv as [->|Hv]; [|auto].
        intros [Hc Hcls]. apply D. split; congruence.
    + right. exists v. split; [right; exact Hv | auto].
Qed.

Lemma inner_nonempty_group_row (acc : gmap string (gmap string R)) v :
  (forall c m, acc !! c = Some m -> m <> ∅) ->
  forall c m, group_row acc v !! c = Some m -> m <> ∅.
Proof.
  intros Hacc c m. unfold group_row.
  destruct (decide (c = v_to_currency v)) as [->|Hc].
  - rewrite lookup_insert_eq. intros [= <-]. apply insert_non_empty.
  - rewrite lookup_insert_ne by congruence. apply Hacc.
Qed.

Lemma inner_nonempty_foldl_group (rows : list (ViewRow R)) acc :
  (forall c m, acc !! c = Some m -> m <> ∅) ->
  forall c m, foldl group_row acc rows !! c = Some m -> m <> ∅.
Proof.
  revert acc. induction rows as [|x rows IH]; intros acc Hacc; simpl; [exact Hacc|].
  apply IH. apply inner_nonempty_group_row. exact Hacc.
Qed.

(** ** [get_all_rates_for_base], entry by entry *)

Lemma rate_at_get_all tbl base d rt c cls r :
  rate_at (get_all_rates_for_base tbl base d rt) c cls = Some r <->
  exists v, v ∈ exchange_rates_bidirectional tbl
            /\ v_from_currency v = base /\ v_to_currency v = c /\ v_date v = d
            /\ v_rate_type v = cls /\ v_rate v = r /\ type_selected rt cls.
Proof.
  unfold get_all_rates_for_base, type_selected.
  set (rows := match truthy_str rt with Some _ => _ | None => _ end).
  assert (Hrows : forall v, v ∈ rows <->
            v ∈ exchange_rates_bidirectional tbl /\ v_from_currency v = base
            /\ v_date v = d /\ match truthy_str rt with
                                | Some t => v_rate_type v = t
                                | None => True
                                end).
  { intros v. subst rows. destruct (truthy_str rt) as [t|].
    - rewrite list_elem_of_filter. tauto.
    - rewrite merge_sort_Permutation, list_elem_of_filter. tauto. }
  clearbody rows.
  destruct (rate_at_foldl_group rows ∅ c cls) as [[E N] | (v & Hv & Hc & Hcls & E)].
  - rewrite E. unfold rate_at at 1. rewrite lookup_empty. simpl. split; [discriminate|].
    intros (v & Hv & Hf & Hc & Hd & Hcls & _ & Ht). exfalso.
    apply (N v); [|auto]. apply Hrows. subst cls. auto.
  - rewrite E. apply Hrows in Hv as (Hview & Hf & Hd & Ht). split.
    + intros [= <-]. exists v. subst cls. auto 10.
    + intros (v' & Hv' & Hf' & Hc' & Hd' & Hcls' & Hr' & _).
      rewrite (view_row_unique tbl v v') by congruence. congruence.
Qed.

(** A stored record with a positive rate is answered as it is stored. *)
Lemma rate_at_get_all_direct tbl base c d cls rt (s : Stored R) :
  tbl !! (base, c, d, cls) = Some s ->
  rate_pos (rate s) = true ->
  type_selected rt cls ->
  rate_at (get_all_rates_for_base tbl base d rt) c cls = Some (rate s).
Proof.
  intros Hs Hpos Hsel. apply rate_at_get_all.
  exists (mkViewRow base c (rate s) cls d (source s) "direct").
  split; [|simpl; auto 10].
  apply elem_of_view. left. apply elem_of_direct_select. exists s. simpl. auto.
Qed.

Lemma get_all_inner_nonempty tbl base d rt c m :
  get_all_rates_for_base tbl base d rt !! c = Some m -> m <> ∅.
Proof.
  unfold get_all_rates_for_base. apply inner_nonempty_foldl_group.
  intros c' m'. rewrite lookup_empty. discriminate.
Qed.

(** ** The bidirectional view *)

(** A stored record whose rate is not positive gives no row for its key,
    and still keeps the inverse of the reversed record out. *)
Lemma rate_at_get_all_nonpositive tbl base c d cls rt (s : Stored R) :
  tbl !! (base, c, d, cls) = Some s ->
  rate_pos (rate s) = false ->
  rate_at (get_all_rates_for_base tbl base d rt) c cls = None.
Proof.
  intros Hs Hneg.
  destruct (rate_at (get_all_rates_for_base tbl base d rt) c cls) as [r|] eqn:E;
    [exfalso | reflexivity].
  apply rate_at_get_all in E as (v & Hv & <- & <- & <- & <- & _).
  apply elem_of_view in Hv.
  rewrite elem_of_direct_select, elem_of_inverse_select in Hv.
  destruct Hv as [(s' & E' & Hpos & _) | (s' & _ & _ & N & _)]; congruence.
Qed.

(** C1, as the code has it.  For a stored record [(A, B, d, cls)] with a
    positive rate [r]: the view holds the direct row [(A, B, r)]; it holds
    the inverse row [(B, A, 1/r)] exactly when no record is stored under the
    reversed key [(B, A, d, cls)]; every row the view has for [B -> A] on
    that date and rate type is the stored [(B, A)] record when there is one
    (and the reciprocal otherwise).  What [get_all_rates_for_base] answers
    for [B -> A] is the stored [(B, A)] rate when that rate is positive,
    nothing when a [(B, A)] record is stored with a rate that is not
    positive, and [1/r] when no [(B, A)] record is stored. *)
Theorem bidirectional_view_characterized tbl A B d cls s :
  tbl !! (A, B, d, cls) = Some s ->
  rate_pos (rate s) = true ->
  mkViewRow A B (rate s) cls d (source s) "direct" ∈ exchange_rates_bidirectional tbl
  /\ (mkViewRow B A (rate_inv (rate s)) cls d (source s ++ " (computed inverse)") "inverse"
        ∈ exchange_rates_bidirectional tbl
      <-> tbl !! (B, A, d, cls) = None)
  /\ (forall v, v ∈ exchange_rates_bidirectional tbl ->
        v_from_currency v = B -> v_to_currency v = A ->
        v_date v = d -> v_rate_type v = cls ->
        match tbl !! (B, A, d, cls) with
        | Some s' => v = mkViewRow B A (rate s') cls d (source s') "direct"
        | None => v = mkViewRow B A (rate_inv (rate s)) cls d
                                (source s ++ " (computed inverse)") "inverse"
        end)
  /\ (forall s' rt, tbl !! (B, A, d, cls) = Some s' -> rate_pos (rate s') = true ->
        type_selected rt cls ->
        rate_at (get_all_rates_for_base tbl B d rt) A cls = Some (rate s'))
  /\ (forall rt, tbl !! (B, A, d, cls) = None -> type_selected rt cls ->
        rate_at (get_all_rates_for_base tbl B d rt) A cls = Some (rate_inv (rate s)))
  /\ (forall s' rt, tbl !! (B, A, d, cls) = Some s' -> rate_pos (rate s') = false ->
        rate_at (get_all_rates_for_base tbl B d rt) A cls = None
        /\ forall v, v ∈ exchange_rates_bidirectional tbl ->
                     ~ (v_from_currency v = B /\ v_to_currency v = A
                        /\ v_date v = d /\ v_rate_type v = cls)).
Proof.
  intros Hs Hpos.
  assert (Hdirect : forall X Y (sx : Stored R), tbl !! (X, Y, d, cls) = Some sx ->
            rate_pos (rate sx) = true ->
            mkViewRow X Y (rate sx) cls d (source sx) "direct"
              ∈ exchange_rates_bidirectional tbl).
  { intros X Y sx Hx Hp. apply elem_of_view. left. apply elem_of_direct_select.
    exists sx. simpl. auto. }
  assert (Hinverse : tbl !! (B, A, d, cls) = None ->
            mkViewRow B A (rate_inv (rate s)) cls d
                      (source s ++ " (computed inverse)") "inverse"
              ∈ exchange_rates_bidirectional tbl).
  { intros Hn. apply elem_of_view. right. apply elem_of_inverse_select.
    exists s. simpl. auto. }
  split; [auto|]. split; [|split; [|split; [|split]]].
  - split; [|exact Hinverse].
    intros Hin. apply elem_of_view in Hin as [Hin|Hin].
    + apply elem_of_direct_select in Hin as (s' & _ & _ & E). discriminate E.
    + apply elem_of_inverse_select in Hin as (s' & _ & _ & Hn & _). exact Hn.
  - intros v Hv Hf Ht Hd Hc.
    apply elem_of_view in Hv.
    rewrite elem_of_direct_select, elem_of_inverse_select in Hv.
    rewrite Hf, Ht, Hd, Hc in Hv.
    destruct Hv as [(s' & E & _ & ->) | (s' & E & _ & N & ->)].
    + rewrite E. reflexivity.
    + rewrite N. congruence.
  - intros s' rt Hs' Hpos' Hsel. apply rate_at_get_all_direct; assumption.
  - intros rt Hn Hsel. apply rate_at_get_all.
    exists (mkViewRow B A (rate_inv (rate s)) cls d
                      (source s ++ " (computed inverse)") "inverse").
    simpl. auto 10.
  - intros s' rt Hs' Hneg. split.
    + apply (rate_at_get_all_nonpositive _ _ _ _ _ _ _ Hs' Hneg).
    + intros v Hv (Hf & Ht & Hd & Hc). apply elem_of_view in Hv.
      rewrite elem_of_direct_select, elem_of_inverse_select in Hv.
      rewrite Hf, Ht, Hd, Hc in Hv.
      destruct Hv as [(s2 & E & Hpos2 & _) | (s2 & _ & _ & N & _)]; congruence.
Qed.

(** ** [get_rate] *)

Lemma head_take_1 {A} (l : list A) : head (take 1 l) = head l.
Proof. destruct l; reflexivity. Qed.

Lemma truthy_str_nonempty cls : cls <> "" -> truthy_str (Some cls) = Some cls.
Proof.
  intros Hne. unfold truthy_str.
  destruct (String.eqb_spec cls ""); [contradiction | reflexivity].
Qed.

(** [get_rate] with a rate type reads the record stored under the key. *)
Lemma get_rate_lookup tbl f t d cls :
  cls <> "" ->
  get_rate tbl f t d (Some cls) = rate <$> tbl !! (f, t, d, cls).
Proof.
  intros Hne. unfold get_rate. rewrite (truthy_str_nonempty cls Hne), head_take_1.
  set (l := filter _ _).
  assert (Hl : forall e, e ∈ l <-> e.1 = (f, t, d, cls) /\ tbl !! (f, t, d, cls) = Some e.2).
  { intros e. subst l. rewrite list_elem_of_filter, elem_of_exchange_rates_row.
    destruct e as [[[[f' t'] d'] c'] s'].
    unfold from_currency, to_currency, date, rate_type. simpl. split.
    - intros ((-> & -> & -> & ->) & E). auto.
    - intros ([= -> -> -> ->] & E). auto. }
  clearbody l. destruct (tbl !! (f, t, d, cls)) as [s|] eqn:E; simpl.
  - destruct l as [|x l].
    + exfalso. assert (Hin : ((f, t, d, cls), s) ∈ @nil (Key * Stored R)) by (apply Hl; auto).
      inversion Hin.
    + simpl. destruct (proj1 (Hl x)) as [_ Hx]; [left|].
      unfold row_rate. injection Hx as ->. reflexivity.
  - destruct l as [|x l]; [reflexivity|].
    destruct (proj1 (Hl x)) as [_ Hx]; [left|]. discriminate.
Qed.

(** C3, as the code has it.  With an explicit rate type [get_rate] is the
    exact lookup of the stored record under that key: the stored rate if a
    record exists, otherwise absent; the reversed key is never consulted. *)
Theorem get_rate_exact_lookup tbl f t d cls :
  cls <> "" ->
  get_rate tbl f t d (Some cls) = rate <$> tbl !! (f, t, d, cls).
Proof. intros Hne. apply get_rate_lookup. exact Hne. Qed.

#[local] Instance rank_le_trans : Transitive (rank_le (R := R)).
Proof. intros x y z. unfold rank_le. lia. Qed.

#[local] Instance rank_le_total : Total (rank_le (R := R)).
Proof. intros x y. unfold rank_le. lia. Qed.

Lemma rank_official cls : rate_type_rank cls <= 1 -> cls = "official".
Proof.
  unfold rate_type_rank.
  destruct (String.eqb_spec cls "official"); [auto|].
  repeat (destruct (String.eqb _ _)); lia.
Qed.

Lemma rank_unranked cls :
  cls <> "official" -> cls <> "blue" -> cls <> "mep" -> cls <> "ccl" ->
  rate_type_rank cls = 5.
Proof.
  intros H1 H2 H3 H4. unfold rate_type_rank.
  repeat match goal with
         | |- context [String.eqb cls ?x] => destruct (String.eqb_spec cls x); [contradiction|]
         end.
  reflexivity.
Qed.

(** What the query without a rate type returns: the rate of a stored row of
    the pair and date whose rank is least. *)
Lemma get_rate_default_min tbl f t d r :
  get_rate tbl f t d None = Some r ->
  exists cls s, tbl !! (f, t, d, cls) = Some s /\ rate s = r
                /\ forall cls' s', tbl !! (f, t, d, cls') = Some s' ->
                                   rate_type_rank cls <= rate_type_rank cls'.
Proof.
  unfold get_rate. simpl. rewrite head_take_1.
  set (l0 := filter _ _).
  assert (Hl0 : forall e, e ∈ l0 <->
            exists cls, e.1 = (f, t, d, cls) /\ tbl !! (f, t, d, cls) = Some e.2).
  { intros e. subst l0. rewrite list_elem_of_filter, elem_of_exchange_rates_row.
    destruct e as [[[[f' t'] d'] c'] s'].
    unfold from_currency, to_currency, date, rate_type. simpl. split.
    - intros ((-> & -> & ->) & E). eauto.
    - intros (cls & [= -> -> -> ->] & E). auto. }
  clearbody l0.
  pose proof (StronglySorted_merge_sort rank_le l0) as Hsorted.
  pose proof (merge_sort_Permutation rank_le l0) as Hperm.
  destruct (merge_sort rank_le l0) as [|x l]; simpl; [discriminate|].
  intros [= <-].
  assert (Hx : x ∈ l0) by (rewrite <- Hperm; left).
  apply Hl0 in Hx as (cls & Hk & Hs).
  exists cls, x.2. split; [exact Hs|]. split; [reflexivity|].
  intros cls' s' Hs'.
  assert (Hin : ((f, t, d, cls'), s') ∈ x :: l).
  { rewrite Hperm. apply Hl0. exists cls'. auto. }
  assert (Hcls : rate_type x = cls).
  { destruct x as [kx sx]. simpl in Hk. subst kx. reflexivity. }
  apply elem_of_cons in Hin as [<-|Hin].
  - rewrite <- Hcls. reflexivity.
  - apply StronglySorted_inv in Hsorted as [_ Hall].
    rewrite List.Forall_forall in Hall.
    specialize (Hall _ (proj1 (list_elem_of_In _ _) Hin)).
    unfold rank_le in Hall. rewrite Hcls in Hall. exact Hall.
Qed.

Lemma get_rate_default_some tbl f t d cls s :
  tbl !! (f, t, d, cls) = Some s -> is_Some (get_rate tbl f t d None).
Proof.
  intros Hs. unfold get_rate. simpl. rewrite head_take_1.
  set (l0 := filter _ _).
  assert (Hin : ((f, t, d, cls), s) ∈ l0).
  { subst l0. apply list_elem_of_filter. split; [auto|].
    apply elem_of_exchange_rates. exact Hs. }
  rewrite <- (merge_sort_Permutation rank_le l0) in Hin.
  destruct (merge_sort rank_le l0); [inversion Hin | simpl; eauto].
Qed.

(** C4.  Without a rate type, [get_rate] answers with a stored rate of the
    pair and date whose rate type ranks first in official (1) > blue (2) >
    mep (3) > ccl (4) > any other rate type (5); it answers whenever some
    record of the pair and date is stored.  With both "official" and "blue"
    stored, the query without a rate type returns the official rate and the
    query for "blue" the blue one. *)
Theorem get_rate_default_priority tbl f t d :
  (rate_type_rank "official" = 1 /\ rate_type_rank "blue" = 2
   /\ rate_type_rank "mep" = 3 /\ rate_type_rank "ccl" = 4
   /\ forall cls, cls <> "official" -> cls <> "blue" -> cls <> "mep" -> cls <> "ccl" ->
                  rate_type_rank cls = 5)
  /\ (forall r, get_rate tbl f t d None = Some r ->
        exists cls s, tbl !! (f, t, d, cls) = Some s /\ rate s = r
                      /\ forall cls' s', tbl !! (f, t, d, cls') = Some s' ->
                                         rate_type_rank cls <= rate_type_rank cls')
  /\ (forall cls s, tbl !! (f, t, d, cls) = Some s -> is_Some (get_rate tbl f t d None))
  /\ (forall so sb,
        tbl !! (f, t, d, "official") = Some so ->
        tbl !! (f, t, d, "blue") = Some sb ->
        get_rate tbl f t d None = Some (rate so)
        /\ get_rate tbl f t d (Some "blue") = Some (rate sb)).
Proof.
  split; [|split; [|split]].
  - repeat split; try reflexivity. apply rank_unranked.
  - apply get_rate_default_min.
  - apply get_rate_default_some.
  - intros so sb Ho Hb. split.
    + destruct (get_rate_default_some tbl f t d _ _ Ho) as [r Hr].
      rewrite Hr. destruct (get_rate_default_min tbl f t d r Hr) as (cls & s & Hs & <- & Hmin).
      specialize (Hmin _ _ Ho). change (rate_type_rank "official") with 1 in Hmin.
      apply rank_official in Hmin. subst cls. congruence.
    + rewrite get_rate_lookup by discriminate. rewrite Hb. reflexivity.
Qed.

(** C9, as the code has it.  Every rate that [get_all_rates_for_base]
    returns comes from a stored record whose own rate is positive: either
    that record's rate (direct branch), which is positive, or its reciprocal
    (inverse branch), which is positive unless the stored rate is infinite.
    A stored record with a rate [<= 0] contributes nothing.  The positivity
    of a reciprocal is the law [rate_inv_pos] of the arithmetic. *)
Theorem get_all_rates_positive `{!RateArithLaws R} tbl base d rt c cls r :
  rate_at (get_all_rates_for_base tbl base d rt) c cls = Some r ->
  exists s, rate_pos (rate s) = true
            /\ ((tbl !! (base, c, d, cls) = Some s /\ r = rate s /\ rate_pos r = true)
                \/ (tbl !! (c, base, d, cls) = Some s
                    /\ tbl !! (base, c, d, cls) = None
                    /\ r = rate_inv (rate s)
                    /\ (rate_is_inf (rate s) = false -> rate_pos r = true))).
Proof.
  intros Hr. apply rate_at_get_all in Hr as (v & Hv & <- & <- & <- & <- & <- & _).
  apply elem_of_view in Hv.
  rewrite elem_of_direct_select, elem_of_inverse_select in Hv.
  destruct Hv as [(s & E & Hpos & Hv) | (s & E & Hpos & N & Hv)].
  - assert (Hrate : v_rate v = rate s) by (rewrite Hv; reflexivity).
    rewrite Hrate. exists s. split; [exact Hpos|]. left. auto.
  - assert (Hrate : v_rate v = rate_inv (rate s)) by (rewrite Hv; reflexivity).
    rewrite Hrate. exists s. split; [exact Hpos|]. right.
    split; [exact E|]. split; [exact N|]. split; [reflexivity|].
    intros Hfin. apply rate_inv_pos; assumption.
Qed.

End StoreFacts.

(** ** Interpolation through USD: the loops *)

Section InterpolationFacts.
Context {R : Type} `{RateArith R}.
Implicit Types (b u : gmap string R) (usd acc : gmap string (gmap string R)).

Lemma dict_is_empty_true {V} (m : gmap string V) : dict_is_empty m = true <-> m = ∅.
Proof. unfold dict_is_empty. rewrite Nat.eqb_eq. apply map_size_empty_iff. Qed.

Lemma dict_is_empty_false {V} (m : gmap string V) : dict_is_empty m = false <-> m <> ∅.
Proof. rewrite <- not_true_iff_false, dict_is_empty_true. reflexivity. Qed.

Lemma lookup_interpolate_types b u cls v :
  interpolate_types b u !! cls = Some v <->
  exists x y, b !! cls = Some x /\ u !! cls = Some y /\ v = rate_mul x y.
Proof.
  unfold interpolate_types. rewrite map_lookup_imap.
  destruct (b !! cls) as [x|]; simpl.
  - destruct (u !! cls) as [y|].
    + split; [intros [= <-]; eauto | intros (? & ? & [= <-] & [= <-] & ->); reflexivity].
    + split; [discriminate | intros (? & ? & _ & ? & _); discriminate].
  - split; [discriminate | intros (? & ? & ? & _); discriminate].
Qed.

Lemma lookup_interpolate_target b usd acc target t :
  interpolate_target b usd acc target !! t =
  match usd !! t with
  | Some u =>
      if decide (t = target) then
        if dict_is_empty (interpolate_types b u) then acc !! t
        else Some (interpolate_types b u)
      else acc !! t
  | None => acc !! t
  end.
Proof.
  unfold interpolate_target.
  destruct (decide (t = target)) as [->|Hne].
  - destruct (usd !! target) as [u|]; [|reflexivity].
    destruct (dict_is_empty _); [reflexivity | apply lookup_insert_eq].
  - destruct (usd !! target) as [u'|].
    + destruct (dict_is_empty _).
      * destruct (usd !! t); reflexivity.
      * rewrite lookup_insert_ne by congruence. destruct (usd !! t); reflexivity.
    + destruct (usd !! t); reflexivity.
Qed.

Lemma lookup_foldl_interpolate b usd targets acc t :
  foldl (interpolate_target b usd) acc targets !! t =
  match usd !! t with
  | Some u =>
      if decide (t ∈ targets) then
        if dict_is_empty (interpolate_types b u) then acc !! t
        else Some (interpolate_types b u)
      else acc !! t
  | None => acc !! t
  end.
Proof.
  revert acc. induction targets as [|x l IH]; intros acc; cbn [foldl].
  - destruct (usd !! t); [|reflexivity].
    case_decide as Hin; [inversion Hin | reflexivity].
  - rewrite IH, lookup_interpolate_target.
    destruct (usd !! t) as [u|]; [|reflexivity].
    repeat case_decide; try destruct (dict_is_empty (interpolate_types b u));
      try reflexivity; exfalso;
      match goal with
      | Hn : ~ (_ ∈ _ :: _) |- _ => apply Hn, elem_of_cons; tauto
      | Hc : _ ∈ _ :: _ |- _ => apply elem_of_cons in Hc; tauto
      end.
Qed.

(** The interpolated dictionary, entry by entry. *)
Lemma rate_at_foldl_interpolate b usd targets target cls v :
  rate_at (foldl (interpolate_target b usd) ∅ targets) target cls = Some v <->
  target ∈ targets
  /\ exists x y, b !! cls = Some x /\ rate_at usd target cls = Some y /\ v = rate_mul x y.
Proof.
  unfold rate_at. rewrite lookup_foldl_interpolate, lookup_empty.
  destruct (usd !! target) as [u|]; simpl.
  - destruct (decide (target ∈ targets)) as [Hin|Hnin].
    + destruct (dict_is_empty (interpolate_types b u)) eqn:E; simpl.
      * apply dict_is_empty_true in E. split; [discriminate|].
        intros (_ & x & y & Hx & Hy & ->).
        assert (Hl : interpolate_types b u !! cls = Some (rate_mul x y))
          by (apply lookup_interpolate_types; eauto).
        rewrite E, lookup_empty in Hl. discriminate.
      * rewrite lookup_interpolate_types. tauto.
    + split; [discriminate | tauto].
  - split; [discriminate|]. intros (_ & x & y & _ & Hy & _). discriminate.
Qed.

Lemma foldl_interpolate_nonempty b usd targets target m :
  foldl (interpolate_target b usd) ∅ targets !! target = Some m -> m <> ∅.
Proof.
  rewrite lookup_foldl_interpolate, lookup_empty.
  destruct (usd !! target) as [u|]; [|discriminate].
  destruct (decide _); [|discriminate].
  destruct (dict_is_empty _) eqn:E; [discriminate|].
  intros [= <-]. apply dict_is_empty_false. exact E.
Qed.

Lemma foldl_interpolate_dom b usd targets target :
  is_Some (foldl (interpolate_target b usd) ∅ targets !! target) -> target ∈ targets.
Proof.
  rewrite lookup_foldl_interpolate, lookup_empty. intros [m Hm].
  destruct (usd !! target) as [u|]; [|discriminate].
  destruct (decide _); [assumption | discriminate].
Qed.

Lemma foldl_interpolate_no_usd b targets acc :
  foldl (interpolate_target b ∅) acc targets = acc.
Proof.
  apply map_eq. intros t. rewrite lookup_foldl_interpolate, lookup_empty. reflexivity.
Qed.

End InterpolationFacts.

(** ** Running the resolver *)

Section ResolverFacts.
Context {R : Type} `{RateArith R} `{DateTimeLib}.
Implicit Types (w : World (R := R)).

(** A guarded call whose result is dropped returns normally, whatever the call does. *)
Lemma try_except_unit {A} (m : M A) w :
  try_except (m;; mret tt) (fun _ => mret tt) w = (Ret tt, (m w).2).
Proof.
  unfold try_except. unfold_monad. destruct (m w) as [[a|e] w']; reflexivity.
Qed.

Lemma backfill_official_run base d w :
  exists w', backfill_official base d w = (Ret tt, w')
             /\ (w' = w \/ w' = (fetch_and_store_rates (Some d) w).2).
Proof.
  unfold backfill_official. destruct (String.eqb base "USD"); [|eauto].
  unfold try_except. unfold_monad. destruct (dict_is_empty _); [|eauto].
  destruct (fetch_and_store_rates (Some d) w) as [[n|e] w']; simpl; eauto.
Qed.

Lemma backfill_blue_run base symbols d w :
  exists w', backfill_blue base symbols d w = (Ret tt, w')
             /\ (w' = w \/ w' = (scrape_and_store_ars_rates (Some d) w).2).
Proof.
  unfold backfill_blue. destruct (_ || _); [|eauto].
  destruct (match truthy_list symbols with Some _ => _ | None => _ end); [|eauto].
  unfold try_except. unfold_monad. destruct (negb _); [|eauto].
  destruct (scrape_and_store_ars_rates (Some d) w) as [[n|e] w']; simpl; eauto.
Qed.

(** The two backfill blocks together never raise. *)
Lemma backfill_run base symbols d w :
  exists w1, (backfill_official base d;; backfill_blue base symbols d) w = (Ret tt, w1).
Proof.
  destruct (backfill_official_run base d w) as (w0 & E0 & _).
  destruct (backfill_blue_run base symbols d w0) as (w1 & E1 & _).
  exists w1. unfold_monad. rewrite E0. exact E1.
Qed.

(** [get_rates] after its backfill blocks. *)
Lemma get_rates_run base symbols d rt w w1 :
  (backfill_official base d;; backfill_blue base symbols d) w = (Ret tt, w1) ->
  get_rates base symbols d rt w =
  let all_base_rates := get_all_rates_for_base (db w1) base d rt in
  match truthy_list symbols with
  | Some l =>
      let rates := project_symbols all_base_rates l in
      if (size rates <? length l)%nat then
        (interpolated ← _interpolate_via_usd base (filter (fun s => rates !! s = None) l) d rt;
         mret (interpolated ∪ rates)) w1
      else (Ret rates, w1)
  | None => (Ret all_base_rates, w1)
  end.
Proof.
  intros E. unfold get_rates. unfold_monad.
  destruct (backfill_official base d w) as [[[]|e] w0]; [|discriminate].
  rewrite E. simpl. destruct (truthy_list symbols) as [l|]; [|reflexivity].
  destruct (_ <? _)%nat; reflexivity.
Qed.

(** [_interpolate_via_usd] never raises; it folds the targets over the
    base → USD leg read at entry and a USD projection of the store, read at
    entry or, when that was empty, after one backfill attempt. *)
Lemma interpolate_run base targets d rt w :
  exists usd_rates w',
    _interpolate_via_usd base targets d rt w =
      (Ret match get_all_rates_for_base (db w) base d rt !! "USD" with
           | Some base_to_usd => foldl (interpolate_target base_to_usd usd_rates) ∅ targets
           | None => ∅
           end, w')
    /\ (usd_rates = get_all_rates_for_base (db w) "USD" d rt
        \/ usd_rates = get_all_rates_for_base (db w') "USD" d rt)
    /\ (w' = w
        \/ (get_all_rates_for_base (db w) "USD" d rt = ∅
            /\ w' = (fetch_and_store_rates (Some d) w).2)).
Proof.
  unfold _interpolate_via_usd, try_except. unfold_monad.
  destruct (get_all_rates_for_base (db w) base d rt !! "USD") as [b|].
  2:{ exists (get_all_rates_for_base (db w) "USD" d rt), w. auto. }
  destruct (dict_is_empty (get_all_rates_for_base (db w) "USD" d rt)) eqn:E0.
  - apply dict_is_empty_true in E0.
    destruct (fetch_and_store_rates (Some d) w) as [[n|e] w']; simpl.
    + exists (get_all_rates_for_base (db w') "USD" d rt), w'.
      split; [|auto].
      destruct (dict_is_empty _) eqn:E1; [|reflexivity].
      apply dict_is_empty_true in E1. rewrite E1, foldl_interpolate_no_usd. reflexivity.
    + exists (get_all_rates_for_base (db w) "USD" d rt), w'.
      split; [|auto]. rewrite E0.
      change (dict_is_empty (∅ : gmap string (gmap string R))) with true. simpl.
      rewrite foldl_interpolate_no_usd. reflexivity.
  - exists (get_all_rates_for_base (db w) "USD" d rt), w. rewrite E0. auto.
Qed.

(** C2.  [_interpolate_via_usd] returns normally, and its result holds, for
    a target and a rate type, exactly the product of the base → USD rate and
    the USD → target rate of that rate type, when the target is one of those
    asked for and both legs have the rate type; nothing else.  No target is
    given an empty dictionary, and without a base → USD entry the result is
    empty.  The USD → target leg is the store's projection from USD, read at
    entry or after the one backfill attempt. *)
Theorem interpolation_law base targets d rt w :
  exists interpolated usd_rates w',
    _interpolate_via_usd base targets d rt w = (Ret interpolated, w')
    /\ (usd_rates = get_all_rates_for_base (db w) "USD" d rt
        \/ usd_rates = get_all_rates_for_base (db w') "USD" d rt)
    /\ (forall target cls v,
          rate_at interpolated target cls = Some v <->
          target ∈ targets
          /\ exists x y,
               rate_at (get_all_rates_for_base (db w) base d rt) "USD" cls = Some x
               /\ rate_at usd_rates target cls = Some y
               /\ v = rate_mul x y)
    /\ (forall target m, interpolated !! target = Some m -> m <> ∅)
    /\ (get_all_rates_for_base (db w) base d rt !! "USD" = None -> interpolated = ∅).
Proof.
  destruct (interpolate_run base targets d rt w) as (usd_rates & w' & E & Husd & _).
  eexists _, usd_rates, w'. split; [exact E|]. split; [exact Husd|].
  unfold rate_at at 2.
  destruct (get_all_rates_for_base (db w) base d rt !! "USD") as [b|]; simpl.
  - split; [|split].
    + intros target cls v. apply rate_at_foldl_interpolate.
    + intros target m. apply foldl_interpolate_nonempty.
    + discriminate.
  - split; [|split].
    + intros target cls v. unfold rate_at at 1. rewrite lookup_empty. simpl.
      split; [discriminate|]. intros (_ & x & y & Hx & _). discriminate.
    + intros target m. rewrite lookup_empty. discriminate.
    + reflexivity.
Qed.

(** ** The projection onto the requested symbols *)

Lemma lookup_foldl_project (all acc : gmap string (gmap string R)) (l : list string) c :
  foldl (fun rates symbol =>
           match all !! symbol with
           | Some v => <[symbol := v]> rates
           | None => rates
           end) acc l !! c =
  if decide (c ∈ l) then match all !! c with Some v => Some v | None => acc !! c end
  else acc !! c.
Proof.
  revert acc. induction l as [|x l IH]; intros acc; cbn [foldl].
  - case_decide as Hin; [inversion Hin | reflexivity].
  - rewrite IH.
    assert (Hx : (match all !! x with Some v => <[x := v]> acc | None => acc end) !! c
                 = if decide (c = x) then
                     match all !! c with Some v => Some v | None => acc !! c end
                   else acc !! c).
    { destruct (decide (c = x)) as [->|Hne].
      - destruct (all !! x); [apply lookup_insert_eq | reflexivity].
      - destruct (all !! x); [apply lookup_insert_ne; congruence | reflexivity]. }
    rewrite Hx.
    repeat case_decide; destruct (all !! c); try reflexivity; exfalso;
      match goal with
      | Hn : ~ (_ ∈ _ :: _) |- _ => apply Hn, elem_of_cons; tauto
      | Hc : _ ∈ _ :: _ |- _ => apply elem_of_cons in Hc; tauto
      end.
Qed.

Lemma lookup_project_symbols (all : gmap string (gmap string R)) l c :
  project_symbols all l !! c = if decide (c ∈ l) then all !! c else None.
Proof.
  unfold project_symbols. rewrite lookup_foldl_project, lookup_empty.
  case_decide; [destruct (all !! c) |]; reflexivity.
Qed.

(** The interpolated currencies are requested symbols missing in the projection. *)
Lemma interpolated_only_missing base (l : list string)
    (rates : gmap string (gmap string R)) d rt w interpolated w' c :
  _interpolate_via_usd base (filter (fun s => rates !! s = None) l) d rt w
    = (Ret interpolated, w') ->
  is_Some (interpolated !! c) -> c ∈ l /\ rates !! c = None.
Proof.
  destruct (interpolate_run base (filter (fun s => rates !! s = None) l) d rt w)
    as (usd_rates & w'' & E & _). rewrite E. intros [= <- <-] Hc.
  destruct (get_all_rates_for_base (db w) base d rt !! "USD") as [b|].
  - apply foldl_interpolate_dom, list_elem_of_filter in Hc. tauto.
  - rewrite lookup_empty in Hc. destruct Hc as [? Hc]. discriminate.
Qed.

(** C8.  [get_rates] returns normally, and for every requested currency that
    the store's projection (read after the two backfill blocks, for the
    requested base, date and rate type) holds, the result holds exactly the
    store's dictionary; a currency of the result that the projection knows
    always carries the projection's value. *)
Theorem interpolation_preserves_direct base symbols d rt w :
  exists w1 rates w',
    (backfill_official base d;; backfill_blue base symbols d) w = (Ret tt, w1)
    /\ get_rates base symbols d rt w = (Ret rates, w')
    /\ (forall target m,
          match truthy_list symbols with Some l => target ∈ l | None => True end ->
          get_all_rates_for_base (db w1) base d rt !! target = Some m ->
          rates !! target = Some m)
    /\ (forall target m m',
          rates !! target = Some m ->
          get_all_rates_for_base (db w1) base d rt !! target = Some m' ->
          m = m').
Proof.
  destruct (backfill_run base symbols d w) as (w1 & E1).
  exists w1. rewrite (get_rates_run base symbols d rt w w1 E1). cbv zeta.
  destruct (truthy_list symbols) as [l|].
  2:{ eexists _, w1. split; [exact E1|]. split; [reflexivity|].
      split; [auto | congruence]. }
  set (all := get_all_rates_for_base (db w1) base d rt).
  set (rates := project_symbols all l).
  destruct (_ <? _)%nat.
  - destruct (interpolate_run base (filter (fun s => rates !! s = None) l) d rt w1)
      as (usd_rates & w' & E & _).
    pose proof (fun c => interpolated_only_missing base l rates d rt w1 _ w' c E) as Hmiss.
    unfold_monad. rewrite E.
    eexists _, w'. split; [exact E1|]. split; [reflexivity|]. split.
    + intros target m Hin Hm.
      assert (Hr : rates !! target = Some m).
      { subst rates. rewrite lookup_project_symbols, decide_True by exact Hin. exact Hm. }
      rewrite lookup_union_r; [exact Hr|].
      apply eq_None_not_Some. intros Hsome. apply Hmiss in Hsome as [_ Hn]. congruence.
    + intros target m m' Hu Hall. apply lookup_union_Some_raw in Hu as [Hi | [_ Hr]].
      * destruct (Hmiss target) as [Hin Hn]; [eauto|].
        subst rates. rewrite lookup_project_symbols, decide_True in Hn by exact Hin.
        congruence.
      * subst rates. rewrite lookup_project_symbols in Hr.
        case_decide; [congruence | discriminate].
  - eexists _, w1. split; [exact E1|]. split; [reflexivity|]. split.
    + intros target m Hin Hm. subst rates.
      rewrite lookup_project_symbols, decide_True by exact Hin. exact Hm.
    + intros target m m' Hr Hall. subst rates. rewrite lookup_project_symbols in Hr.
      case_decide; [congruence | discriminate].
Qed.

(** C10.  Without a list of targets ([None] or the empty list) [get_rates]
    returns the store's projection for the base and date, as read after the
    two backfill blocks, and stops in that very world: [_interpolate_via_usd]
    and its backfill retry do not run.  With a list, the same holds whenever
    as many currencies were found as were requested. *)
Theorem no_interpolation_without_targets base symbols d rt w :
  exists w1,
    (backfill_official base d;; backfill_blue base symbols d) w = (Ret tt, w1)
    /\ match truthy_list symbols with
       | None =>
           get_rates base symbols d rt w
           = (Ret (get_all_rates_for_base (db w1) base d rt), w1)
       | Some l =>
           let rates := project_symbols (get_all_rates_for_base (db w1) base d rt) l in
           (length l <= size rates)%nat ->
           get_rates base symbols d rt w = (Ret rates, w1)
       end.
Proof.
  destruct (backfill_run base symbols d w) as (w1 & E1).
  exists w1. split; [exact E1|].
  rewrite (get_rates_run base symbols d rt w w1 E1). cbv zeta.
  destruct (truthy_list symbols) as [l|]; [|reflexivity].
  intros Hle. apply Nat.ltb_ge in Hle. rewrite Hle. reflexivity.
Qed.

(** ** Providers out of reach *)

Lemma fetch_and_store_down ds w :
  providers_down w ->
  exists e w', fetch_and_store_rates ds w = (Raise e, w')
               /\ db w' = db w /\ providers_down w'.
Proof.
  intros [Hoxr Hamb]. unfold fetch_and_store_rates, oxr_client_get. unfold_monad.
  destruct (String.eqb (OXR_API_KEY w) ""); [exists OpenExchangeRatesError, w; split; [|split; [|split]]; auto|].
  destruct (oxr_http w) as [|reply rest] eqn:E.
  { exists RequestError, w. split; [reflexivity|]. split; [reflexivity|].
    split; [rewrite E; constructor | exact Hamb]. }
  apply Forall_cons in Hoxr as [Hreply Hrest].
  specialize (Hreply (oxr_url ds)).
  set (url := oxr_url ds) in *.
  destruct (reply url) as [|status json].
  - exists RequestError, (set_oxr_http rest w). split; [reflexivity|].
    split; [reflexivity|]. split; [exact Hrest | exact Hamb].
  - simpl. apply Z.eqb_neq in Hreply. rewrite Hreply. simpl.
    exists OpenExchangeRatesError, (set_oxr_http rest w). split; [reflexivity|].
    split; [reflexivity|]. split; [exact Hrest | exact Hamb].
Qed.

Lemma fetch_historical_blue_down from_date to_date w :
  providers_down w ->
  exists w', fetch_historical_blue_rates from_date to_date w = (Raise DolarScraperError, w')
             /\ db w' = db w /\ providers_down w'.
Proof.
  intros [Hoxr Hamb].
  unfold fetch_historical_blue_rates, try_except, ambito_client_get. unfold_monad.
  destruct (ambito_http w) as [|reply rest] eqn:E.
  { exists w. split; [reflexivity|]. split; [reflexivity|].
    split; [exact Hoxr | rewrite E; constructor]. }
  apply Forall_cons in Hamb as [Hreply Hrest].
  set (url := (AMBITO_API_URL ++ _)%string).
  specialize (Hreply url).
  destruct (reply url) as [|status json].
  - exists (set_ambito_http rest w). split; [reflexivity|].
    split; [reflexivity|]. split; [exact Hoxr | exact Hrest].
  - simpl. apply Z.eqb_neq in Hreply. rewrite Hreply. simpl.
    exists (set_ambito_http rest w). split; [reflexivity|].
    split; [reflexivity|]. split; [exact Hoxr | exact Hrest].
Qed.

Lemma scrape_and_store_down ds w :
  providers_down w ->
  exists e w', scrape_and_store_ars_rates ds w = (Raise e, w')
               /\ db w' = db w /\ providers_down w'.
Proof.
  intros Hdown.
  unfold scrape_and_store_ars_rates, scrape_target_date, py_fromisoformat, py_add_days.
  unfold_monad.
  destruct (truthy_str ds) as [d|].
  - destruct (fromisoformat d) as [target_date|].
    + destruct (add_days_overflows target_date (-15)); [exists OverflowError, w; auto|].
      destruct (add_days_overflows target_date 15); [exists OverflowError, w; auto|].
      destruct (fetch_historical_blue_down
                  (strftime_ymd (add_days target_date (-15)))
                  (strftime_ymd (add_days target_date 15)) w Hdown) as (w' & E & Hdb & Hd).
      rewrite E. eauto.
    + exists ValueError, w. auto.
  - destruct (add_days_overflows (now_argentina w) (-15)); [exists OverflowError, w; auto|].
    destruct (add_days_overflows (now_argentina w) 15); [exists OverflowError, w; auto|].
    destruct (fetch_historical_blue_down
                (strftime_ymd (add_days (now_argentina w) (-15)))
                (strftime_ymd (add_days (now_argentina w) 15)) w Hdown) as (w' & E & Hdb & Hd).
    rewrite E. eauto.
Qed.

Lemma backfill_down base symbols d w :
  providers_down w ->
  exists w1, (backfill_official base d;; backfill_blue base symbols d) w = (Ret tt, w1)
             /\ db w1 = db w /\ providers_down w1.
Proof.
  intros Hdown.
  destruct (backfill_official_run base d w) as (w0 & E0 & Hw0).
  assert (H0' : db w0 = db w /\ providers_down w0).
  { destruct Hw0 as [-> | ->]; [auto|].
    destruct (fetch_and_store_down (Some d) w Hdown) as (e & w' & E & Hdb & Hd).
    rewrite E. auto. }
  destruct H0' as [Hdb0 Hdown0].
  destruct (backfill_blue_run base symbols d w0) as (w1 & E1 & Hw1).
  exists w1. split; [unfold_monad; rewrite E0; exact E1|].
  destruct Hw1 as [-> | ->]; [auto|].
  destruct (scrape_and_store_down (Some d) w0 Hdown0) as (e & w' & E & Hdb & Hd).
  rewrite E. simpl. split; [congruence | exact Hd].
Qed.

(** The projection found fewer currencies than were requested as soon as one
    requested currency is missing. *)
Lemma size_foldl_project (all acc : gmap string (gmap string R)) (l : list string) :
  (size (foldl (fun rates symbol =>
                  match all !! symbol with
                  | Some v => <[symbol := v]> rates
                  | None => rates
                  end) acc l)
   <= size acc + length (filter (fun s => is_Some (all !! s)) l))%nat.
Proof.
  revert acc. induction l as [|x l IH]; intros acc; cbn [foldl].
  - simpl. lia.
  - etrans; [apply IH|]. rewrite filter_cons.
    destruct (all !! x) as [v|] eqn:E.
    + rewrite decide_True by eauto. rewrite map_size_insert. simpl.
      destruct (acc !! x); simpl; lia.
    + rewrite decide_False by (intros [? ?]; discriminate). lia.
Qed.

Lemma project_symbols_missing (all : gmap string (gmap string R)) l c :
  c ∈ l -> all !! c = None -> (size (project_symbols all l) <? length l)%nat = true.
Proof.
  intros Hin Hnone. apply Nat.ltb_lt. unfold project_symbols.
  eapply Nat.le_lt_trans; [apply size_foldl_project|].
  rewrite map_size_empty. simpl.
  apply (length_filter_lt _ l c); [exact Hin|].
  rewrite Hnone. intros [? ?]. discriminate.
Qed.




End ResolverFacts.

(** ** The scraper: weekend carry-forward *)

Section ScraperFacts.
Context {R : Type} `{RateArith R} `{DateTimeLib}.
Implicit Types (w : World (R := R)) (rates_data : list (string * (R * R))).

Lemma for_each_cons {A S} (x : A) (l : list A) (body : S -> A -> M S) acc w :
  for_each (x :: l) body acc w =
  match body acc x w with
  | (Ret acc', w1) => for_each l body acc' w1
  | (Raise e, w1) => (Raise e, w1)
  end.
Proof. reflexivity. Qed.

(** [dict_set] keeps the keys of a dictionary distinct. *)
Lemma dict_set_keys {V} k (v : V) (d : list (string * V)) k' :
  k' ∈ (dict_set k v d).*1 <-> k' = k \/ k' ∈ d.*1.
Proof.
  induction d as [|[k0 v0] d IH]; simpl.
  - rewrite elem_of_cons, elem_of_nil. tauto.
  - destruct (String.eqb_spec k0 k) as [->|Hne]; simpl.
    + rewrite !elem_of_cons. tauto.
    + rewrite !elem_of_cons, IH. tauto.
Qed.

Lemma dict_set_NoDup {V} k (v : V) (d : list (string * V)) :
  NoDup d.*1 -> NoDup (dict_set k v d).*1.
Proof.
  induction d as [|[k0 v0] d IH]; simpl; intros Hd.
  - apply NoDup_singleton.
  - apply NoDup_cons in Hd as [Hk0 Hd].
    destruct (String.eqb_spec k0 k) as [->|Hne]; simpl.
    + apply NoDup_cons. auto.
    + apply NoDup_cons. split; [|auto].
      rewrite dict_set_keys. intros [?|?]; [congruence | contradiction].
Qed.

Lemma collect_blue_rows_NoDup rows rates rates_data :
  collect_blue_rows rows rates = Ret rates_data ->
  NoDup rates.*1 -> NoDup rates_data.*1.
Proof.
  revert rates. induction rows as [|row rows IH]; intros rates; simpl.
  - intros [= <-]. auto.
  - destruct row as [|a [|b [|c [|? ?]]]]; try apply IH.
    destruct (truthy_float (parse_rate_value b)); [|apply IH].
    destruct (truthy_float (parse_rate_value c)); [|apply IH].
    destruct (parse_ambito_date a); [|discriminate].
    intros E Hd. eapply IH; [exact E|]. apply dict_set_NoDup. exact Hd.
Qed.

(** The dictionary [fetch_historical_blue_rates] returns has one entry per date. *)
Lemma fetch_historical_blue_NoDup from_date to_date w rates_data w0 :
  fetch_historical_blue_rates from_date to_date w = (Ret rates_data, w0) ->
  NoDup rates_data.*1 /\ db w0 = db w /\ utcnow_isoformat w0 = utcnow_isoformat w.
Proof.
  unfold fetch_historical_blue_rates, try_except, ambito_client_get. unfold_monad.
  destruct (ambito_http w) as [|reply rest]; [discriminate|].
  destruct (reply _) as [|status json]; [discriminate|]. cbn [fst snd].
  destruct (negb _); [discriminate|].
  destruct json as [[|header [|row rows]]|]; try discriminate.
  destruct (collect_blue_rows (row :: rows) []) as [d|e] eqn:E; [|discriminate].
  intros [= <- <-]. split; [|auto].
  eapply collect_blue_rows_NoDup; [exact E|]. constructor.
Qed.

(** One round of the second loop: a date that parses and is not a Friday
    writes nothing; a Friday writes the four weekend records. *)
Lemma copy_friday_rate_run fa count date' compra venta w a w1 :
  copy_friday_rate fa count (date', (compra, venta)) w = (Ret a, w1) ->
  exists date_obj,
    fromisoformat date' = Some date_obj
    /\ if weekday date_obj =? 4 then
         db w1 =
           <[("ARS", "USD", strftime_ymd (add_days date_obj 2), "blue") :=
               mkStored (rate_inv venta) "ambito (weekend)" fa]>
          (<[("USD", "ARS", strftime_ymd (add_days date_obj 2), "blue") :=
               mkStored compra "ambito (weekend)" fa]>
          (<[("ARS", "USD", strftime_ymd (add_days date_obj 1), "blue") :=
               mkStored (rate_inv venta) "ambito (weekend)" fa]>
          (<[("USD", "ARS", strftime_ymd (add_days date_obj 1), "blue") :=
               mkStored compra "ambito (weekend)" fa]> (db w))))
       else w1 = w.
Proof.
  unfold copy_friday_rate, py_fromisoformat, py_inv, py_add_days, insert_rate, bound_rate.
  unfold_monad.
  destruct (fromisoformat date') as [date_obj|]; [|discriminate].
  intros E. exists date_obj. split; [reflexivity|].
  destruct (weekday date_obj =? 4).
  - destruct (add_days_overflows date_obj 1); [discriminate E|].
    destruct (rate_is_nan compra); [discriminate E|]. simpl in E.
    destruct (rate_is_zero venta); [discriminate E|].
    destruct (rate_is_nan (rate_inv venta)); [discriminate E|]. simpl in E.
    destruct (add_days_overflows date_obj 2); [discriminate E|]. simpl in E.
    injection E as _ <-. reflexivity.
  - injection E as _ <-. reflexivity.
Qed.

(** A record survives the second loop when no Friday of the list has its
    date as Saturday or Sunday. *)
Lemma copy_loop_preserves fa rates_data :
  forall count w n w' (f t day cls : string) (s : Stored R),
    for_each rates_data (copy_friday_rate fa) count w = (Ret n, w') ->
    db w !! (f, t, day, cls) = Some s ->
    (forall date' x date_obj, (date', x) ∈ rates_data ->
       fromisoformat date' = Some date_obj -> weekday date_obj = 4 ->
       strftime_ymd (add_days date_obj 1) <> day
       /\ strftime_ymd (add_days date_obj 2) <> day) ->
    db w' !! (f, t, day, cls) = Some s.
Proof.
  induction rates_data as [|[date' [compra venta]] l IH];
    intros count w n w' f t day cls s Hrun Hs Hfree.
  - injection Hrun as _ <-. exact Hs.
  - rewrite for_each_cons in Hrun.
    destruct (copy_friday_rate fa count (date', (compra, venta)) w) as [[a|e] w1] eqn:E;
      [|discriminate].
    apply copy_friday_rate_run in E as (date_obj & Hparse & Hw1).
    apply (IH a w1 n w' f t day cls s Hrun).
    + destruct (weekday date_obj =? 4) eqn:Ewd; [|subst w1; exact Hs].
      apply Z.eqb_eq in Ewd.
      assert (Hhead : (date', (compra, venta)) ∈ (date', (compra, venta)) :: l) by left.
      destruct (Hfree date' (compra, venta) date_obj Hhead Hparse Ewd) as [Hsat Hsun].
      rewrite Hw1, !lookup_insert_ne by congruence. exact Hs.
    + intros d0 x dt Hin. apply (Hfree d0 x dt). right. exact Hin.
Qed.

(** After the second loop, the weekend records of a Friday of the list are
    in the database, provided no other Friday of the list has the same
    weekend days. *)
Lemma copy_loop_carries fa rates_data :
  forall count w n w' date' compra venta date_obj,
    NoDup rates_data.*1 ->
    (date', (compra, venta)) ∈ rates_data ->
    fromisoformat date' = Some date_obj ->
    weekday date_obj = 4 ->
    for_each rates_data (copy_friday_rate fa) count w = (Ret n, w') ->
    (forall other x dt day, (other, x) ∈ rates_data -> other <> date' ->
       fromisoformat other = Some dt -> weekday dt = 4 ->
       day = strftime_ymd (add_days date_obj 1) \/ day = strftime_ymd (add_days date_obj 2) ->
       strftime_ymd (add_days dt 1) <> day /\ strftime_ymd (add_days dt 2) <> day) ->
    forall day,
      day = strftime_ymd (add_days date_obj 1) \/ day = strftime_ymd (add_days date_obj 2) ->
      db w' !! ("USD", "ARS", day, "blue") = Some (mkStored compra "ambito (weekend)" fa)
      /\ db w' !! ("ARS", "USD", day, "blue")
         = Some (mkStored (rate_inv venta) "ambito (weekend)" fa).
Proof.
  induction rates_data as [|[d0 [c0 v0]] l IH];
    intros count w n w' date' compra venta date_obj Hnd Hin Hparse Hfri Hrun Hfree day Hday.
  - inversion Hin.
  - rewrite for_each_cons in Hrun.
    destruct (copy_friday_rate fa count (d0, (c0, v0)) w) as [[a|e] w1] eqn:E;
      [|discriminate].
    simpl in Hnd. apply NoDup_cons in Hnd as [Hd0 Hnd].
    apply elem_of_cons in Hin as [Heq | Hin].
    + injection Heq as <- <- <-.
      apply copy_friday_rate_run in E as (date_obj' & Hparse' & Hw1).
      rewrite Hparse in Hparse'. injection Hparse' as <-.
      rewrite Hfri in Hw1. simpl in Hw1.
      assert (Hfree' : forall other x dt, (other, x) ∈ l ->
                fromisoformat other = Some dt -> weekday dt = 4 ->
                strftime_ymd (add_days dt 1) <> day /\ strftime_ymd (add_days dt 2) <> day).
      { intros other x dt Hx Hp Hw. apply (Hfree other x dt day); auto.
        - right. exact Hx.
        - intros ->. apply Hd0. apply list_elem_of_fmap. exists (date', x). auto. }
      split.
      * apply (copy_loop_preserves fa l a w1 n w' _ _ _ _ _ Hrun); [|exact Hfree'].
        rewrite Hw1, !lookup_insert.
        destruct Hday as [-> | ->]; repeat case_decide; congruence.
      * apply (copy_loop_preserves fa l a w1 n w' _ _ _ _ _ Hrun); [|exact Hfree'].
        rewrite Hw1, !lookup_insert.
        destruct Hday as [-> | ->]; repeat case_decide; congruence.
    + apply (IH a w1 n w' date' compra venta date_obj); auto.
      intros other x dt day' Hx. apply (Hfree other x dt day'). right. exact Hx.
Qed.

(** What a successful run of the scraper went through. *)
Lemma scrape_run ds w n w' target_date rates_data w0 :
  scrape_target_date ds w = (Ret target_date, w) ->
  fetch_historical_blue_rates (strftime_ymd (add_days target_date (-15)))
                              (strftime_ymd (add_days target_date 15)) w
    = (Ret rates_data, w0) ->
  scrape_and_store_ars_rates ds w = (Ret n, w') ->
  exists count w1,
    for_each rates_data (store_fetched_rate (utcnow_isoformat w)) 0 w0 = (Ret count, w1)
    /\ for_each rates_data (copy_friday_rate (utcnow_isoformat w)) count w1 = (Ret n, w').
Proof.
  intros Ht Hf. unfold scrape_and_store_ars_rates, py_add_days. unfold_monad.
  rewrite Ht.
  destruct (add_days_overflows target_date (-15)); [discriminate|].
  destruct (add_days_overflows target_date 15); [discriminate|].
  rewrite Hf. destruct rates_data as [|x l]; [discriminate|].
  destruct (for_each (x :: l) (store_fetched_rate (utcnow_isoformat w)) 0 w0)
    as [[count|e] w1]; [|discriminate].
  intros E. eauto.
Qed.

(** C7.  After a successful run of the scraper, every Friday of the fetched
    batch has its two rates (USD → ARS at the buy rate, ARS → USD at the
    reciprocal of the sell rate) stored under the following Saturday and the
    following Sunday with the source "ambito (weekend)"; [get_rate]
    retrieves them, and so does [get_all_rates_for_base] when they are
    positive — as long as no other Friday of the batch falls on the same
    weekend days. *)
Theorem weekend_carry ds w n w' target_date rates_data w0 :
  scrape_target_date ds w = (Ret target_date, w) ->
  fetch_historical_blue_rates (strftime_ymd (add_days target_date (-15)))
                              (strftime_ymd (add_days target_date 15)) w
    = (Ret rates_data, w0) ->
  scrape_and_store_ars_rates ds w = (Ret n, w') ->
  forall date' compra venta date_obj,
    (date', (compra, venta)) ∈ rates_data ->
    fromisoformat date' = Some date_obj ->
    weekday date_obj = 4 ->
    (forall other x dt day, (other, x) ∈ rates_data -> other <> date' ->
       fromisoformat other = Some dt -> weekday dt = 4 ->
       day = strftime_ymd (add_days date_obj 1) \/ day = strftime_ymd (add_days date_obj 2) ->
       strftime_ymd (add_days dt 1) <> day /\ strftime_ymd (add_days dt 2) <> day) ->
    forall day,
      day = strftime_ymd (add_days date_obj 1) \/ day = strftime_ymd (add_days date_obj 2) ->
      db w' !! ("USD", "ARS", day, "blue")
        = Some (mkStored compra "ambito (weekend)" (utcnow_isoformat w))
      /\ db w' !! ("ARS", "USD", day, "blue")
         = Some (mkStored (rate_inv venta) "ambito (weekend)" (utcnow_isoformat w))
      /\ get_rate (db w') "USD" "ARS" day (Some "blue") = Some compra
      /\ get_rate (db w') "ARS" "USD" day (Some "blue") = Some (rate_inv venta)
      /\ (rate_pos compra = true ->
          rate_at (get_all_rates_for_base (db w') "USD" day (Some "blue")) "ARS" "blue"
          = Some compra)
      /\ (rate_pos (rate_inv venta) = true ->
          rate_at (get_all_rates_for_base (db w') "ARS" day (Some "blue")) "USD" "blue"
          = Some (rate_inv venta))
      /\ "ambito (weekend)" <> "ambito".
Proof.
  intros Ht Hf Hrun date' compra venta date_obj Hin Hparse Hfri Hfree day Hday.
  destruct (scrape_run ds w n w' target_date rates_data w0 Ht Hf Hrun)
    as (count & w1 & _ & Hloop).
  destruct (fetch_historical_blue_NoDup _ _ _ _ _ Hf) as (Hnd & _).
  destruct (copy_loop_carries _ rates_data count w1 n w' date' compra venta date_obj
              Hnd Hin Hparse Hfri Hloop Hfree day Hday) as [Hbuy Hsell].
  split; [exact Hbuy|]. split; [exact Hsell|].
  rewrite !get_rate_lookup by discriminate.
  rewrite Hbuy, Hsell. split; [reflexivity|]. split; [reflexivity|].
  split; [|split; [|discriminate]].
  - intros Hpos. apply (rate_at_get_all_direct _ _ _ _ _ _ _ Hbuy Hpos). reflexivity.
  - intros Hpos. apply (rate_at_get_all_direct _ _ _ _ _ _ _ Hsell Hpos). reflexivity.
Qed.

End ScraperFacts.

(** ** What the write paths store *)

Section WriteFacts.
Context {R : Type} `{RateArith R} `{DateTimeLib}.
Implicit Types (w : World (R := R)).




Lemma bound_rate_Some (o : option R) r :
  bound_rate o = Some r <-> o = Some r /\ rate_is_nan r = false.
Proof.
  unfold bound_rate. destruct o as [x|]; [|split; [discriminate | intros [E _]; discriminate E]].
  destruct (rate_is_nan x) eqn:E; split.
  - discriminate.
  - intros [[= ->] E']. congruence.
  - intros [= ->]. auto.
  - intros [[= ->] _]. reflexivity.
Qed.

(** One round of the loop of [fetch_and_store_rates]. *)
Lemma store_oxr_rate_run td fa count c (r0 : option R) w :
  store_oxr_rate td fa count (c, r0) w =
  if String.eqb c "USD" then (Ret count, w)
  else match bound_rate r0 with
       | Some r =>
           (Ret (count + 1),
            set_db (<[("USD", c, td, "official") := mkStored r "openexchangerates" fa]> (db w))
                   w)
       | None => (Raise IntegrityError, w)
       end.
Proof.
  unfold store_oxr_rate, insert_rate. unfold_monad.
  destruct (String.eqb c "USD"); [reflexivity|]. destruct (bound_rate r0); reflexivity.
Qed.




(** A run of [fetch_and_store_rates] that returns, or raises the
    [IntegrityError] of a NULL rate, got a 200 with a JSON body and a
    timestamp in range, and ends as the storing loop does. *)
Lemma fetch_and_store_loop ds w out w' :
  fetch_and_store_rates ds w = (out, w') ->
  (exists n, out = Ret n) \/ out = Raise IntegrityError ->
  exists reply rest data,
    oxr_http w = reply :: rest
    /\ reply (oxr_url ds) = Response 200 (Some data)
    /\ for_each (oxr_rates data)
                (store_oxr_rate (oxr_target_date ds data w) (utcnow_isoformat w)) 0
                (set_oxr_http rest w) = (out, w').
Proof.
  assert (Hout : forall e : exn, e <> IntegrityError ->
            ~ ((exists n : Z, Raise e = Ret n) \/ @Raise Z e = Raise IntegrityError)).
  { intros e He [[n Hn]|Hn]; [discriminate Hn | injection Hn as ->; contradiction]. }
  unfold fetch_and_store_rates, oxr_client_get, check_timestamp. unfold_monad.
  destruct (String.eqb (OXR_API_KEY w) "").
  { intros [= <- _] Ho. exfalso. revert Ho. apply Hout. discriminate. }
  destruct (oxr_http w) as [|reply rest].
  { intros [= <- _] Ho. exfalso. revert Ho. apply Hout. discriminate. }
  destruct (reply (oxr_url ds)) as [|status json] eqn:E.
  { intros [= <- _] Ho. exfalso. revert Ho. apply Hout. discriminate. }
  cbn [fst snd]. destruct (Z.eqb_spec status 200) as [->|]; cbn [negb].
  2:{ intros [= <- _] Ho. exfalso. revert Ho. apply Hout. discriminate. }
  destruct json as [data|].
  2:{ intros [= <- _] Ho. exfalso. revert Ho. apply Hout. discriminate. }
  destruct (truthy_int (oxr_timestamp data)) as [ts|].
  - destruct (fromtimestamp_error ts) as [e|] eqn:Ets.
    + intros [= <- _] Ho. exfalso. apply (Hout (exn_of_timestamp_exn e)); [|exact Ho].
      destruct e; discriminate.
    + intros Hrun _. exists reply, rest, data. auto.
  - intros Hrun _. exists reply, rest, data. auto.
Qed.

(** What a successful run of [fetch_and_store_rates] went through. *)
Lemma fetch_and_store_run ds w n w' :
  fetch_and_store_rates ds w = (Ret n, w') ->
  exists reply rest data,
    oxr_http w = reply :: rest
    /\ reply (oxr_url ds) = Response 200 (Some data)
    /\ for_each (oxr_rates data)
                (store_oxr_rate (oxr_target_date ds data w) (utcnow_isoformat w)) 0
                (set_oxr_http rest w) = (Ret n, w').
Proof. intros Hrun. apply (fetch_and_store_loop ds w _ w' Hrun). left. eauto. Qed.

Lemma elem_of_dict_set {V} k (v : V) (d : list (string * V)) e :
  e ∈ dict_set k v d -> e = (k, v) \/ e ∈ d.
Proof.
  induction d as [|[k0 v0] d IH]; simpl.
  - rewrite elem_of_cons. tauto.
  - destruct (String.eqb k0 k); rewrite !elem_of_cons; [tauto|].
    intros [->|Hin]; [tauto|]. destruct (IH Hin); tauto.
Qed.

Lemma truthy_float_nonzero (o : option R) x :
  truthy_float o = Some x -> rate_is_zero x = false.
Proof.
  unfold truthy_float. destruct o as [y|]; [|discriminate].
  destruct (rate_is_zero y) eqn:E; [discriminate|]. intros [= <-]. exact E.
Qed.

(** The scraper keeps a row only when its buy and its sell value are truthy. *)
Lemma collect_blue_rows_truthy rows (rates rates_data : list (string * (R * R))) :
  collect_blue_rows rows rates = Ret rates_data ->
  (forall e, e ∈ rates -> rate_is_zero e.2.1 = false /\ rate_is_zero e.2.2 = false) ->
  forall e, e ∈ rates_data -> rate_is_zero e.2.1 = false /\ rate_is_zero e.2.2 = false.
Proof.
  revert rates. induction rows as [|row rows IH]; intros rates; simpl.
  - intros [= <-]. auto.
  - destruct row as [|a [|b [|c [|? ?]]]]; try apply IH.
    destruct (truthy_float (parse_rate_value b)) as [x|] eqn:Ex; [|apply IH].
    destruct (truthy_float (parse_rate_value c)) as [y|] eqn:Ey; [|apply IH].
    destruct (parse_ambito_date a); [|discriminate].
    intros E Hacc. apply (IH _ E). intros e He.
    apply elem_of_dict_set in He as [->|He]; [|auto]. simpl.
    eauto using truthy_float_nonzero.
Qed.

Lemma fetch_historical_blue_truthy from_date to_date w rates_data w0 :
  fetch_historical_blue_rates from_date to_date w = (Ret rates_data, w0) ->
  forall date' compra venta, (date', (compra, venta)) ∈ rates_data ->
    rate_is_zero compra = false /\ rate_is_zero venta = false.
Proof.
  unfold fetch_historical_blue_rates, try_except, ambito_client_get. unfold_monad.
  destruct (ambito_http w) as [|reply rest]; [discriminate|].
  destruct (reply _) as [|status json]; [discriminate|]. cbn [fst snd].
  destruct (negb _); [discriminate|].
  destruct json as [[|header [|row rows]]|]; try discriminate.
  destruct (collect_blue_rows (row :: rows) []) as [d|e] eqn:E; [|discriminate].
  intros [= <- <-] date' compra venta Hin.
  apply (collect_blue_rows_truthy _ _ _ E) with (e := (date', (compra, venta)));
    [|exact Hin].
  intros e He. inversion He.
Qed.

(** One round of the first loop of the scraper. *)
Lemma store_fetched_rate_run fa count date' (compra venta : R) w :
  store_fetched_rate fa count (date', (compra, venta)) w =
  if rate_is_nan compra then (Raise IntegrityError, w)
  else
    let w1 := set_db (<[("USD", "ARS", date', "blue") := mkStored compra "ambito" fa]> (db w))
                     w in
    if rate_is_zero venta then (Raise ZeroDivisionError, w1)
    else if rate_is_nan (rate_inv venta) then (Raise IntegrityError, w1)
    else (Ret (count + 2),
          set_db (<[("ARS", "USD", date', "blue") := mkStored (rate_inv venta) "ambito" fa]>
                    (db w1)) w1).
Proof.
  unfold store_fetched_rate, py_inv, insert_rate, bound_rate. unfold_monad.
  destruct (rate_is_nan compra); [reflexivity|]. cbv zeta.
  destruct (rate_is_zero venta); [reflexivity|].
  destruct (rate_is_nan (rate_inv venta)); reflexivity.
Qed.




End WriteFacts.

(** * The model at work on the rationals *)

#[export] Instance Q_RateArithLaws : RateArithLaws Q.
Proof.
  constructor. intros [n d]. destruct n as [|p|p]; simpl; try discriminate. reflexivity.
Qed.

#[export] Instance xfloat_RateArithLaws : RateArithLaws xfloat.
Proof.
  constructor. intros [[n d]| | |]; simpl; try discriminate.
  destruct n as [|p|p]; simpl; try discriminate. reflexivity.
Qed.

(** ** The test-suite of the repository *)

Example test_ars_to_usd_inverse :
  rate_at (get_all_rates_for_base inverse_table "ARS" "2024-01-08" None) "USD" "official"
  = Some (Qdiv 1 (146328213 # 100000)).
Proof. vm_compute. reflexivity. Qed.

(** Only USD → ARS stored: the view derives ARS → USD. *)
Example inverse_only_table_view :
  mkViewRow "ARS" "USD" (rate_inv (146328213 # 100000)%Q) "official" "2024-01-08"
            "test (computed inverse)" "inverse"
    ∈ exchange_rates_bidirectional inverse_table.
Proof. vm_compute. apply list_elem_of_In. right. left. reflexivity. Qed.

Example test_priority_official_over_blue :
  get_rate priority_table "ARS" "USD" "2024-01-08" None = Some (67 # 100000)%Q
  /\ get_rate priority_table "ARS" "USD" "2024-01-08" (Some "blue") = Some (66 # 100000)%Q.
Proof. split; vm_compute; reflexivity. Qed.

Example test_interpolation :
  match result_of (get_rates "EUR" (Some ["GBP"]) "2024-01-08" None)
                  (set_db interpolation_table empty_world) with
  | Ret rates => rate_at rates "GBP" "official"
  | Raise _ => None
  end = Some (Qmult (Qdiv 1 (85 # 100)) (75 # 100)).
Proof. vm_compute. reflexivity. Qed.

(** A buy value that reads as NaN is truthy, so the row is kept; its insert
    is rejected, and the scraper stops with nothing stored. *)
Example nan_buy_value_aborts :
  parse_rate_value (R := xfloat) "nan" = Some NaN
  /\ (scrape_and_store_ars_rates (Some "2024-01-05") nan_ambito_world).1
     = Raise IntegrityError
  /\ db (scrape_and_store_ars_rates (Some "2024-01-05") nan_ambito_world).2
        !! ("USD", "ARS", "2024-01-05", "blue") = None.
Proof. split; [|split]; vm_compute; reflexivity. Qed.

(** A Friday whose Saturday is past 9999-12-31, and a date less than 15
    days after 0001-01-01: adding the days overflows. *)
Example add_days_overflow :
  (@py_add_days Q Civil.lib Civil.max_day 1 empty_world).1 = Raise OverflowError
  /\ result_of (scrape_and_store_ars_rates (Some "0001-01-05")) weekend_world
     = Raise OverflowError.
Proof. split; vm_compute; reflexivity. Qed.

(** ** The theorems at concrete inputs *)

(** [bidirectional_view_characterized] on the table that stores both
    USD → ARS and ARS → USD: the direct row is in the view, the inverse row is
    not, and ARS → USD is answered with the stored rate. *)
Lemma bidirectional_view_characterized_witness :
  both_directions_table !! ("USD", "ARS", "2024-01-08", "official")
    = Some (stored (146328213 # 100000) "test")
  /\ rate_pos (146328213 # 100000)%Q = true
  /\ mkViewRow "USD" "ARS" (146328213 # 100000)%Q "official" "2024-01-08" "test" "direct"
       ∈ exchange_rates_bidirectional both_directions_table
  /\ ~ (mkViewRow "ARS" "USD" (rate_inv (146328213 # 100000)%Q) "official" "2024-01-08"
                  "test (computed inverse)" "inverse"
          ∈ exchange_rates_bidirectional both_directions_table)
  /\ rate_at (get_all_rates_for_base both_directions_table "ARS" "2024-01-08" None)
             "USD" "official" = Some (7 # 10000)%Q.
Proof.
  assert (Hs : both_directions_table !! ("USD", "ARS", "2024-01-08", "official")
               = Some (stored (146328213 # 100000) "test")) by reflexivity.
  assert (Hpos : rate_pos (rate (stored (146328213 # 100000) "test")) = true) by reflexivity.
  assert (Hrev : both_directions_table !! ("ARS", "USD", "2024-01-08", "official")
                 = Some (stored (7 # 10000) "test")) by reflexivity.
  destruct (bidirectional_view_characterized both_directions_table "USD" "ARS" "2024-01-08"
              "official" _ Hs Hpos) as (Hdirect & Hinverse & _ & Hresolve & _).
  split; [exact Hs|]. split; [exact Hpos|]. split; [exact Hdirect|]. split.
  - intros Hin. apply Hinverse in Hin. rewrite Hrev in Hin. discriminate Hin.
  - apply (Hresolve _ None Hrev); reflexivity.
Defined.

(** C1, as the specification words it, fails when the record stored under
    the reversed key has a rate that is not positive.  After the scraper
    has read a negative buy value, ARS → USD is stored with a positive rate
    and USD → ARS with a negative one: USD → ARS then resolves to nothing,
    neither to the stored rate nor to a reciprocal. *)
Lemma nonpositive_reverse_resolves_to_nothing :
  let tbl := db (run (scrape_and_store_ars_rates (Some "2024-01-05")) negative_ambito_world) in
  tbl !! ("ARS", "USD", "2024-01-05", "blue")
    = Some (mkStored (Qdiv 1 (102000 # 100)) "ambito" "2024-01-08T00:00:00")
  /\ rate_pos (Qdiv 1 (102000 # 100)) = true
  /\ tbl !! ("USD", "ARS", "2024-01-05", "blue")
     = Some (mkStored (-100050 # 100)%Q "ambito" "2024-01-08T00:00:00")
  /\ rate_at (get_all_rates_for_base tbl "USD" "2024-01-05" None) "ARS" "blue" = None
  /\ rate_at (get_all_rates_for_base tbl "USD" "2024-01-05" None) "ARS" "blue"
     <> Some (-100050 # 100)%Q.
Proof.
  cbv zeta. split; [vm_compute; reflexivity|]. split; [reflexivity|].
  split; [vm_compute; reflexivity|].
  assert (Hnone : rate_at (get_all_rates_for_base
                             (db (run (scrape_and_store_ars_rates (Some "2024-01-05"))
                                      negative_ambito_world))
                             "USD" "2024-01-05" None) "ARS" "blue" = None)
    by (vm_compute; reflexivity).
  split; [exact Hnone|]. rewrite Hnone. intros E. discriminate E.
Qed.

(** C3, as the specification words it, fails on the table that only stores
    USD → ARS: [get_rate] finds nothing for ARS → USD where the
    BidirectionalView rule yields the reciprocal. *)
Lemma get_rate_ignores_inverse :
  get_rate inverse_table "ARS" "USD" "2024-01-08" (Some "official") = None
  /\ spec_bidirectional_get inverse_table "ARS" "USD" "2024-01-08" "official"
     = Some (Qdiv 1 (146328213 # 100000))
  /\ get_rate inverse_table "ARS" "USD" "2024-01-08" (Some "official")
     <> spec_bidirectional_get inverse_table "ARS" "USD" "2024-01-08" "official".
Proof.
  split; [vm_compute; reflexivity|]. split; [vm_compute; reflexivity|].
  vm_compute. discriminate.
Qed.

Lemma get_rate_exact_lookup_witness :
  "official" <> ""
  /\ get_rate inverse_table "USD" "ARS" "2024-01-08" (Some "official")
     = Some (146328213 # 100000)%Q.
Proof.
  assert (Hne : "official" <> "") by discriminate.
  split; [exact Hne|].
  rewrite (get_rate_exact_lookup inverse_table "USD" "ARS" "2024-01-08" "official" Hne).
  reflexivity.
Defined.


(** [get_all_rates_positive] on a table holding a negative record: the one
    rate returned for ARS is a positive reciprocal. *)
Lemma get_all_rates_positive_witness :
  rate_at (get_all_rates_for_base mixed_sign_table "ARS" "2024-01-08" None) "USD" "official"
    = Some (Qdiv 1 (146328213 # 100000))
  /\ rate_pos (Qdiv 1 (146328213 # 100000)) = true.
Proof.
  assert (Hr : rate_at (get_all_rates_for_base mixed_sign_table "ARS" "2024-01-08" None)
                       "USD" "official" = Some (Qdiv 1 (146328213 # 100000)))
    by (vm_compute; reflexivity).
  split; [exact Hr|].
  destruct (get_all_rates_positive mixed_sign_table "ARS" "2024-01-08" None
              "USD" "official" _ Hr)
    as (s & _ & [(_ & _ & Hpos) | (_ & _ & _ & Hfinite)]);
    [exact Hpos | apply Hfinite; reflexivity].
Defined.

(** C9, as the specification words it, fails on an infinite rate.  The
    provider's rate [Infinity] for EUR is stored, passes [rate > 0], and its
    inverse row EUR → USD carries [1.0 / inf = 0.0], which is not
    positive. *)
Lemma infinite_rate_inverse_not_positive :
  let tbl := db (fetch_and_store_rates (Some "2024-01-08") infinite_oxr_world).2 in
  tbl !! ("USD", "EUR", "2024-01-08", "official")
    = Some (mkStored PlusInf "openexchangerates" "2024-01-08T00:00:00")
  /\ rate_at (get_all_rates_for_base tbl "EUR" "2024-01-08" None) "USD" "official"
     = Some (Num 0)
  /\ rate_pos (Num 0) = false.
Proof.
  cbv zeta. split; [vm_compute; reflexivity|]. split; [vm_compute; reflexivity|].
  reflexivity.
Qed.


(** [weekend_carry] on the reply with two Fridays: the rates of Friday
    2024-01-05 are retrievable for Saturday 2024-01-06 and Sunday
    2024-01-07. *)
Lemma weekend_carry_witness :
  scrape_and_store_ars_rates (Some "2024-01-05") weekend_world
    = (Ret 14, run (scrape_and_store_ars_rates (Some "2024-01-05")) weekend_world)
  /\ ("2024-01-05", ((100050 # 100)%Q, (102000 # 100)%Q)) ∈ weekend_batch
  /\ Civil.parse_ymd "2024-01-05" = Some 19727
  /\ (19727 + 3) mod 7 = 4
  /\ get_rate (db (run (scrape_and_store_ars_rates (Some "2024-01-05")) weekend_world))
              "USD" "ARS" "2024-01-06" (Some "blue") = Some (100050 # 100)%Q
  /\ get_rate (db (run (scrape_and_store_ars_rates (Some "2024-01-05")) weekend_world))
              "ARS" "USD" "2024-01-07" (Some "blue") = Some (Qdiv 1 (102000 # 100)).
Proof.
  assert (Hfree : forall other (x : Q * Q) (dt : @datetime Civil.lib) day,
            (other, x) ∈ weekend_batch -> other <> "2024-01-05" ->
            fromisoformat other = Some dt -> weekday dt = 4 ->
            day = strftime_ymd (add_days (19727 : @datetime Civil.lib) 1)
            \/ day = strftime_ymd (add_days (19727 : @datetime Civil.lib) 2) ->
            strftime_ymd (add_days dt 1) <> day /\ strftime_ymd (add_days dt 2) <> day).
  { intros other x dt day Hx Hne Hp Hw Hday.
    unfold weekend_batch in Hx.
    repeat (apply elem_of_cons in Hx as [Hx | Hx]); try (inversion Hx; fail);
      injection Hx as -> _; try (exfalso; apply Hne; reflexivity);
      vm_compute in Hp; injection Hp as <-; vm_compute in Hw; try discriminate Hw.
    destruct Hday as [-> | ->]; vm_compute; split; intros E; discriminate E. }
  set (w' := run (scrape_and_store_ars_rates (Some "2024-01-05")) weekend_world).
  assert (Ht : scrape_target_date (Some "2024-01-05") weekend_world
               = (Ret (19727 : @datetime Civil.lib), weekend_world)) by reflexivity.
  assert (Hf1 : result_of (fetch_historical_blue_rates
                             (strftime_ymd (add_days (19727 : @datetime Civil.lib) (-15)))
                             (strftime_ymd (add_days (19727 : @datetime Civil.lib) 15)))
                          weekend_world = Ret weekend_batch)
    by (vm_compute; reflexivity).
  assert (Hf : fetch_historical_blue_rates
                 (strftime_ymd (add_days (19727 : @datetime Civil.lib) (-15)))
                 (strftime_ymd (add_days (19727 : @datetime Civil.lib) 15)) weekend_world
               = (Ret weekend_batch,
                  run (fetch_historical_blue_rates
                         (strftime_ymd (add_days (19727 : @datetime Civil.lib) (-15)))
                         (strftime_ymd (add_days (19727 : @datetime Civil.lib) 15)))
                      weekend_world)).
  { unfold result_of, run in *. rewrite <- Hf1. apply surjective_pairing. }
  assert (Hrun1 : result_of (scrape_and_store_ars_rates (Some "2024-01-05")) weekend_world
                  = Ret 14)
    by (vm_compute; reflexivity).
  assert (Hrun : scrape_and_store_ars_rates (Some "2024-01-05") weekend_world = (Ret 14, w')).
  { subst w'. unfold result_of, run in *. rewrite <- Hrun1. apply surjective_pairing. }
  assert (Hin : ("2024-01-05", ((100050 # 100)%Q, (102000 # 100)%Q)) ∈ weekend_batch)
    by left.
  assert (Hparse : fromisoformat "2024-01-05" = Some (19727 : @datetime Civil.lib))
    by (vm_compute; reflexivity).
  assert (Hfri : weekday (19727 : @datetime Civil.lib) = 4) by reflexivity.
  pose proof (weekend_carry (Some "2024-01-05") weekend_world 14 w' _ weekend_batch _
                Ht Hf Hrun "2024-01-05" _ _ _ Hin Hparse Hfri Hfree) as Hcarry.
  split; [exact Hrun|]. split; [exact Hin|]. split; [exact Hparse|]. split; [exact Hfri|].
  split.
  - destruct (Hcarry "2024-01-06") as (_ & _ & Hget & _); [left; vm_compute; reflexivity|].
    exact Hget.
  - destruct (Hcarry "2024-01-07") as (_ & _ & _ & Hget & _); [right; vm_compute; reflexivity|].
    exact Hget.
Defined.

(** * Further properties of the code *)

(** ** [database.py] *)

Section MoreStoreFacts.
Context {R : Type} `{RateArith R} `{DateTimeLib}.
Implicit Types (tbl : gmap Key (Stored R)) (w : World (R := R)).

Lemma option_ext {A} (o1 o2 : option A) :
  (forall a, o1 = Some a <-> o2 = Some a) -> o1 = o2.
Proof.
  intros Hext. destruct o1 as [a|].
  - symmetry. apply Hext. reflexivity.
  - destruct o2 as [b|]; [|reflexivity]. apply Hext. reflexivity.
Qed.

(** X1.  Reading back with [get_rate] after an [insert_rate]: the key just
    written answers with the rate just written (so a second write to a key
    wins over the first), every other key answers as before.  A NaN is not
    written, and then every key answers as before. *)
Theorem insert_then_get_rate f t (r : R) rt d src fa w f' t' d' rt' :
  rt' <> "" ->
  get_rate (db (insert_rate f t (Some r) rt d src fa w).2) f' t' d' (Some rt')
  = if decide ((f', t', d', rt') = (f, t, d, rt) /\ rate_is_nan r = false) then Some r
    else get_rate (db w) f' t' d' (Some rt').
Proof.
  intros Hne. rewrite !get_rate_lookup by exact Hne.
  unfold insert_rate, bound_rate. destruct (rate_is_nan r); simpl.
  - rewrite decide_False by (intros [_ E]; discriminate E). reflexivity.
  - case_decide as E.
    + destruct E as [E _]. rewrite E, lookup_insert_eq. reflexivity.
    + rewrite lookup_insert_ne by (intros E'; apply E; split; congruence). reflexivity.
Qed.

(** The order of [ORDER BY date DESC] is total and transitive. *)
Lemma string_leb_trans s1 s2 s3 :
  String.leb s1 s2 = true -> String.leb s2 s3 = true -> String.leb s1 s3 = true.
Proof.
  unfold String.leb. revert s2 s3.
  induction s1 as [|a s1 IH]; intros [|b s2] [|c s3]; simpl; try congruence.
  unfold Ascii.compare.
  destruct (N.compare_spec (N_of_ascii a) (N_of_ascii b)) as [Eab|Lab|Gab];
    destruct (N.compare_spec (N_of_ascii b) (N_of_ascii c)) as [Ebc|Lbc|Gbc];
    destruct (N.compare_spec (N_of_ascii a) (N_of_ascii c)) as [Eac|Lac|Gac];
    try congruence; try lia; try (intros; reflexivity).
  apply IH.
Qed.

#[local] Instance date_desc_trans : Transitive (date_desc (R := R)).
Proof.
  intros x y z. unfold date_desc. rewrite !Is_true_true.
  intros Hxy Hyz. exact (string_leb_trans _ _ _ Hyz Hxy).
Qed.

#[local] Instance date_desc_total : Total (date_desc (R := R)).
Proof.
  intros x y. unfold date_desc. rewrite !Is_true_true.
  destruct (String.leb_total (date x) (date y)); auto.
Qed.

Lemma get_latest_rate_date_empty : get_latest_rate_date (∅ : gmap Key (Stored R)) = None.
Proof.
  unfold get_latest_rate_date, exchange_rates. rewrite map_to_list_empty. reflexivity.
Qed.

Lemma latest_rate_date_spec tbl :
  (get_latest_rate_date tbl = None <-> tbl = ∅)
  /\ (forall latest, get_latest_rate_date tbl = Some latest ->
        (exists f t cls s, tbl !! (f, t, latest, cls) = Some s)
        /\ forall f t d cls s, tbl !! (f, t, d, cls) = Some s ->
                               String.leb d latest = true).
Proof.
  unfold get_latest_rate_date. rewrite head_take_1.
  pose proof (StronglySorted_merge_sort date_desc (exchange_rates tbl)) as Hsorted.
  pose proof (merge_sort_Permutation date_desc (exchange_rates tbl)) as Hperm.
  destruct (merge_sort date_desc (exchange_rates tbl)) as [|x l]; simpl.
  - split.
    + split; [intros _ | reflexivity].
      apply Permutation_nil_l in Hperm. unfold exchange_rates in Hperm.
      apply map_to_list_empty_iff. symmetry. exact Hperm.
    + intros latest E. discriminate E.
  - split.
    + split; [discriminate|]. intros ->.
      unfold exchange_rates in Hperm. rewrite map_to_list_empty in Hperm.
      apply Permutation_nil_r in Hperm. discriminate Hperm.
    + intros latest [= <-]. split.
      * assert (Hx : x ∈ exchange_rates tbl) by (rewrite <- Hperm; left).
        apply elem_of_exchange_rates_row in Hx.
        exists (from_currency x), (to_currency x), (rate_type x), x.2. exact Hx.
      * intros f t d cls s Hs.
        assert (Hin : ((f, t, d, cls), s) ∈ x :: l).
        { rewrite Hperm. apply elem_of_exchange_rates. exact Hs. }
        apply elem_of_cons in Hin as [<-|Hin].
        -- destruct (String.leb_total d d) as [E|E]; exact E.
        -- apply StronglySorted_inv in Hsorted as [_ Hall].
           rewrite List.Forall_forall in Hall.
           specialize (Hall _ (proj1 (list_elem_of_In _ _) Hin)).
           unfold date_desc in Hall. apply Is_true_true in Hall. exact Hall.
Qed.

(** X2.  [get_latest_rate_date] is absent exactly on the empty table;
    otherwise it is the date of a stored record and no stored record has a
    later date (in the order of the text column). *)
Theorem latest_rate_date_is_maximum tbl :
  (get_latest_rate_date tbl = None <-> tbl = ∅)
  /\ (forall latest, get_latest_rate_date tbl = Some latest ->
        (exists f t cls s, tbl !! (f, t, latest, cls) = Some s)
        /\ forall f t d cls s, tbl !! (f, t, d, cls) = Some s ->
                               String.leb d latest = true).
Proof. apply latest_rate_date_spec. Qed.

(** A stored date that no stored date exceeds is the latest date. *)
Lemma latest_rate_date_unique tbl m f t cls s :
  tbl !! (f, t, m, cls) = Some s ->
  (forall f' t' d' cls' s', tbl !! (f', t', d', cls') = Some s' -> String.leb d' m = true) ->
  get_latest_rate_date tbl = Some m.
Proof.
  intros Hs Hmax. destruct (latest_rate_date_spec tbl) as [Hnone Hsome].
  destruct (get_latest_rate_date tbl) as [latest|].
  - destruct (Hsome latest eq_refl) as [(f0 & t0 & cls0 & s0 & Hs0) Hup].
    f_equal. apply String.leb_antisym; [exact (Hmax _ _ _ _ _ Hs0) | exact (Hup _ _ _ _ _ Hs)].
  - rewrite (proj1 Hnone eq_refl), lookup_empty in Hs. discriminate Hs.
Qed.

(** X20.  After [insert_rate] the latest date is the later of the inserted
    date and the latest date there was: a write for an older date does not
    move it.  A NaN is not written and leaves the latest date as it was. *)
Theorem latest_rate_date_after_insert f t (r : R) rt d src fa w :
  get_latest_rate_date (db (insert_rate f t (Some r) rt d src fa w).2)
  = if rate_is_nan r then get_latest_rate_date (db w)
    else Some match get_latest_rate_date (db w) with
              | Some latest => if String.leb latest d then d else latest
              | None => d
              end.
Proof.
  unfold insert_rate, bound_rate. destruct (rate_is_nan r); [reflexivity|].
  simpl. destruct (latest_rate_date_spec (db w)) as [Hnone Hsome].
  assert (Hdd : String.leb d d = true) by (destruct (String.leb_total d d); assumption).
  destruct (get_latest_rate_date (db w)) as [latest|].
  - destruct (Hsome latest eq_refl) as [(f0 & t0 & cls0 & s0 & Hs0) Hup].
    destruct (String.leb latest d) eqn:E.
    + apply (latest_rate_date_unique _ d f t rt (mkStored r src fa)).
      * apply lookup_insert_eq.
      * intros f' t' d' cls' s' Hs'. rewrite lookup_insert in Hs'.
        case_decide as Ek; [injection Ek as _ _ <- _; exact Hdd|].
        exact (string_leb_trans _ _ _ (Hup _ _ _ _ _ Hs') E).
    + assert (Hdl : String.leb d latest = true)
        by (destruct (String.leb_total d latest); congruence).
      assert (Hne : (f, t, d, rt) <> (f0, t0, latest, cls0)).
      { intros [= _ _ -> _]. congruence. }
      apply (latest_rate_date_unique _ latest f0 t0 cls0 s0).
      * rewrite lookup_insert_ne by exact Hne. exact Hs0.
      * intros f' t' d' cls' s' Hs'. rewrite lookup_insert in Hs'.
        case_decide as Ek; [injection Ek as _ _ <- _; exact Hdl|].
        exact (Hup _ _ _ _ _ Hs').
  - rewrite (proj1 Hnone eq_refl).
    apply (latest_rate_date_unique _ d f t rt (mkStored r src fa)).
    + apply lookup_insert_eq.
    + intros f' t' d' cls' s' Hs'. rewrite lookup_insert in Hs'.
      case_decide as Ek; [injection Ek as _ _ <- _; exact Hdd|].
      rewrite lookup_empty in Hs'. discriminate Hs'.
Qed.

(** X3.  A query of [get_all_rates_for_base] for one rate type answers with
    that rate type only, and with exactly what the query without a rate type
    answers for it: a rate type that is absent is never replaced by another
    one. *)
Theorem get_all_one_rate_type tbl base d rt c cls :
  rt <> "" ->
  rate_at (get_all_rates_for_base tbl base d (Some rt)) c cls
  = if decide (cls = rt) then rate_at (get_all_rates_for_base tbl base d None) c cls
    else None.
Proof.
  intros Hne. apply option_ext. intros r.
  rewrite rate_at_get_all. unfold type_selected.
  rewrite (truthy_str_nonempty rt Hne).
  case_decide as E.
  - rewrite rate_at_get_all. unfold type_selected. simpl.
    split; intros (v & Hv); exists v; intuition.
  - split; [|discriminate]. intros (v & _ & _ & _ & _ & _ & _ & Hsel). contradiction.
Qed.

End MoreStoreFacts.

(** ** Which records a computation may touch *)

Section FrameFacts.
Context {R : Type} `{RateArith R} `{DateTimeLib}.
Implicit Types (w : World (R := R)) (allowed : Key -> Prop).

Lemma writes_only_refl allowed w : writes_only allowed w w.
Proof. split; auto. Qed.

Lemma writes_only_trans allowed w1 w2 w3 :
  writes_only allowed w1 w2 -> writes_only allowed w2 w3 -> writes_only allowed w1 w3.
Proof.
  intros [F1 M1] [F2 M2]. split.
  - intros k Hk. rewrite F2, F1 by exact Hk. reflexivity.
  - auto.
Qed.

Lemma writes_only_weaken allowed allowed' w w' :
  (forall k, allowed k -> allowed' k) ->
  writes_only allowed w w' -> writes_only allowed' w w'.
Proof. intros Himp [F M0]. split; [|exact M0]. intros k Hk. apply F. auto. Qed.

Lemma writes_only_same_db allowed w w' : db w' = db w -> writes_only allowed w w'.
Proof. intros E. unfold writes_only. rewrite E. auto. Qed.

Lemma M_writes_only_weaken {A} allowed allowed' (m : M (R := R) A) :
  (forall k, allowed k -> allowed' k) ->
  M_writes_only allowed m -> M_writes_only allowed' m.
Proof. intros Himp Hm w. eapply writes_only_weaken; [exact Himp | apply Hm]. Qed.

Lemma wo_ret {A} allowed (a : A) : M_writes_only allowed (mret a : M (R := R) A).
Proof. intros w. apply writes_only_refl. Qed.

Lemma wo_raise {A} allowed e : M_writes_only allowed (raise e : M (R := R) A).
Proof. intros w. apply writes_only_refl. Qed.

Lemma wo_get_world allowed : M_writes_only allowed (get_world : M (R := R) _).
Proof. intros w. apply writes_only_refl. Qed.

Lemma wo_query {A} allowed (q : gmap Key (Stored R) -> A) : M_writes_only allowed (query q).
Proof. intros w. apply writes_only_refl. Qed.

Lemma wo_lift_outcome {A} allowed (o : outcome A) : M_writes_only allowed (lift_outcome o : M (R := R) A).
Proof. intros w. apply writes_only_refl. Qed.

Lemma wo_bind {A B} allowed (m : M (R := R) A) (k : A -> M (R := R) B) :
  M_writes_only allowed m -> (forall a, M_writes_only allowed (k a)) ->
  M_writes_only allowed (m ≫= k).
Proof.
  intros Hm Hk w. specialize (Hm w). unfold mbind, M_bind.
  destruct (m w) as [[a|e] w1]; simpl in *; [|exact Hm].
  eapply writes_only_trans; [exact Hm | apply Hk].
Qed.

Lemma wo_try_except {A} allowed (body : M (R := R) A) (handler : exn -> M (R := R) A) :
  M_writes_only allowed body -> (forall e, M_writes_only allowed (handler e)) ->
  M_writes_only allowed (try_except body handler).
Proof.
  intros Hm Hh w. specialize (Hm w). unfold try_except.
  destruct (body w) as [[a|e] w1]; simpl in *; [exact Hm|].
  eapply writes_only_trans; [exact Hm | apply Hh].
Qed.

Lemma wo_for_each {A S} allowed (body : S -> A -> M (R := R) S) (l : list A) :
  (forall acc x, M_writes_only allowed (body acc x)) ->
  forall acc, M_writes_only allowed (for_each l body acc).
Proof.
  intros Hbody. induction l as [|x l IH]; intros acc; simpl.
  - apply wo_ret.
  - apply wo_bind; [apply Hbody | exact IH].
Qed.

Lemma wo_insert_rate allowed f t (r : option R) rt d src fa :
  allowed (f, t, d, rt) -> M_writes_only allowed (insert_rate f t r rt d src fa).
Proof.
  intros Hk w. unfold insert_rate.
  destruct (bound_rate r) as [r'|]; [|apply writes_only_refl].
  simpl. split.
  - intros k Hn. apply lookup_insert_ne. intros <-. contradiction.
  - intros k [s Hs]. destruct (decide ((f, t, d, rt) = k)) as [<-|Hne].
    + eexists. apply lookup_insert_eq.
    + exists s. rewrite <- Hs. apply lookup_insert_ne. exact Hne.
Qed.

Lemma wo_oxr_client_get allowed url : M_writes_only allowed (oxr_client_get (R := R) url).
Proof.
  intros w. unfold oxr_client_get. apply writes_only_same_db.
  destruct (oxr_http w) as [|reply rest]; [reflexivity|].
  destruct (reply url); reflexivity.
Qed.

Lemma wo_ambito_client_get allowed url : M_writes_only allowed (ambito_client_get (R := R) url).
Proof.
  intros w. unfold ambito_client_get. apply writes_only_same_db.
  destruct (ambito_http w) as [|reply rest]; [reflexivity|].
  destruct (reply url); reflexivity.
Qed.

Lemma wo_check_timestamp allowed data : M_writes_only allowed (check_timestamp (R := R) data).
Proof.
  unfold check_timestamp. destruct (truthy_int _) as [ts|]; [|apply wo_ret].
  destruct (fromtimestamp_error ts); [apply wo_raise | apply wo_ret].
Qed.

Lemma wo_py_add_days allowed d n : M_writes_only allowed (py_add_days (R := R) d n).
Proof. unfold py_add_days. destruct (add_days_overflows d n); [apply wo_raise | apply wo_ret]. Qed.

Lemma oxr_key_intro currency d : currency <> "USD" -> oxr_key ("USD", currency, d, "official").
Proof. intros Hne. exists currency, d. auto. Qed.

Lemma wo_fetch_and_store ds : M_writes_only oxr_key (fetch_and_store_rates (R := R) ds).
Proof.
  unfold fetch_and_store_rates.
  apply wo_bind; [apply wo_get_world|]. intros w0.
  destruct (String.eqb (OXR_API_KEY w0) ""); [apply wo_raise|].
  apply wo_bind; [apply wo_oxr_client_get|]. intros response.
  destruct (negb _); [apply wo_raise|].
  apply wo_bind; [destruct (response.2); [apply wo_ret | apply wo_raise]|]. intros data.
  apply wo_bind; [apply wo_check_timestamp|]. intros _.
  apply wo_for_each. intros count [currency r]. unfold store_oxr_rate.
  destruct (String.eqb_spec currency "USD") as [->|Hne]; [apply wo_ret|].
  apply wo_bind; [|intros; apply wo_ret].
  apply wo_insert_rate, oxr_key_intro. exact Hne.
Qed.

(** X4.  Whatever the provider replies and whether it returns or raises,
    [fetch_and_store_rates] only writes official rates from USD to another
    currency: every other record keeps its value, and no record is lost. *)
Theorem fetch_and_store_frame ds : M_writes_only oxr_key (fetch_and_store_rates (R := R) ds).
Proof. intros w. apply wo_fetch_and_store. Qed.

Lemma wo_fetch_historical_blue allowed from_date to_date :
  M_writes_only allowed (fetch_historical_blue_rates (R := R) from_date to_date).
Proof.
  unfold fetch_historical_blue_rates.
  apply wo_try_except; [|intros; apply wo_raise].
  apply wo_bind; [apply wo_ambito_client_get|]. intros response.
  destruct (negb _); [apply wo_raise|].
  destruct (response.2) as [[|header [|row rows]]|];
    try apply wo_raise. apply wo_lift_outcome.
Qed.

Lemma wo_py_inv allowed (x : R) : M_writes_only allowed (py_inv x).
Proof. unfold py_inv. destruct (rate_is_zero x); [apply wo_raise | apply wo_ret]. Qed.

Lemma wo_py_fromisoformat allowed s : M_writes_only allowed (py_fromisoformat (R := R) s).
Proof. unfold py_fromisoformat. destruct (fromisoformat s); [apply wo_ret | apply wo_raise]. Qed.

Lemma blue_key_usd_ars d : blue_key ("USD", "ARS", d, "blue").
Proof. exists d. auto. Qed.

Lemma blue_key_ars_usd d : blue_key ("ARS", "USD", d, "blue").
Proof. exists d. auto. Qed.

Lemma wo_scrape_and_store ds :
  M_writes_only blue_key (scrape_and_store_ars_rates (R := R) ds).
Proof.
  unfold scrape_and_store_ars_rates.
  apply wo_bind; [apply wo_get_world|]. intros w0.
  apply wo_bind.
  { unfold scrape_target_date. destruct (truthy_str ds); [apply wo_py_fromisoformat|].
    apply wo_bind; [apply wo_get_world | intros; apply wo_ret]. }
  intros target_date.
  apply wo_bind; [apply wo_py_add_days|]. intros from_obj.
  apply wo_bind; [apply wo_py_add_days|]. intros to_obj.
  apply wo_bind; [apply wo_fetch_historical_blue|]. intros [|item rates_data];
    [apply wo_raise|].
  apply wo_bind.
  - apply wo_for_each. intros count [date' [compra venta]]. unfold store_fetched_rate.
    apply wo_bind; [apply wo_insert_rate, blue_key_usd_ars|]. intros _.
    apply wo_bind; [apply wo_py_inv|]. intros r.
    apply wo_bind; [apply wo_insert_rate, blue_key_ars_usd|]. intros; apply wo_ret.
  - intros count0. apply wo_for_each. intros count [date' [compra venta]].
    unfold copy_friday_rate.
    apply wo_bind; [apply wo_py_fromisoformat|]. intros date_obj.
    destruct (weekday date_obj =? 4); [|apply wo_ret].
    apply wo_bind; [apply wo_py_add_days|]. intros saturday_obj.
    apply wo_bind; [apply wo_insert_rate, blue_key_usd_ars|]. intros _.
    apply wo_bind; [apply wo_py_inv|]. intros r.
    apply wo_bind; [apply wo_insert_rate, blue_key_ars_usd|]. intros _.
    apply wo_bind; [apply wo_py_add_days|]. intros sunday_obj.
    apply wo_bind; [apply wo_insert_rate, blue_key_usd_ars|]. intros _.
    apply wo_bind; [apply wo_insert_rate, blue_key_ars_usd|]. intros; apply wo_ret.
Qed.

(** X5.  Whatever ambito.com replies and whether it returns or raises,
    [scrape_and_store_ars_rates] only writes blue rates between USD and ARS:
    every other record keeps its value, and no record is lost. *)
Theorem scrape_and_store_frame ds :
  M_writes_only blue_key (scrape_and_store_ars_rates (R := R) ds).
Proof. intros w. apply wo_scrape_and_store. Qed.

Lemma wo_fetch_and_store_provider {A} ds (k : Z -> M (R := R) A) :
  (forall a, M_writes_only provider_key (k a)) ->
  M_writes_only provider_key (fetch_and_store_rates ds ≫= k).
Proof.
  intros Hk. apply wo_bind; [|exact Hk].
  eapply M_writes_only_weaken; [|apply wo_fetch_and_store]. intros k0 Hk0. left. exact Hk0.
Qed.

Lemma wo_scrape_provider {A} ds (k : Z -> M (R := R) A) :
  (forall a, M_writes_only provider_key (k a)) ->
  M_writes_only provider_key (scrape_and_store_ars_rates ds ≫= k).
Proof.
  intros Hk. apply wo_bind; [|exact Hk].
  eapply M_writes_only_weaken; [|apply wo_scrape_and_store]. intros k0 Hk0. right. exact Hk0.
Qed.

Lemma wo_backfill_official base d :
  M_writes_only provider_key (backfill_official (R := R) base d).
Proof.
  unfold backfill_official. destruct (String.eqb base "USD"); [|apply wo_ret].
  apply wo_bind; [apply wo_query|]. intros official_rates.
  destruct (dict_is_empty official_rates); [|apply wo_ret].
  apply wo_try_except; [|intros; apply wo_ret].
  apply wo_fetch_and_store_provider. intros; apply wo_ret.
Qed.

Lemma wo_backfill_blue base symbols d :
  M_writes_only provider_key (backfill_blue (R := R) base symbols d).
Proof.
  unfold backfill_blue. destruct (_ || _); [|apply wo_ret].
  destruct (match truthy_list symbols with Some _ => _ | None => _ end); [|apply wo_ret].
  apply wo_bind; [apply wo_query|]. intros existing_blue.
  destruct (negb _); [|apply wo_ret].
  apply wo_try_except; [|intros; apply wo_ret].
  apply wo_scrape_provider. intros; apply wo_ret.
Qed.

Lemma wo_interpolate base targets d rt :
  M_writes_only provider_key (_interpolate_via_usd (R := R) base targets d rt).
Proof.
  unfold _interpolate_via_usd.
  apply wo_bind; [apply wo_query|]. intros base_to_usd_rates.
  destruct (base_to_usd_rates !! "USD"); [|apply wo_ret].
  apply wo_bind; [apply wo_query|]. intros usd_rates.
  apply wo_bind.
  - destruct (dict_is_empty usd_rates); [|apply wo_ret].
    apply wo_try_except; [|intros; apply wo_ret].
    apply wo_fetch_and_store_provider. intros; apply wo_query.
  - intros usd_rates'. destruct (dict_is_empty usd_rates'); apply wo_ret.
Qed.

Lemma wo_get_rates base symbols d rt :
  M_writes_only provider_key (get_rates (R := R) base symbols d rt).
Proof.
  unfold get_rates.
  apply wo_bind; [apply wo_backfill_official|]. intros _.
  apply wo_bind; [apply wo_backfill_blue|]. intros _.
  apply wo_bind; [apply wo_query|]. intros all_base_rates.
  destruct (truthy_list symbols) as [l|]; [|apply wo_ret].
  destruct (_ <? _)%nat; [|apply wo_ret].
  apply wo_bind; [apply wo_interpolate | intros; apply wo_ret].
Qed.

(** X6.  Whatever the providers reply, [get_rates] only writes what the two
    ingestions write (official rates from USD, blue rates between USD and
    ARS): every other record keeps its value, and no record is ever
    removed. *)
Theorem get_rates_frame base symbols d rt :
  M_writes_only provider_key (get_rates (R := R) base symbols d rt).
Proof. intros w. apply wo_get_rates. Qed.

End FrameFacts.

(** ** [rate_service.py], [scheduler.py] and [main.py] *)

Section ServiceFacts.
Context {R : Type} `{RateArith R} `{DateTimeLib}.
Implicit Types (w : World (R := R)).

(** [get_rates] returns normally from every world. *)
Lemma get_rates_total base symbols d rt w :
  exists rates w', get_rates base symbols d rt w = (Ret rates, w').
Proof.
  destruct (backfill_run base symbols d w) as (w1 & E1).
  rewrite (get_rates_run base symbols d rt w w1 E1). cbv zeta.
  destruct (truthy_list symbols) as [l|]; [|eauto].
  destruct (_ <? _)%nat; [|eauto].
  match goal with
  | |- context [_interpolate_via_usd base ?targets d rt] =>
      destruct (interpolate_run base targets d rt w1) as (usd & w' & E & _)
  end.
  unfold_monad. rewrite E. eauto.
Qed.

(** X7.  [get_rates] returns normally whatever the providers do, and with a
    list of targets its result has no currency outside the list. *)
Theorem get_rates_only_requested base symbols d rt w :
  exists rates w',
    get_rates base symbols d rt w = (Ret rates, w')
    /\ forall l, truthy_list symbols = Some l ->
                 forall c, is_Some (rates !! c) -> c ∈ l.
Proof.
  destruct (backfill_run base symbols d w) as (w1 & E1).
  rewrite (get_rates_run base symbols d rt w w1 E1). cbv zeta.
  destruct (truthy_list symbols) as [l|].
  2:{ eexists _, _. split; [reflexivity|]. intros l E. discriminate E. }
  set (rates := project_symbols (get_all_rates_for_base (db w1) base d rt) l).
  assert (Hr : forall c, is_Some (rates !! c) -> c ∈ l).
  { intros c [m Hm]. subst rates. rewrite lookup_project_symbols in Hm.
    case_decide; [assumption | discriminate]. }
  destruct (_ <? _)%nat.
  - destruct (interpolate_run base (filter (fun s => rates !! s = None) l) d rt w1)
      as (usd & w' & E & _).
    pose proof (fun c => interpolated_only_missing base l rates d rt w1 _ w' c E) as Hmiss.
    unfold_monad. rewrite E. eexists _, w'. split; [reflexivity|].
    intros l' [= <-] c [m Hc]. apply lookup_union_Some_raw in Hc as [Hi | [_ Hc]].
    + apply Hmiss. eauto.
    + apply Hr. eauto.
  - eexists _, w1. split; [reflexivity|]. intros l' [= <-]. exact Hr.
Qed.

Lemma ensure_rates_available_run date_str w :
  exists w',
    ensure_rates_available date_str w = (Ret tt, w')
    /\ writes_only oxr_key w w'
    /\ (forall d, date_str = Some d ->
                  get_all_rates_for_base (db w) "USD" d None <> ∅ -> w' = w).
Proof.
  unfold ensure_rates_available, try_except. unfold_monad.
  destruct (dict_is_empty (get_all_rates_for_base_opt (db w) "USD" date_str None)) eqn:E.
  - pose proof (wo_fetch_and_store date_str w) as Hframe.
    destruct (fetch_and_store_rates date_str w) as [[n|e] w']; simpl in *;
      (exists w'; split; [reflexivity|]; split; [exact Hframe|]);
      intros d -> Hne; apply dict_is_empty_true in E; contradiction.
  - exists w. split; [reflexivity|]. split; [apply writes_only_refl | auto].
Qed.

(** X8.  [ensure_rates_available] never raises and only writes official
    rates from USD; when some rate from USD is already stored for the date,
    it leaves the world as it is (no request is made). *)
Theorem ensure_rates_available_safe date_str w :
  exists w',
    ensure_rates_available date_str w = (Ret tt, w')
    /\ writes_only oxr_key w w'
    /\ (forall d, date_str = Some d ->
                  get_all_rates_for_base (db w) "USD" d None <> ∅ -> w' = w).
Proof. apply ensure_rates_available_run. Qed.

(** X9.  The daily job of the scheduler never raises, whatever the two
    providers do; a failure of the first ingestion does not keep the second
    from running: the job ends in the world that the scraper leaves when it
    is started after the first attempt.  Only provider records are written. *)
Theorem fetch_daily_rates_safe w :
  fetch_daily_rates w
  = (Ret tt, (scrape_and_store_ars_rates None (fetch_and_store_rates None w).2).2)
  /\ writes_only provider_key w (fetch_daily_rates w).2.
Proof.
  split.
  - unfold fetch_daily_rates, try_except. unfold_monad.
    destruct (fetch_and_store_rates None w) as [[n|e] w1]; simpl;
      destruct (scrape_and_store_ars_rates None w1) as [[n'|e'] w2]; reflexivity.
  - revert w. change (M_writes_only provider_key (fetch_daily_rates (R := R))).
    unfold fetch_daily_rates.
    apply wo_bind; [|intros _].
    + apply wo_try_except; [|intros; apply wo_ret].
      apply wo_fetch_and_store_provider. intros; apply wo_ret.
    + apply wo_try_except; [|intros; apply wo_ret].
      apply wo_scrape_provider. intros; apply wo_ret.
Qed.

(** The [try] block of the endpoint with a date in hand. *)
Lemma endpoint_body_dated base sl d rt w :
  exists rates w',
    rates_endpoint_body base sl (Some d) rt w = (Ret (RatesResponse base d rates), w').
Proof.
  unfold rates_endpoint_body, try_except. unfold_monad.
  destruct (get_rates_total base sl d rt w) as (rates & w1 & E). rewrite E.
  destruct (dict_is_empty rates); [|eauto].
  destruct (ensure_rates_available_run (Some d) w1) as (w2 & E2 & _). rewrite E2.
  destruct (get_rates_total base sl d rt w2) as (rates' & w3 & E3). rewrite E3. eauto.
Qed.

Lemma endpoint_body_latest base sl rt w d :
  truthy_str (get_latest_rate_date (db w)) = Some d ->
  rates_endpoint_body base sl None rt w = rates_endpoint_body base sl (Some d) rt w.
Proof.
  intros E. unfold rates_endpoint_body, try_except. unfold_monad. rewrite E. reflexivity.
Qed.

(** X10.  A request to [/rates] that names a date: when the date is
    malformed the answer is the error 400 and nothing was read, fetched or
    written; otherwise the answer is always a [RatesResponse] for that very
    date and the upper-cased base, never an error, whatever the providers
    do. *)
Theorem rates_endpoint_dated (strptime_ok : string -> bool) base symbols date' rt w d :
  truthy_str date' = Some d ->
  if strptime_ok d then
    exists rates w',
      rates_endpoint strptime_ok base symbols date' rt w
      = (Ret (RatesResponse (upper base) d rates), w')
  else
    rates_endpoint strptime_ok base symbols date' rt w = (Ret (HTTPException 400), w).
Proof.
  intros E. unfold rates_endpoint. rewrite E.
  destruct (strptime_ok d); [apply endpoint_body_dated | reflexivity].
Qed.

(** X11.  A request to [/rates] without a date: it is answered for the
    latest date of the store when there is one; with an empty store and both
    providers failing it is answered with the error 500, and the store is
    still empty. *)
Theorem rates_endpoint_undated (strptime_ok : string -> bool) base symbols date' rt w :
  truthy_str date' = None ->
  (forall d, truthy_str (get_latest_rate_date (db w)) = Some d ->
     exists rates w',
       rates_endpoint strptime_ok base symbols date' rt w
       = (Ret (RatesResponse (upper base) d rates), w'))
  /\ (db w = ∅ -> providers_down w ->
      exists w',
        rates_endpoint strptime_ok base symbols date' rt w = (Ret (HTTPException 500), w')
        /\ db w' = ∅).
Proof.
  intros E. unfold rates_endpoint. rewrite E. split.
  - intros d Hd. rewrite (endpoint_body_latest _ _ _ _ d Hd). apply endpoint_body_dated.
  - intros Hempty Hdown.
    unfold rates_endpoint_body, ensure_rates_available, try_except. unfold_monad.
    rewrite Hempty, (get_latest_rate_date_empty (R := R)). simpl.
    change (dict_is_empty (∅ : gmap string (gmap string R))) with true. simpl.
    destruct (fetch_and_store_down None w Hdown) as (e & w' & Ef & Hdb & _).
    rewrite Ef. simpl. rewrite Hdb, Hempty, (get_latest_rate_date_empty (R := R)). simpl.
    exists w'. split; [reflexivity | congruence].
Qed.

End ServiceFacts.

(** ** [oxr_client.py] and [dolar_scraper.py] *)

Section ProviderFacts.
Context {R : Type} `{RateArith R} `{DateTimeLib}.
Implicit Types (w : World (R := R)).

Lemma oxr_loop_outcome td fa (rates : list (string * option R)) :
  forall acc w o w',
    for_each rates (store_oxr_rate td fa) acc w = (o, w') ->
    oxr_http w' = oxr_http w
    /\ match o with
       | Ret n => n = acc + Z.of_nat (length (filter (fun p => p.1 <> "USD") rates))
                  /\ Forall (fun p => p.1 = "USD" \/ is_Some p.2) rates
       | Raise e => e = IntegrityError
       end.
Proof.
  induction rates as [|[currency r] l IH]; intros acc w o w' Hrun.
  - injection Hrun as <- <-. split; [reflexivity|]. simpl. split; [lia | constructor].
  - rewrite for_each_cons, store_oxr_rate_run in Hrun. rewrite filter_cons. simpl.
    destruct (String.eqb_spec currency "USD") as [->|Hne].
    + rewrite decide_False by (intros Hn; apply Hn; reflexivity).
      destruct (IH _ _ _ _ Hrun) as [Htape Ho]. split; [exact Htape|].
      destruct o as [n|e]; [|exact Ho]. destruct Ho as [-> Hall].
      split; [reflexivity|]. constructor; [left; reflexivity | exact Hall].
    + rewrite decide_True by exact Hne.
      destruct (bound_rate r) as [r1|] eqn:Eb.
      * apply bound_rate_Some in Eb as [-> _].
        destruct (IH _ _ _ _ Hrun) as [Htape Ho]. split; [exact Htape|].
        destruct o as [n|e]; [|exact Ho]. destruct Ho as [-> Hall].
        split; [simpl; lia|]. constructor; [right; simpl; eauto | exact Hall].
      * injection Hrun as <- <-. auto.
Qed.

(** X12.  A successful [fetch_and_store_rates] had an API key, made exactly
    one request, got a 200 with a rates object without any null rate for a
    currency other than USD, and returns the number of entries of that
    object whose currency is not USD. *)
Theorem fetch_and_store_count ds w n w' :
  fetch_and_store_rates ds w = (Ret n, w') ->
  OXR_API_KEY w <> ""
  /\ exists reply data,
       oxr_http w = reply :: oxr_http w'
       /\ reply (oxr_url ds) = Response 200 (Some data)
       /\ n = Z.of_nat (length (filter (fun p => p.1 <> "USD") (oxr_rates data)))
       /\ Forall (fun p => p.1 = "USD" \/ is_Some p.2) (oxr_rates data).
Proof.
  intros Hrun.
  assert (Hkey : OXR_API_KEY w <> "").
  { intros E. unfold fetch_and_store_rates in Hrun. unfold_monad.
    rewrite E in Hrun. discriminate Hrun. }
  split; [exact Hkey|].
  destruct (fetch_and_store_run ds w n w' Hrun) as (reply & rest & data & E1 & E2 & Hloop).
  apply oxr_loop_outcome in Hloop as [Htape [-> Hall]]. simpl in Htape.
  exists reply, data. rewrite Htape. auto.
Qed.





(** *** [parse_ambito_date] *)

Lemma split_on_length sep s : length (split_on sep s) = S (count_char sep s).
Proof.
  induction s as [|c s IH]; simpl; [reflexivity|].
  destruct (Ascii.eqb c sep); simpl.
  - rewrite IH. reflexivity.
  - destruct (split_on sep s); simpl in *; [discriminate IH | exact IH].
Qed.

Lemma split_on_app sep a b :
  count_char sep a = O ->
  split_on sep (a ++ String sep b) = a :: split_on sep b.
Proof.
  induction a as [|c a IH]; simpl.
  - intros _. rewrite Ascii.eqb_refl. reflexivity.
  - destruct (Ascii.eqb c sep); [discriminate|]. intros Hc. rewrite (IH Hc). reflexivity.
Qed.

Lemma split_on_none sep a : count_char sep a = O -> split_on sep a = [a].
Proof.
  induction a as [|c a IH]; simpl; [reflexivity|].
  destruct (Ascii.eqb c sep); [discriminate|]. intros Hc. rewrite (IH Hc). reflexivity.
Qed.

(** X15.  [parse_ambito_date] succeeds exactly on the texts with two
    slashes and otherwise raises [ValueError]; on [day/month/year] it
    returns [year-month-day]. *)
Theorem parse_ambito_date_spec :
  (forall s, (exists r, parse_ambito_date s = Ret r) <-> count_char "/" s = 2%nat)
  /\ (forall s e, parse_ambito_date s = Raise e -> e = ValueError)
  /\ (forall day month year,
        count_char "/" day = O -> count_char "/" month = O -> count_char "/" year = O ->
        parse_ambito_date (day ++ "/" ++ month ++ "/" ++ year)
        = Ret (year ++ "-" ++ month ++ "-" ++ day)).
Proof.
  split; [|split].
  - intros s. unfold parse_ambito_date.
    pose proof (split_on_length "/" s) as Hlen.
    destruct (split_on "/" s) as [|a [|b [|c [|x l]]]]; simpl in Hlen;
      (split; [intros [r E]; try discriminate E; lia | intros E; try lia; eauto]).
  - intros s e. unfold parse_ambito_date.
    destruct (split_on "/" s) as [|a [|b [|c [|x l]]]]; intros E;
      try discriminate E; injection E as <-; reflexivity.
  - intros day month year Hd Hm Hy. unfold parse_ambito_date.
    change (day ++ "/" ++ month ++ "/" ++ year)
      with (day ++ String "/" (month ++ String "/" year)).
    rewrite (split_on_app _ _ _ Hd), (split_on_app _ _ _ Hm), (split_on_none _ _ Hy).
    reflexivity.
Qed.

(** *** The scraper *)

Lemma writes_nothing_same_db w w' : writes_only (fun _ => False) w w' -> db w' = db w.
Proof. intros [Hframe _]. apply map_eq. intros k. apply Hframe. tauto. Qed.

Lemma fetch_historical_blue_outcome from_date to_date w :
  exists w',
    db w' = db w
    /\ (fetch_historical_blue_rates from_date to_date w = (Raise DolarScraperError, w')
        \/ exists rates_data,
             fetch_historical_blue_rates from_date to_date w = (Ret rates_data, w')
             /\ NoDup rates_data.*1
             /\ Forall (fun item => rate_is_zero item.2.1 = false
                                    /\ rate_is_zero item.2.2 = false) rates_data).
Proof.
  pose proof (wo_fetch_historical_blue (fun _ => False) from_date to_date w) as Hframe.
  apply writes_nothing_same_db in Hframe.
  destruct (fetch_historical_blue_rates from_date to_date w) as [[rates_data|e] w'] eqn:E;
    exists w'; (split; [exact Hframe|]).
  - right. exists rates_data. split; [reflexivity|].
    split; [apply (fetch_historical_blue_NoDup _ _ _ _ _ E)|].
    apply Forall_forall. intros [date' [compra venta]] Hin.
    exact (fetch_historical_blue_truthy _ _ _ _ _ E _ _ _ Hin).
  - left. unfold fetch_historical_blue_rates, try_except in E. unfold_monad.
    match type of E with
    | match ?b with _ => _ end = _ => destruct b as [[a|e0] w0]
    end; [discriminate E|]. injection E as <- _. reflexivity.
Qed.

(** X16.  [fetch_historical_blue_rates] never writes to the database and
    raises nothing but [DolarScraperError]; the dictionary it returns has one
    entry per date, each with a buy and a sell value that are not zero. *)
Theorem fetch_historical_blue_contract from_date to_date w :
  exists w',
    db w' = db w
    /\ (fetch_historical_blue_rates from_date to_date w = (Raise DolarScraperError, w')
        \/ exists rates_data,
             fetch_historical_blue_rates from_date to_date w = (Ret rates_data, w')
             /\ NoDup rates_data.*1
             /\ Forall (fun item => rate_is_zero item.2.1 = false
                                    /\ rate_is_zero item.2.2 = false) rates_data).
Proof. apply fetch_historical_blue_outcome. Qed.

Lemma store_loop_outcome fa (l : list (string * (R * R))) :
  Forall (fun item => rate_is_zero item.2.1 = false /\ rate_is_zero item.2.2 = false) l ->
  forall acc w o w',
    for_each l (store_fetched_rate fa) acc w = (o, w') ->
    match o with
    | Ret n => n = acc + 2 * Z.of_nat (length l)
    | Raise e => e = IntegrityError
    end.
Proof.
  induction l as [|[date' [compra venta]] l IH]; intros Hall acc w o w' Hrun.
  - injection Hrun as <- <-. simpl. lia.
  - apply Forall_cons in Hall as [[_ Hv] Hall]. simpl in Hv.
    rewrite for_each_cons, store_fetched_rate_run in Hrun.
    destruct (rate_is_nan compra); [injection Hrun as <- _; reflexivity|].
    cbv zeta in Hrun. rewrite Hv in Hrun.
    destruct (rate_is_nan (rate_inv venta)); [injection Hrun as <- _; reflexivity|].
    specialize (IH Hall _ _ _ _ Hrun). destruct o as [n|e]; [|exact IH].
    rewrite IH. simpl length. lia.
Qed.

Lemma copy_friday_rate_outcome fa acc date' (compra venta : R) w o w1 :
  rate_is_zero venta = false ->
  copy_friday_rate fa acc (date', (compra, venta)) w = (o, w1) ->
  match o with
  | Ret a => exists date_obj,
               fromisoformat date' = Some date_obj
               /\ a = if weekday date_obj =? 4 then acc + 4 else acc
  | Raise e => e = ValueError \/ e = OverflowError \/ e = IntegrityError
  end.
Proof.
  intros Hv.
  unfold copy_friday_rate, py_fromisoformat, py_inv, py_add_days, insert_rate, bound_rate.
  unfold_monad.
  destruct (fromisoformat date') as [date_obj|]; [|intros [= <- _]; auto].
  destruct (weekday date_obj =? 4) eqn:Ewd.
  2:{ intros [= <- _]. exists date_obj. rewrite Ewd. auto. }
  destruct (add_days_overflows date_obj 1); [intros [= <- _]; auto|].
  destruct (rate_is_nan compra); [intros [= <- _]; auto|]. simpl.
  rewrite Hv.
  destruct (rate_is_nan (rate_inv venta)); [intros [= <- _]; auto|]. simpl.
  destruct (add_days_overflows date_obj 2); [intros [= <- _]; auto|]. simpl.
  intros [= <- _]. exists date_obj. rewrite Ewd. auto.
Qed.

Lemma copy_loop_outcome fa (l : list (string * (R * R))) :
  Forall (fun item => rate_is_zero item.2.1 = false /\ rate_is_zero item.2.2 = false) l ->
  forall acc w o w',
    for_each l (copy_friday_rate fa) acc w = (o, w') ->
    match o with
    | Ret n =>
        n = acc + 4 * Z.of_nat (length (filter (fun item => friday_item item = true) l))
        /\ Forall (fun item => is_Some (fromisoformat item.1)) l
    | Raise e => e = ValueError \/ e = OverflowError \/ e = IntegrityError
    end.
Proof.
  induction l as [|[date' [compra venta]] l IH]; intros Hall acc w o w' Hrun.
  - injection Hrun as <- <-. simpl. split; [lia | constructor].
  - apply Forall_cons in Hall as [[_ Hv] Hall]. simpl in Hv.
    rewrite for_each_cons in Hrun.
    destruct (copy_friday_rate fa acc (date', (compra, venta)) w) as [[a|e0] w1] eqn:E.
    2:{ injection Hrun as <- _.
        exact (copy_friday_rate_outcome fa acc date' compra venta w _ w1 Hv E). }
    destruct (copy_friday_rate_outcome fa acc date' compra venta w _ w1 Hv E)
      as (date_obj & Ep & ->).
    specialize (IH Hall _ _ _ _ Hrun). destruct o as [n|e]; [|exact IH].
    destruct IH as [-> Hparse].
    split; [|constructor; [simpl; rewrite Ep; eauto | exact Hparse]].
    assert (Hfri : friday_item (date', (compra, venta)) = (weekday date_obj =? 4))
      by (unfold friday_item; simpl; rewrite Ep; reflexivity).
    rewrite filter_cons, Hfri.
    destruct (weekday date_obj =? 4).
    + rewrite decide_True by reflexivity. simpl length. lia.
    + rewrite decide_False by discriminate. lia.
Qed.

(** X17.  A successful run of the scraper returns two writes per entry of
    the fetched batch plus four per Friday of the batch, and every date of
    the batch was a date [datetime.fromisoformat] accepts. *)
Theorem scrape_and_store_count ds w n w' target_date rates_data w0 :
  scrape_target_date ds w = (Ret target_date, w) ->
  fetch_historical_blue_rates (strftime_ymd (add_days target_date (-15)))
                              (strftime_ymd (add_days target_date 15)) w
    = (Ret rates_data, w0) ->
  scrape_and_store_ars_rates ds w = (Ret n, w') ->
  n = 2 * Z.of_nat (length rates_data)
      + 4 * Z.of_nat (length (filter (fun item => friday_item item = true) rates_data))
  /\ Forall (fun item => is_Some (fromisoformat item.1)) rates_data
  /\ rates_data <> [].
Proof.
  intros Ht Hf Hrun.
  destruct (scrape_run ds w n w' target_date rates_data w0 Ht Hf Hrun)
    as (count & w1 & Hstore & Hcopy).
  assert (Hall : Forall (fun item => rate_is_zero item.2.1 = false
                                     /\ rate_is_zero item.2.2 = false) rates_data).
  { apply Forall_forall. intros [date' [compra venta]] Hin.
    exact (fetch_historical_blue_truthy _ _ _ _ _ Hf _ _ _ Hin). }
  apply (store_loop_outcome _ _ Hall) in Hstore. subst count.
  apply (copy_loop_outcome _ _ Hall) in Hcopy as [-> Hparse].
  split; [rewrite Z.add_0_l; reflexivity|]. split; [exact Hparse|].
  intros ->. unfold scrape_and_store_ars_rates, py_add_days in Hrun. unfold_monad.
  rewrite Ht in Hrun.
  destruct (add_days_overflows target_date (-15)); [discriminate Hrun|].
  destruct (add_days_overflows target_date 15); [discriminate Hrun|].
  rewrite Hf in Hrun. discriminate Hrun.
Qed.

(** Why [scrape_and_store_ars_rates] raises. *)
Lemma scrape_and_store_raise ds w e w' :
  scrape_and_store_ars_rates ds w = (Raise e, w') ->
  (e = DolarScraperError /\ db w' = db w)
  \/ e = ValueError \/ e = OverflowError \/ e = IntegrityError.
Proof.
  unfold scrape_and_store_ars_rates, py_add_days. unfold_monad.
  assert (Ht : (exists target_date, scrape_target_date ds w = (Ret target_date, w))
               \/ scrape_target_date ds w = (Raise ValueError, w)).
  { unfold scrape_target_date, py_fromisoformat. unfold_monad.
    destruct (truthy_str ds) as [d|]; [|eauto].
    destruct (fromisoformat d); eauto. }
  destruct Ht as [[target_date ->] | ->]; [|intros [= <- _]; auto].
  destruct (add_days_overflows target_date (-15)); [intros [= <- _]; auto|].
  destruct (add_days_overflows target_date 15); [intros [= <- _]; auto|].
  destruct (fetch_historical_blue_outcome
              (strftime_ymd (add_days target_date (-15)))
              (strftime_ymd (add_days target_date 15)) w)
    as (w0 & Hdb & [-> | (rates_data & -> & _ & Hall)]).
  - intros [= <- <-]. auto.
  - destruct rates_data as [|item l]; [intros [= <- <-]; auto|].
    destruct (for_each (item :: l) (store_fetched_rate (utcnow_isoformat w)) 0 w0)
      as [[count|e0] w1] eqn:Estore.
    + intros Hcopy. apply (copy_loop_outcome _ _ Hall) in Hcopy. auto.
    + intros [= <- _]. apply (store_loop_outcome _ _ Hall) in Estore. auto.
Qed.

(** X18.  The scraper raises nothing but [DolarScraperError], [ValueError]
    (a date that [datetime.fromisoformat] rejects), [OverflowError] (a date
    that leaves the years 1 to 9999 when days are added) and
    [IntegrityError] (a buy value or the reciprocal of a sell value that is
    NaN); the division [1.0 / venta] is only taken of sell values that are
    not zero.  When it raises [DolarScraperError] (a failed fetch or an
    empty batch) it has written nothing. *)
Theorem scrape_and_store_failures ds w e w' :
  scrape_and_store_ars_rates ds w = (Raise e, w') ->
  (e = DolarScraperError /\ db w' = db w)
  \/ e = ValueError \/ e = OverflowError \/ e = IntegrityError.
Proof. apply scrape_and_store_raise. Qed.


End ProviderFacts.

(** ** From the store to the answer of the resolver *)

Section EndToEndFacts.
Context {R : Type} `{RateArith R} `{DateTimeLib}.
Implicit Types (w : World (R := R)).

(** A reciprocal is answered for a record stored in the other direction only. *)
Lemma rate_at_get_all_inverse (tbl : gmap Key (Stored R)) A B d cls rt (s : Stored R) :
  tbl !! (A, B, d, cls) = Some s ->
  rate_pos (rate s) = true ->
  tbl !! (B, A, d, cls) = None ->
  type_selected rt cls ->
  rate_at (get_all_rates_for_base tbl B d rt) A cls = Some (rate_inv (rate s)).
Proof.
  intros Hs Hpos Hnone Hsel. apply rate_at_get_all.
  exists (mkViewRow B A (rate_inv (rate s)) cls d (source s ++ " (computed inverse)")
                    "inverse").
  split; [|simpl; auto 10].
  apply elem_of_view. right. apply elem_of_inverse_select. exists s. simpl. auto.
Qed.

Lemma truthy_list_elem (l : list string) c : c ∈ l -> truthy_list (Some l) = Some l.
Proof. destruct l; [intros Hin; inversion Hin | reflexivity]. Qed.

(** What [get_rates] answers, with a list of targets, in a world where both
    providers fail: the projection of the store as it is, completed by the
    interpolation over the store as it is. *)
Lemma get_rates_down base l d rt w c :
  providers_down w -> c ∈ l ->
  exists rates w',
    get_rates base (Some l) d rt w = (Ret rates, w')
    /\ let all := get_all_rates_for_base (db w) base d rt in
       match all !! c with
       | Some m => rates !! c = Some m
       | None =>
           rates !! c
           = match all !! "USD" with
             | Some b =>
                 foldl (interpolate_target b (get_all_rates_for_base (db w) "USD" d rt)) ∅
                       (filter (fun s => project_symbols all l !! s = None) l) !! c
             | None => None
             end
       end.
Proof.
  intros Hdown Hin.
  destruct (backfill_down base (Some l) d w Hdown) as (w1 & E1 & Hdb1 & Hdown1).
  rewrite (get_rates_run base (Some l) d rt w w1 E1). cbv zeta.
  rewrite (truthy_list_elem l c Hin), Hdb1.
  set (all := get_all_rates_for_base (db w) base d rt).
  set (rates := project_symbols all l).
  assert (Hr : rates !! c = all !! c).
  { subst rates. rewrite lookup_project_symbols, decide_True by exact Hin. reflexivity. }
  destruct (interpolate_run base (filter (fun s => rates !! s = None) l) d rt w1)
    as (usd_rates & w' & E & Husd & Hw').
  rewrite Hdb1 in E. fold all in E.
  assert (Hdb' : db w' = db w).
  { destruct Hw' as [-> | [_ ->]]; [exact Hdb1|].
    destruct (fetch_and_store_down (Some d) w1 Hdown1) as (e & w2 & Ef & Hdb2 & _).
    rewrite Ef. simpl. congruence. }
  assert (Husd' : usd_rates = get_all_rates_for_base (db w) "USD" d rt).
  { destruct Husd as [-> | ->]; congruence. }
  subst usd_rates.
  pose proof (fun c => interpolated_only_missing base l rates d rt w1 _ w' c E) as Hmiss.
  destruct (all !! c) as [m|] eqn:Ec.
  - destruct (size rates <? length l)%nat.
    + unfold_monad. rewrite E. eexists _, w'. split; [reflexivity|].
      rewrite lookup_union_r; [exact Hr|].
      apply eq_None_not_Some. intros Hs. apply Hmiss in Hs as [_ Hn]. congruence.
    + eexists _, w1. split; [reflexivity | exact Hr].
  - assert (Hgate : (size rates <? length l)%nat = true)
      by (apply (project_symbols_missing all l c Hin Ec)).
    rewrite Hgate. unfold_monad. rewrite E. eexists _, w'. split; [reflexivity|].
    rewrite lookup_union_l by exact Hr.
    destruct (all !! "USD"); [reflexivity | apply lookup_empty].
Qed.

(** X21.  Inverse, end to end.  With both providers failing, a record stored
    for [A -> B] with a positive rate and nothing stored for [B -> A] makes
    [get_rates] for base [B] and a list of targets containing [A] answer
    [1/rate] for [A] under the record's rate type. *)
Theorem resolve_inverse A B d cls rt l (s : Stored R) w :
  providers_down w ->
  db w !! (A, B, d, cls) = Some s ->
  rate_pos (rate s) = true ->
  db w !! (B, A, d, cls) = None ->
  type_selected rt cls ->
  A ∈ l ->
  exists rates w',
    get_rates B (Some l) d rt w = (Ret rates, w')
    /\ rate_at rates A cls = Some (rate_inv (rate s)).
Proof.
  intros Hdown Hs Hpos Hnone Hsel Hin.
  destruct (get_rates_down B l d rt w A Hdown Hin) as (rates & w' & E & Hc).
  exists rates, w'. split; [exact E|]. cbv zeta in Hc.
  pose proof (rate_at_get_all_inverse (db w) A B d cls rt s Hs Hpos Hnone Hsel) as Hrate.
  unfold rate_at in Hrate |- *.
  destruct (get_all_rates_for_base (db w) B d rt !! A) as [m|]; [|discriminate Hrate].
  rewrite Hc. exact Hrate.
Qed.

(** X22.  Interpolation, end to end.  With both providers failing, records
    stored for [USD -> X] and [USD -> Y] with positive rates, nothing stored
    for [X -> USD], and no entry for [Y] in the store's projection from [X]:
    [get_rates] for base [X] and a list of targets containing [Y] answers
    [(1/rate(USD -> X)) * rate(USD -> Y)] for [Y]. *)
Theorem resolve_interpolated X Y d cls rt l (sx sy : Stored R) w :
  providers_down w ->
  db w !! ("USD", X, d, cls) = Some sx -> rate_pos (rate sx) = true ->
  db w !! (X, "USD", d, cls) = None ->
  db w !! ("USD", Y, d, cls) = Some sy -> rate_pos (rate sy) = true ->
  get_all_rates_for_base (db w) X d rt !! Y = None ->
  type_selected rt cls ->
  Y ∈ l ->
  exists rates w',
    get_rates X (Some l) d rt w = (Ret rates, w')
    /\ rate_at rates Y cls = Some (rate_mul (rate_inv (rate sx)) (rate sy)).
Proof.
  intros Hdown Hsx Hpx Hnone Hsy Hpy Hmissing Hsel Hin.
  destruct (get_rates_down X l d rt w Y Hdown Hin) as (rates & w' & E & Hc).
  exists rates, w'. split; [exact E|]. cbv zeta in Hc. rewrite Hmissing in Hc.
  pose proof (rate_at_get_all_inverse (db w) "USD" X d cls rt sx Hsx Hpx Hnone Hsel) as Hleg1.
  pose proof (rate_at_get_all_direct (db w) "USD" Y d cls rt sy Hsy Hpy Hsel) as Hleg2.
  unfold rate_at in Hleg1.
  destruct (get_all_rates_for_base (db w) X d rt !! "USD") as [b|]; [|discriminate Hleg1].
  simpl in Hleg1.
  assert (Hrate : rate_at (foldl (interpolate_target b
                                    (get_all_rates_for_base (db w) "USD" d rt)) ∅
                                 (filter (fun s => project_symbols
                                            (get_all_rates_for_base (db w) X d rt) l !! s
                                          = None) l))
                          Y cls = Some (rate_mul (rate_inv (rate sx)) (rate sy))).
  { apply rate_at_foldl_interpolate. split.
    - apply list_elem_of_filter. split; [|exact Hin].
      rewrite lookup_project_symbols, decide_True by exact Hin. exact Hmissing.
    - eauto. }
  unfold rate_at in Hrate |- *. rewrite Hc. exact Hrate.
Qed.

End EndToEndFacts.

(** ** The endpoint does not look at the case of letters *)

Section CaseFacts.
Context {R : Type} `{RateArith R} `{DateTimeLib}.

Lemma upper_char_idem c : upper_char (upper_char c) = upper_char c.
Proof. destruct c as [[] [] [] [] [] [] [] []]; reflexivity. Qed.

Lemma is_space_upper_char c : is_space (upper_char c) = is_space c.
Proof. destruct c as [[] [] [] [] [] [] [] []]; reflexivity. Qed.

Lemma comma_upper_char c : Ascii.eqb (upper_char c) "," = Ascii.eqb c ",".
Proof. destruct c as [[] [] [] [] [] [] [] []]; reflexivity. Qed.

Lemma upper_idem s : upper (upper s) = upper s.
Proof. induction s as [|c s IH]; simpl; [reflexivity|]. rewrite upper_char_idem, IH. reflexivity. Qed.

Lemma split_on_upper s : split_on "," (upper s) = upper <$> split_on "," s.
Proof.
  induction s as [|c s IH]; simpl; [reflexivity|].
  rewrite comma_upper_char, IH. destruct (Ascii.eqb c ","); [reflexivity|].
  destruct (split_on "," s); reflexivity.
Qed.

Lemma lstrip_upper s : lstrip (upper s) = upper (lstrip s).
Proof.
  induction s as [|c s IH]; simpl; [reflexivity|].
  rewrite is_space_upper_char. destruct (is_space c); [exact IH | reflexivity].
Qed.

Lemma rstrip_upper s : rstrip (upper s) = upper (rstrip s).
Proof.
  induction s as [|c s IH]; simpl; [reflexivity|].
  rewrite IH, is_space_upper_char. destruct (rstrip s); simpl; [|reflexivity].
  destruct (is_space c); reflexivity.
Qed.

Lemma strip_upper s : strip (upper s) = upper (strip s).
Proof. unfold strip. rewrite lstrip_upper, rstrip_upper. reflexivity. Qed.

Lemma truthy_str_upper s : truthy_str (Some (upper s)) = upper <$> truthy_str (Some s).
Proof. destruct s; reflexivity. Qed.

Lemma parse_symbols_upper symbols : parse_symbols (upper <$> symbols) = parse_symbols symbols.
Proof.
  unfold parse_symbols. destruct symbols as [text|]; [|reflexivity]. simpl fmap.
  rewrite truthy_str_upper. destruct (truthy_str (Some text)) as [text'|] eqn:E; [|reflexivity].
  assert (text' = text) as ->.
  { unfold truthy_str in E. destruct (String.eqb text ""); congruence. }
  simpl. f_equal. rewrite split_on_upper, <- list_fmap_compose.
  apply list_fmap_ext. intros i s _. simpl. rewrite strip_upper, upper_idem. reflexivity.
Qed.

(** X19.  The [/rates] endpoint does not look at the case of the letters of
    the base currency and of the symbols: upper-casing them beforehand
    changes nothing of what it does. *)
Theorem rates_endpoint_ignores_case (strptime_ok : string -> bool) base symbols date' rt :
  rates_endpoint (R := R) strptime_ok (upper base) (upper <$> symbols) date' rt
  = rates_endpoint strptime_ok base symbols date' rt.
Proof.
  unfold rates_endpoint. rewrite upper_idem, parse_symbols_upper. reflexivity.
Qed.

End CaseFacts.

(** * Reading the scraped figures *)

Section ParseFacts.
Context {R : Type} `{RateArith R}.

Lemma remove_char_idem c s : remove_char c (remove_char c s) = remove_char c s.
Proof.
  induction s as [|x s IH]; simpl; [reflexivity|].
  destruct (Ascii.eqb x c) eqn:E; [exact IH|].
  simpl. rewrite E, IH. reflexivity.
Qed.

Lemma remove_char_nonempty c s : remove_char c s <> "" -> s <> "".
Proof. intros Hne ->. apply Hne. reflexivity. Qed.

(** X23.  [parse_rate_value] does not look at the dots of its text (the
    thousands separators of the Argentine format), as long as the text is
    more than dots. *)
Theorem parse_rate_value_ignores_dots text :
  remove_char "." text <> "" ->
  parse_rate_value (R := R) (remove_char "." text) = parse_rate_value text.
Proof.
  intros Hne. pose proof (remove_char_nonempty _ _ Hne) as Hne'.
  unfold parse_rate_value. rewrite remove_char_idem.
  apply String.eqb_neq in Hne, Hne'. rewrite Hne, Hne'. reflexivity.
Qed.

End ParseFacts.

(** ** The further properties at concrete inputs *)

Lemma insert_then_get_rate_witness :
  "official" <> ""
  /\ get_rate (db (insert_rate "USD" "EUR" (Some (85 # 100)%Q) "official" "2024-01-08"
                               "test" "t" empty_world).2)
              "USD" "EUR" "2024-01-08" (Some "official") = Some (85 # 100)%Q.
Proof.
  assert (Hne : "official" <> "") by (intros E; discriminate E).
  split; [exact Hne|].
  rewrite (insert_then_get_rate "USD" "EUR" (85 # 100)%Q "official" "2024-01-08" "test" "t"
             empty_world "USD" "EUR" "2024-01-08" "official" Hne).
  apply decide_True. split; reflexivity.
Defined.

Lemma get_all_one_rate_type_witness :
  "blue" <> ""
  /\ rate_at (get_all_rates_for_base priority_table "ARS" "2024-01-08" (Some "blue"))
             "USD" "official" = None
  /\ rate_at (get_all_rates_for_base priority_table "ARS" "2024-01-08" (Some "blue"))
             "USD" "blue" = Some (66 # 100000)%Q.
Proof.
  assert (Hne : "blue" <> "") by (intros E; discriminate E).
  split; [exact Hne|]. split.
  - rewrite (get_all_one_rate_type priority_table "ARS" "2024-01-08" "blue" "USD" "official"
               Hne).
    apply decide_False. intros E; discriminate E.
  - rewrite (get_all_one_rate_type priority_table "ARS" "2024-01-08" "blue" "USD" "blue" Hne).
    rewrite decide_True by reflexivity. vm_compute. reflexivity.
Defined.

Lemma rates_endpoint_dated_witness :
  truthy_str (Some "2024-13-45") = Some "2024-13-45"
  /\ strptime_ok_civil "2024-13-45" = false
  /\ rates_endpoint strptime_ok_civil "usd" None (Some "2024-13-45") None empty_world
     = (Ret (HTTPException 400), empty_world).
Proof.
  assert (Ht : truthy_str (Some "2024-13-45") = Some "2024-13-45") by reflexivity.
  assert (Hbad : strptime_ok_civil "2024-13-45" = false) by (vm_compute; reflexivity).
  split; [exact Ht|]. split; [exact Hbad|].
  pose proof (rates_endpoint_dated strptime_ok_civil "usd" None (Some "2024-13-45") None
                empty_world "2024-13-45" Ht) as Hdated.
  rewrite Hbad in Hdated. exact Hdated.
Defined.

Lemma rates_endpoint_undated_witness :
  truthy_str None = None
  /\ exists w' : QWorld,
       rates_endpoint strptime_ok_civil "usd" None None None empty_world
       = (Ret (HTTPException 500), w')
       /\ db w' = ∅.
Proof.
  assert (Ht : truthy_str None = None) by reflexivity.
  split; [exact Ht|].
  apply (rates_endpoint_undated strptime_ok_civil "usd" None None None empty_world Ht).
  - reflexivity.
  - split; constructor.
Defined.

Lemma fetch_and_store_count_witness :
  result_of (fetch_and_store_rates (Some "2024-01-08")) nonpositive_oxr_world = Ret 2
  /\ OXR_API_KEY nonpositive_oxr_world <> "".
Proof.
  assert (Hres : result_of (fetch_and_store_rates (Some "2024-01-08")) nonpositive_oxr_world
                 = Ret 2) by (vm_compute; reflexivity).
  split; [exact Hres|].
  assert (Hrun : fetch_and_store_rates (Some "2024-01-08") nonpositive_oxr_world
                 = (Ret 2, run (fetch_and_store_rates (Some "2024-01-08"))
                               nonpositive_oxr_world)).
  { unfold result_of, run in *. rewrite <- Hres. apply surjective_pairing. }
  exact (proj1 (fetch_and_store_count _ _ _ _ Hrun)).
Defined.


Lemma scrape_and_store_failures_witness :
  result_of (scrape_and_store_ars_rates (Some "2024-01-05")) down_world
    = Raise DolarScraperError
  /\ db (run (scrape_and_store_ars_rates (Some "2024-01-05")) down_world) = db down_world.
Proof.
  assert (Hres : result_of (scrape_and_store_ars_rates (Some "2024-01-05")) down_world
                 = Raise DolarScraperError) by (vm_compute; reflexivity).
  split; [exact Hres|].
  assert (Hrun : scrape_and_store_ars_rates (Some "2024-01-05") down_world
                 = (Raise DolarScraperError,
                    run (scrape_and_store_ars_rates (Some "2024-01-05")) down_world)).
  { unfold result_of, run in *. rewrite <- Hres. apply surjective_pairing. }
  destruct (scrape_and_store_failures _ _ _ _ Hrun) as [[_ Hdb] | [E | [E | E]]];
    [exact Hdb | discriminate E | discriminate E | discriminate E].
Defined.

Lemma scrape_and_store_count_witness :
  result_of (scrape_and_store_ars_rates (Some "2024-01-05")) weekend_world = Ret 14
  /\ 14 = 2 * Z.of_nat (length weekend_batch)
          + 4 * Z.of_nat (length (filter (fun item : string * (Q * Q) =>
                                            friday_item (H0 := Civil.lib) item = true)
                                         weekend_batch)).
Proof.
  assert (Ht : scrape_target_date (Some "2024-01-05") weekend_world
               = (Ret (19727 : @datetime Civil.lib), weekend_world)) by reflexivity.
  assert (Hf1 : result_of (fetch_historical_blue_rates
                             (strftime_ymd (add_days (19727 : @datetime Civil.lib) (-15)))
                             (strftime_ymd (add_days (19727 : @datetime Civil.lib) 15)))
                          weekend_world = Ret weekend_batch)
    by (vm_compute; reflexivity).
  assert (Hf : fetch_historical_blue_rates
                 (strftime_ymd (add_days (19727 : @datetime Civil.lib) (-15)))
                 (strftime_ymd (add_days (19727 : @datetime Civil.lib) 15)) weekend_world
               = (Ret weekend_batch,
                  run (fetch_historical_blue_rates
                         (strftime_ymd (add_days (19727 : @datetime Civil.lib) (-15)))
                         (strftime_ymd (add_days (19727 : @datetime Civil.lib) 15)))
                      weekend_world)).
  { unfold result_of, run in *. rewrite <- Hf1. apply surjective_pairing. }
  assert (Hres : result_of (scrape_and_store_ars_rates (Some "2024-01-05")) weekend_world
                 = Ret 14) by (vm_compute; reflexivity).
  assert (Hrun : scrape_and_store_ars_rates (Some "2024-01-05") weekend_world
                 = (Ret 14, run (scrape_and_store_ars_rates (Some "2024-01-05"))
                                weekend_world)).
  { unfold result_of, run in *. rewrite <- Hres. apply surjective_pairing. }
  split; [exact Hres|].
  exact (proj1 (scrape_and_store_count _ _ _ _ _ _ _ Ht Hf Hrun)).
Defined.

Lemma resolve_inverse_witness :
  providers_down inverse_down_world
  /\ exists rates w',
       get_rates "ARS" (Some ["USD"]) "2024-01-08" None inverse_down_world = (Ret rates, w')
       /\ rate_at rates "USD" "official" = Some (Qdiv 1 (146328213 # 100000)).
Proof.
  assert (Hdown : providers_down inverse_down_world).
  { split; simpl; (apply Forall_cons; split; [intros url; simpl | constructor]);
      [exact I | intros E; discriminate E]. }
  split; [exact Hdown|].
  refine (resolve_inverse "USD" "ARS" "2024-01-08" "official" None ["USD"]
            (stored (146328213 # 100000) "test") inverse_down_world Hdown _ _ _ _ _).
  - reflexivity.
  - reflexivity.
  - reflexivity.
  - exact I.
  - left.
Defined.

Lemma resolve_interpolated_witness :
  providers_down down_world
  /\ exists rates w',
       get_rates "EUR" (Some ["GBP"]) "2024-01-08" None down_world = (Ret rates, w')
       /\ rate_at rates "GBP" "official" = Some (Qmult (Qdiv 1 (85 # 100)) (75 # 100)).
Proof.
  assert (Hdown : providers_down down_world).
  { split; simpl; (apply Forall_cons; split; [intros url; simpl | constructor]);
      [exact I | intros E; discriminate E]. }
  split; [exact Hdown|].
  refine (resolve_interpolated "EUR" "GBP" "2024-01-08" "official" None ["GBP"]
            (stored (85 # 100) "test") (stored (75 # 100) "test") down_world Hdown
            _ _ _ _ _ _ _ _).
  - reflexivity.
  - reflexivity.
  - reflexivity.
  - reflexivity.
  - reflexivity.
  - vm_compute. reflexivity.
  - exact I.
  - left.
Defined.

Lemma parse_rate_value_ignores_dots_witness :
  remove_char "." "1.490,50" <> ""
  /\ parse_rate_value (R := Q) "1490,50" = parse_rate_value "1.490,50".
Proof.
  assert (Hne : remove_char "." "1.490,50" <> "") by (intros E; discriminate E).
  split; [exact Hne|].
  exact (parse_rate_value_ignores_dots (R := Q) "1.490,50" Hne).
Defined.

